(** * ida-hcli: protocol handlers and the embedded-interpreter bridge

    A shallow embedding of [src/hcli/lib/ida/protocol.py] and
    [src/hcli/lib/ida/python.py].

    Python [str] values are Rocq [string]s (the UTF-8 encoding of the text),
    [bytes] are [list Byte.byte], dictionaries and the file system are
    [gmap]s, and every function that touches the outside world is a
    computation in a small state-and-exception monad over an explicit
    [world]. *)

From Stdlib Require Import ZArith Bool Strings.Ascii Strings.String Strings.Byte.
From stdpp Require Import base option list gmap strings.

Local Open Scope Z_scope.
Local Open Scope stdpp_scope.

(** ** Python strings *)

Module PyStr.

(** [ord(c)] *)
Definition ord (c : ascii) : N := N_of_ascii c.

(** The line feed written [\n] in Python literals. *)
Definition LF : string := String (ascii_of_N 10) EmptyString.

(** The double-quote character (code 34). *)
Definition DQ : string := String (ascii_of_N 34) EmptyString.

(** [bool(s)] for a [str]: the empty string is falsy. *)
Definition truthy (s : string) : bool :=
  match s with EmptyString => false | String _ _ => true end.

(** [bool(x)] for an [Optional[str]]: [None] and [''] are falsy. *)
Definition truthy_opt (x : option string) : bool :=
  match x with None => false | Some s => truthy s end.

(** [a or b] on [Optional[str]] operands. *)
Definition py_or (a b : option string) : option string :=
  if truthy_opt a then a else b.

(** One character of [str.lower()]: the letters [A]..[Z] move to
    [a]..[z].  Code points outside ASCII are encoded with bytes of
    value 128 and above, which are left as they are; among those only
    U+0130 and U+212A have a lower-case form that contains an ASCII
    letter ([i] followed by U+0307, and [k]). *)
Definition lower_char (c : ascii) : ascii :=
  if ((65 <=? ord c) && (ord c <=? 90))%N
  then ascii_of_N (ord c + 32) else c.

(** [s.lower()] *)
Fixpoint lower (s : string) : string :=
  match s with
  | EmptyString => EmptyString
  | String c s' => String (lower_char c) (lower s')
  end.

(** [s.upper()] for a text of ASCII characters, the only kind the
    program applies it to (the constant [PROTOCOL]): the letters [a]..[z]
    move to [A]..[Z].  Outside ASCII Python changes letters this
    definition leaves alone, some of them into ASCII letters (U+0131
    into [I], U+017F into [S]), so it says nothing about such a text. *)
Definition upper_char (c : ascii) : ascii :=
  if ((97 <=? ord c) && (ord c <=? 122))%N
  then ascii_of_N (ord c - 32) else c.

Fixpoint upper (s : string) : string :=
  match s with
  | EmptyString => EmptyString
  | String c s' => String (upper_char c) (upper s')
  end.

(** [s.startswith(p)] *)
Fixpoint startswith (p s : string) : bool :=
  match p, s with
  | EmptyString, _ => true
  | String _ _, EmptyString => false
  | String a p', String b s' => Ascii.eqb a b && startswith p' s'
  end.

(** [s.endswith(p)] for a one-character [p]. *)
Fixpoint endswith_char (c : ascii) (s : string) : bool :=
  match s with
  | EmptyString => false
  | String a EmptyString => Ascii.eqb a c
  | String _ s' => endswith_char c s'
  end.

(** [x in s]: [x] occurs in [s] as a contiguous substring. *)
Fixpoint contains (x s : string) : bool :=
  startswith x s ||
  match s with
  | EmptyString => false
  | String _ s' => contains x s'
  end.

(** [s.replace(old, new)] scans left to right and replaces every
    non-overlapping occurrence.  [skip] counts the characters of a
    match that are still to be dropped. *)
Fixpoint replace_from (old new : string) (skip : nat) (s : string) : string :=
  match s with
  | EmptyString => EmptyString
  | String c s' =>
      match skip with
      | S k => replace_from old new k s'
      | O =>
          if startswith old s
          then new +:+ replace_from old new (Nat.pred (String.length old)) s'
          else String c (replace_from old new O s')
      end
  end.

(** With an empty [old], Python puts [new] around every character. *)
Fixpoint intersperse (new s : string) : string :=
  match s with
  | EmptyString => new
  | String c s' => new +:+ String c (intersperse new s')
  end.

Definition replace (old new s : string) : string :=
  match old with
  | EmptyString => intersperse new s
  | String _ _ => replace_from old new O s
  end.

End PyStr.

(** ** Python bytes and [bytes.decode()] *)

Module PyBytes.

Definition bytes := list byte.

Definition b2n (b : byte) : N := Byte.to_N b.

(** A continuation byte, [0x80..0xBF]. *)
Definition cont (b : byte) : bool := ((128 <=? b2n b) && (b2n b <=? 191))%N.

Definition between (lo hi : N) (b : byte) : bool :=
  ((lo <=? b2n b) && (b2n b <=? hi))%N.

(** The strict UTF-8 check of [bytes.decode()] (no overlong forms, no
    surrogates, nothing above U+10FFFF). *)
Fixpoint valid_utf8 (bs : bytes) : bool :=
  match bs with
  | [] => true
  | b0 :: r0 =>
      if between 0 127 b0 then valid_utf8 r0
      else match r0 with
      | [] => false
      | b1 :: r1 =>
          if between 194 223 b0 then cont b1 && valid_utf8 r1
          else match r1 with
          | [] => false
          | b2 :: r2 =>
              if between 224 239 b0 then
                (if (b2n b0 =? 224)%N then between 160 191 b1
                 else if (b2n b0 =? 237)%N then between 128 159 b1
                 else cont b1)
                && cont b2 && valid_utf8 r2
              else match r2 with
              | [] => false
              | b3 :: r3 =>
                  if between 240 244 b0 then
                    (if (b2n b0 =? 240)%N then between 144 191 b1
                     else if (b2n b0 =? 244)%N then between 128 143 b1
                     else cont b1)
                    && cont b2 && cont b3 && valid_utf8 r3
                  else false
              end
          end
      end
  end.

(** [bs.decode()]: the text when [bs] is well-formed UTF-8, [None] when
    Python raises [UnicodeDecodeError]. *)
Definition decode (bs : bytes) : option string :=
  if valid_utf8 bs then Some (string_of_list_byte bs) else None.

(** [s.encode()] *)
Definition encode (s : string) : bytes := list_byte_of_string s.

End PyBytes.

(** ** Exceptions and the computation monad *)

Module Py.
Import PyBytes.

(** The exception classes the two modules raise, catch or let through. *)
Inductive exn_class :=
  | BaseException_ | Exception_
  | OSError_ | FileNotFoundError_ | FileExistsError_ | PermissionError_
  | NotADirectoryError_ | IsADirectoryError_
  | ValueError_ | UnicodeError_ | UnicodeDecodeError_
  | CantInstallPackagesError_
  | RuntimeError_ | ImportError_ | SyntaxError_
  | SubprocessError_ | CalledProcessError_ | TimeoutExpired_.

Global Instance exn_class_eq_dec : EqDecision exn_class.
Proof. solve_decision. Defined.

(** The direct base class.  [CantInstallPackagesError] is declared as
    [class CantInstallPackagesError(ValueError)]. *)
Definition base_class (c : exn_class) : option exn_class :=
  match c with
  | BaseException_ => None
  | Exception_ => Some BaseException_
  | OSError_ | ValueError_ | RuntimeError_ | ImportError_ | SyntaxError_
  | SubprocessError_ => Some Exception_
  | FileNotFoundError_ | FileExistsError_ | PermissionError_
  | NotADirectoryError_ | IsADirectoryError_ => Some OSError_
  | UnicodeError_ | CantInstallPackagesError_ => Some ValueError_
  | UnicodeDecodeError_ => Some UnicodeError_
  | CalledProcessError_ | TimeoutExpired_ => Some SubprocessError_
  end.

(** [issubclass(c, d)]; the hierarchy above is four levels deep. *)
Fixpoint issubclass_upto (fuel : nat) (c d : exn_class) : bool :=
  bool_decide (c = d) ||
  match fuel, base_class c with
  | S k, Some b => issubclass_upto k b d
  | _, _ => false
  end.

Definition issubclass : exn_class -> exn_class -> bool := issubclass_upto 4.

(** Exception values with the attributes the code sets or reads. *)
Inductive exn :=
  | OSError (kind : exn_class) (filename : string)
  | CalledProcessError (returncode : Z) (cmd : list string)
                       (output stderr : option bytes)
  | TimeoutExpired (cmd : list string) (timeout : Z)
  | CantInstallPackagesError (msg : string)
  | ValueError (msg : string)
  | SyntaxError (msg : string)        (* the reason, without the position *)
  | UnicodeDecodeError (object : bytes)
  | RuntimeError (msg : string)
  | RuntimeError_from (msg : string) (cause : exn)   (* raise ... from cause *)
  | ImportError (name : string).

Definition class_of (e : exn) : exn_class :=
  match e with
  | OSError kind _ => if issubclass kind OSError_ then kind else OSError_
  | CalledProcessError _ _ _ _ => CalledProcessError_
  | TimeoutExpired _ _ => TimeoutExpired_
  | CantInstallPackagesError _ => CantInstallPackagesError_
  | ValueError _ => ValueError_
  | SyntaxError _ => SyntaxError_
  | UnicodeDecodeError _ => UnicodeDecodeError_
  | RuntimeError _ | RuntimeError_from _ _ => RuntimeError_
  | ImportError _ => ImportError_
  end.

(** [isinstance(e, c)] *)
Definition isinstance (e : exn) (c : exn_class) : bool :=
  issubclass (class_of e) c.

(** How a call ends. *)
Inductive res (A : Type) :=
  | Return (a : A)
  | Raise (e : exn).
Arguments Return {A} a.
Arguments Raise {A} e.

End Py.

(** ** The world outside the program *)

Module Os.
Import PyStr PyBytes Py.

(** A file-system entry; a regular file has its text and permission bits. *)
Inductive node :=
  | Dir
  | File (content : string) (mode : Z).

Global Instance node_eq_dec : EqDecision node.
Proof. solve_decision. Defined.

(** A registry value; the code writes only [REG_SZ] data. *)
Inductive reg_value :=
  | REG_SZ (data : string).

Global Instance reg_value_eq_dec : EqDecision reg_value.
Proof. solve_decision. Defined.

(** The one script the bridge runs inside the host application. *)
Inductive script :=
  | FIND_PYTHON_PY.

(** What was asked of external collaborators, oldest first. *)
Inductive call :=
  | Subprocess (args : list string) (timeout : option Z)
  | IdaPython (code : script).

Inductive log_level := DEBUG | WARNING.

(** A printed or logged line: plain text, or an f-string with an
    exception formatted in the middle. *)
Inductive message :=
  | Msg (text : string)
  | MsgExn (before : string) (e : exn) (after : string).

Record world := World {
  environ : gmap string string;            (* os.environ *)
  fs : gmap string node;                   (* persistent files, by path *)
  scratch : gmap string string;            (* files made through tempfile *)
  registry : gmap string (gmap string reg_value);  (* HKEY_CURRENT_USER *)
  mime_default : gmap string string;       (* xdg-mime defaults *)
  launch_services : gset string;           (* bundles known to lsregister *)
  console : list message;                  (* console.print, oldest first *)
  logged : list (log_level * message);     (* logger records *)
  calls : list call
}.

(** The state that outlives a command: everything a later run can read
    back.  Console output, log records, the call history and scratch
    files are left out. *)
Record artifacts := Artifacts {
  a_fs : gmap string node;
  a_registry : gmap string (gmap string reg_value);
  a_mime_default : gmap string string;
  a_launch_services : gset string
}.

Definition artifacts_of (w : world) : artifacts :=
  Artifacts (fs w) (registry w) (mime_default w) (launch_services w).

Definition with_environ (e : gmap string string) (w : world) : world :=
  World e (fs w) (scratch w) (registry w) (mime_default w)
        (launch_services w) (console w) (logged w) (calls w).
Definition with_fs (f : gmap string node) (w : world) : world :=
  World (environ w) f (scratch w) (registry w) (mime_default w)
        (launch_services w) (console w) (logged w) (calls w).
Definition with_scratch (s : gmap string string) (w : world) : world :=
  World (environ w) (fs w) s (registry w) (mime_default w)
        (launch_services w) (console w) (logged w) (calls w).
Definition with_registry (r : gmap string (gmap string reg_value))
    (w : world) : world :=
  World (environ w) (fs w) (scratch w) r (mime_default w)
        (launch_services w) (console w) (logged w) (calls w).
Definition with_mime_default (m : gmap string string) (w : world) : world :=
  World (environ w) (fs w) (scratch w) (registry w) m
        (launch_services w) (console w) (logged w) (calls w).
Definition with_launch_services (l : gset string) (w : world) : world :=
  World (environ w) (fs w) (scratch w) (registry w) (mime_default w)
        l (console w) (logged w) (calls w).
Definition with_console (c : list message) (w : world) : world :=
  World (environ w) (fs w) (scratch w) (registry w) (mime_default w)
        (launch_services w) c (logged w) (calls w).
Definition with_logged (l : list (log_level * message)) (w : world)
    : world :=
  World (environ w) (fs w) (scratch w) (registry w) (mime_default w)
        (launch_services w) (console w) l (calls w).
Definition with_calls (c : list call) (w : world) : world :=
  World (environ w) (fs w) (scratch w) (registry w) (mime_default w)
        (launch_services w) (console w) (logged w) c.

(** Why [subprocess.run] can fail to hand back a completed process when
    its arguments are well-formed strings. *)
Inductive run_failure :=
  | Timeout          (* the timeout passed to the call expired *)
  | NoSuchFile       (* the executable does not exist *)
  | NotPermitted     (* the executable may not be run *)
  | OtherOSError.    (* any other failure of the OS to start it *)

Inductive proc_outcome :=
  | Completed (returncode : Z) (stdout stderr : bytes)
  | Failed (f : run_failure).

(** Everything the program asks of its host and cannot control. *)
Record host := Host {
  platform_system : string;          (* platform.system() *)
  home : string;                     (* Path.home() *)
  hcli_executable_path : string;     (* get_hcli_executable_path() *)
  has_winreg : bool;                 (* whether [import winreg] works *)
  tmp_dir : string;                  (* name chosen by TemporaryDirectory *)
  tmp_plist : string;                (* name chosen by NamedTemporaryFile *)
  new_file_mode : Z;                 (* mode of a newly created file *)
  spawn : list string -> option Z -> proc_outcome;
  fresh_plist : string;              (* Info.plist of a new applet *)
  osacompile_keeps_plist : bool;     (* recompiling keeps Info.plist *)
  ENV_HCLI_CURRENT_IDA_PYTHON_EXE : option string;
  idapython : script -> res string   (* run_py_in_current_idapython *)
}.

(** Computations: read and change the world, return or raise. *)
Definition M (A : Type) : Type := world -> res A * world.

Global Instance M_ret : MRet M := fun A a w => (Return a, w).
Global Instance M_bind : MBind M := fun A B f m w =>
  match m w with
  | (Return a, w') => f a w'
  | (Raise e, w') => (Raise e, w')
  end.

Definition raise {A} (e : exn) : M A := fun w => (Raise e, w).
Definition get : M world := fun w => (Return w, w).
Definition modify (f : world -> world) : M unit := fun w => (Return tt, f w).
Definition pass : M unit := mret tt.

(** [try: body / except c1: h1 / except c2: h2 ...]: the first clause
    whose class the exception is an instance of handles it. *)
Fixpoint find_handler {A} (e : exn) (hs : list (exn_class * (exn -> M A)))
    : option (M A) :=
  match hs with
  | [] => None
  | (c, h) :: hs' => if isinstance e c then Some (h e) else find_handler e hs'
  end.

Definition try_except {A} (body : M A) (hs : list (exn_class * (exn -> M A)))
    : M A := fun w =>
  match body w with
  | (Return a, w') => (Return a, w')
  | (Raise e, w') =>
      match find_handler e hs with
      | Some h => h w'
      | None => (Raise e, w')
      end
  end.

(** [with ctx: body], where [leave] is what the context manager does on
    the way out, on a normal exit and when an exception passes. *)
Definition with_exit {A} (body : M A) (leave : M unit) : M A := fun w =>
  match body w with
  | (Return a, w') =>
      match leave w' with
      | (Return _, w'') => (Return a, w'')
      | (Raise e, w'') => (Raise e, w'')
      end
  | (Raise e, w') =>
      match leave w' with
      | (Return _, w'') => (Raise e, w'')
      | (Raise e', w'') => (Raise e', w'')
      end
  end.

(** [console.print(msg)] *)
Definition console_print (msg : message) : M unit :=
  modify (fun w => with_console (console w ++ [msg]) w).

(** [logger.debug(msg)] and [logger.warning(msg)] *)
Definition logger (lvl : log_level) (msg : message) : M unit :=
  modify (fun w => with_logged (logged w ++ [(lvl, msg)]) w).

(** *** Paths *)

(** [a / b] on [pathlib.Path] values, kept as their text. *)
Definition path_div (a b : string) : string := a +:+ "/" +:+ b.

(** The prefixes of [s] that end just before a separator, shortest first,
    then [acc ++ s] itself: a path's ancestors and the path. *)
Fixpoint prefixes_at (sep : ascii) (acc s : string) : list string :=
  match s with
  | EmptyString => [acc]
  | String c s' =>
      (if Ascii.eqb c sep && truthy acc then [acc] else [])
      ++ prefixes_at sep (acc +:+ String c EmptyString) s'
  end.

Definition slash : ascii := ascii_of_N 47.
Definition backslash : ascii := ascii_of_N 92.

(** [Path(p).parent], as text; [None] at the top. *)
Definition parent_dir (p : string) : option string :=
  last (removelast (prefixes_at slash EmptyString p)).

(** *** File-system primitives *)

(** [p.exists()] *)
Definition path_exists (p : string) : M bool :=
  w ← get; mret (bool_decide (is_Some (fs w !! p))).

(** The directories [target.mkdir(parents=True, exist_ok=True)] walks
    through: an existing directory is kept, a missing one is made, a
    regular file in the way is an error.  The error is the one of the
    first [os.mkdir(target)], so it names [target]: [FileExistsError]
    when [target] itself is the file, [NotADirectoryError] when the file
    is one of the directories above it. *)
Fixpoint mkdir_chain (target : string) (ps : list string)
    (f : gmap string node) : res (gmap string node) :=
  match ps with
  | [] => Return f
  | p :: ps' =>
      match f !! p with
      | Some Dir => mkdir_chain target ps' f
      | Some (File _ _) =>
          Raise (OSError (match ps' with
                          | [] => FileExistsError_
                          | _ => NotADirectoryError_
                          end) target)
      | None => mkdir_chain target ps' (<[p := Dir]> f)
      end
  end.

(** [p.mkdir(parents=True, exist_ok=True)] *)
Definition mkdir_parents_exist_ok (p : string) : M unit := fun w =>
  match mkdir_chain p (prefixes_at slash EmptyString p) (fs w) with
  | Return f => (Return tt, with_fs f w)
  | Raise e => (Raise e, w)
  end.

(** Whether the directory that is to hold [p] is there. *)
Definition parent_is_dir (p : string) (f : gmap string node) : bool :=
  match parent_dir p with
  | None => true
  | Some d => bool_decide (f !! d = Some Dir)
  end.

(** [p.write_text(text)]: truncate or create.  An existing file keeps its
    permission bits, a new one gets the host's default. *)
Definition write_text (h : host) (p text : string) : M unit := fun w =>
  match fs w !! p with
  | Some Dir => (Raise (OSError IsADirectoryError_ p), w)
  | Some (File _ m) => (Return tt, with_fs (<[p := File text m]> (fs w)) w)
  | None =>
      if parent_is_dir p (fs w)
      then (Return tt, with_fs (<[p := File text (new_file_mode h)]> (fs w)) w)
      else (Raise (OSError FileNotFoundError_ p), w)
  end.

(** [p.chmod(mode)] *)
Definition chmod (p : string) (mode : Z) : M unit := fun w =>
  match fs w !! p with
  | Some Dir => (Return tt, w)
  | Some (File c _) => (Return tt, with_fs (<[p := File c mode]> (fs w)) w)
  | None => (Raise (OSError FileNotFoundError_ p), w)
  end.

(** [p.unlink()] on Linux, where the program calls it: a directory is
    refused with [IsADirectoryError]. *)
Definition unlink (p : string) : M unit := fun w =>
  match fs w !! p with
  | Some (File _ _) => (Return tt, with_fs (delete p (fs w)) w)
  | Some Dir => (Raise (OSError IsADirectoryError_ p), w)
  | None => (Raise (OSError FileNotFoundError_ p), w)
  end.

(** Whether [q] is [p] or lies below it. *)
Definition within (p q : string) : bool :=
  bool_decide (q = p) || startswith (p +:+ "/") q.

(** [shutil.rmtree(p)] *)
Definition rmtree (p : string) : M unit := fun w =>
  match fs w !! p with
  | Some Dir =>
      (Return tt, with_fs (filter (fun kv => within p kv.1 = false) (fs w)) w)
  | Some (File _ _) => (Raise (OSError NotADirectoryError_ p), w)
  | None => (Raise (OSError FileNotFoundError_ p), w)
  end.

(** *** Scratch files made through [tempfile] *)

(** Writing to a file inside the temporary directory, or to the open
    [NamedTemporaryFile]. *)
Definition tmp_write (name text : string) : M unit :=
  modify (fun w => with_scratch (<[name := text]> (scratch w)) w).

(** Leaving [with tempfile.TemporaryDirectory()]: the directory goes, and
    with it the one file the code put there. *)
Definition tmp_cleanup (name : string) : M unit :=
  modify (fun w => with_scratch (delete name (scratch w)) w).

(** The mode [NamedTemporaryFile] creates its file with, [0o600]. *)
Definition tmp_mode : Z := 384.

(** [shutil.copy2(src, dst)] from a scratch file: content and permission
    bits are copied. *)
Definition copy2_from_tmp (src dst : string) : M unit := fun w =>
  match scratch w !! src with
  | None => (Raise (OSError FileNotFoundError_ src), w)
  | Some text =>
      match fs w !! dst with
      | Some Dir => (Raise (OSError IsADirectoryError_ dst), w)
      | Some (File _ _) =>
          (Return tt, with_fs (<[dst := File text tmp_mode]> (fs w)) w)
      | None =>
          if parent_is_dir dst (fs w)
          then (Return tt, with_fs (<[dst := File text tmp_mode]> (fs w)) w)
          else (Raise (OSError FileNotFoundError_ dst), w)
      end
  end.

(** [os.unlink(name)] on a scratch file. *)
Definition tmp_unlink (name : string) : M unit := fun w =>
  match scratch w !! name with
  | None => (Raise (OSError FileNotFoundError_ name), w)
  | Some _ => (Return tt, with_scratch (delete name (scratch w)) w)
  end.

(** *** The registry ([winreg]) *)

(** [winreg.CreateKey(HKEY_CURRENT_USER, sub_key)]: opens the key, after
    creating it and any missing key above it with no values.  The handle
    is the key's path. *)
Definition CreateKey (sub_key : string) : M string :=
  modify (fun w => with_registry
    (foldl (fun r k => match r !! k with
                       | Some _ => r
                       | None => <[k := ∅]> r
                       end)
           (registry w) (prefixes_at backslash EmptyString sub_key)) w) ;;
  mret sub_key.

(** [winreg.SetValueEx(key, name, 0, REG_SZ, data)] on an open handle. *)
Definition SetValueEx (key name data : string) : M unit := fun w =>
  match registry w !! key with
  | None => (Raise (OSError OSError_ key), w)
  | Some vs =>
      (Return tt,
       with_registry (<[key := <[name := REG_SZ data]> vs]> (registry w)) w)
  end.

(** Whether some key lies directly or indirectly below [key]. *)
Definition has_subkey (r : gmap string (gmap string reg_value)) (key : string)
    : bool :=
  existsb (fun k => startswith (key +:+ String backslash EmptyString) k)
          (elements (dom r)).

(** [winreg.DeleteKeyEx(HKEY_CURRENT_USER, sub_key)]: a missing key is
    [FileNotFoundError], a key that still has subkeys is refused with
    [PermissionError], any other key goes with its values. *)
Definition DeleteKeyEx (sub_key : string) : M unit := fun w =>
  match registry w !! sub_key with
  | None => (Raise (OSError FileNotFoundError_ sub_key), w)
  | Some _ =>
      if has_subkey (registry w) sub_key
      then (Raise (OSError PermissionError_ sub_key), w)
      else (Return tt, with_registry (delete sub_key (registry w)) w)
  end.

(** [import winreg] *)
Definition import_winreg (h : host) : M unit :=
  if has_winreg h then pass else raise (ImportError "winreg").

(** *** Subprocesses *)

Record CompletedProcess := {
  returncode : Z;
  stdout : bytes;
  stderr : bytes
}.

(** What is known of an external tool: given how the host says the run
    ends, what it does to the world and what it finally reports. *)
Definition tool : Type := proc_outcome -> world -> proc_outcome * world.

(** A tool whose effects lie outside the modelled state. *)
Definition opaque : tool := fun r w => (r, w).

Definition exn_of_failure (f : run_failure) (args : list string)
    (timeout : option Z) : exn :=
  match f with
  | Timeout => TimeoutExpired args (default 0 timeout)
  | NoSuchFile => OSError FileNotFoundError_ (default EmptyString (head args))
  | NotPermitted => OSError PermissionError_ (default EmptyString (head args))
  | OtherOSError => OSError OSError_ (default EmptyString (head args))
  end.

(** [subprocess.run(args, check=check, timeout=timeout, ...)].  With
    [capture] the error raised by [check] carries the captured output. *)
Definition subprocess_run (h : host) (t : tool) (args : list string)
    (check capture : bool) (timeout : option Z) : M CompletedProcess := fun w =>
  let w0 := with_calls (calls w ++ [Subprocess args timeout]) w in
  match t (spawn h args timeout) w0 with
  | (Failed f, w1) => (Raise (exn_of_failure f args timeout), w1)
  | (Completed rc out err, w1) =>
      if check && negb (rc =? 0)
      then (Raise (CalledProcessError rc args
                     (if capture then Some out else None)
                     (if capture then Some err else None)), w1)
      else (Return {| returncode := rc; stdout := out; stderr := err |}, w1)
  end.




End Os.

(** ** [hcli/lib/ida/protocol.py] *)

Module Protocol.
Import PyStr PyBytes Py Os.

Definition PROTOCOL : string := "ida".

(** *** External tools, as far as the program relies on them *)

(** The paths of an applet bundle that the model tracks. *)
Definition bundle_dirs (app : string) : list string :=
  [app; app +:+ "/Contents"; app +:+ "/Contents/Resources";
   app +:+ "/Contents/Resources/Scripts"].
Definition bundle_script (app : string) : string :=
  app +:+ "/Contents/Resources/Scripts/main.scpt".
Definition bundle_plist (app : string) : string :=
  app +:+ "/Contents/Info.plist".

(** The Info.plist a compilation leaves: a new one, or the one already in
    the bundle when the host's osacompile keeps it. *)
Definition compiled_plist (h : host) (app : string) (f : gmap string node)
    : node :=
  match f !! bundle_plist app with
  | Some (File c m) =>
      if osacompile_keeps_plist h then File c m
      else File (fresh_plist h) (new_file_mode h)
  | _ => File (fresh_plist h) (new_file_mode h)
  end.

(** [osacompile -o app script]: writes the bundle, with the script
    compiled into it. *)
Definition osacompile (h : host) (app script : string) : tool := fun r w =>
  match r with
  | Completed 0 out err =>
      match scratch w !! script with
      | None => (Completed 1 out err, w)
      | Some source =>
          (r, with_fs
                (<[bundle_plist app := compiled_plist h app (fs w)]>
                 (<[bundle_script app := File source (new_file_mode h)]>
                  (foldr (fun d f => <[d := Dir]> f) (fs w)
                         (bundle_dirs app)))) w)
      end
  | _ => (r, w)
  end.

(** [plutil -convert xml1 -o - file]: prints the property list as XML.  A
    property list file holds the same text whichever format it is
    stored in. *)
Definition plutil_xml1 (file : string) : tool := fun r w =>
  match r with
  | Completed 0 out err =>
      match fs w !! file with
      | Some (File text _) => (Completed 0 (encode text) err, w)
      | _ => (Completed 1 out err, w)
      end
  | _ => (r, w)
  end.

(** [plutil -convert binary1 file] on a scratch file: stored format
    changes, text does not. *)
Definition plutil_binary1 (file : string) : tool := fun r w =>
  match r with
  | Completed 0 out err =>
      match scratch w !! file with
      | Some _ => (r, w)
      | None => (Completed 1 out err, w)
      end
  | _ => (r, w)
  end.

(** [lsregister -f app] and [lsregister -u app] *)
Definition lsregister (add : bool) (app : string) : tool := fun r w =>
  match r with
  | Completed 0 _ _ =>
      (r, with_launch_services
            (if add then {[app]} ∪ launch_services w
             else launch_services w ∖ {[app]}) w)
  | _ => (r, w)
  end.

(** [xdg-mime default entry mimetype] *)
Definition xdg_mime_default (entry mimetype : string) : tool := fun r w =>
  match r with
  | Completed 0 _ _ =>
      (r, with_mime_default (<[mimetype := entry]> (mime_default w)) w)
  | _ => (r, w)
  end.

Definition LSREGISTER : string :=
  "/System/Library/Frameworks/CoreServices.framework/Versions/A/Frameworks/LaunchServices.framework/Versions/A/Support/lsregister".

(** *** macOS *)

Definition applescript_content (hcli_path log_file : string) : string :=
  LF +:+ "on open location this_URL" +:+ LF
  +:+ "    set logFile to " +:+ DQ +:+ log_file +:+ DQ +:+ LF
  +:+ "    do shell script " +:+ DQ +:+ "/bin/zsh -l -c " +:+ DQ
  +:+ " & quoted form of (" +:+ DQ +:+ hcli_path +:+ " ida open " +:+ DQ
  +:+ " & quoted form of this_URL) & " +:+ DQ +:+ " >> " +:+ DQ
  +:+ " & quoted form of logFile & " +:+ DQ +:+ " 2>&1" +:+ DQ +:+ LF
  +:+ "end open location" +:+ LF
  +:+ LF
  +:+ "on run" +:+ LF
  +:+ "    -- This handler is called when the app is launched directly" +:+ LF
  +:+ "end run" +:+ LF.

Definition url_scheme_xml : string :=
  LF +:+ "        <key>CFBundleURLTypes</key>" +:+ LF
  +:+ "        <array>" +:+ LF
  +:+ "            <dict>" +:+ LF
  +:+ "                <key>CFBundleURLName</key>" +:+ LF
  +:+ "                <string>IDB URL Handler</string>" +:+ LF
  +:+ "                <key>CFBundleURLSchemes</key>" +:+ LF
  +:+ "                <array>" +:+ LF
  +:+ "                    <string>" +:+ PROTOCOL +:+ "</string>" +:+ LF
  +:+ "                </array>" +:+ LF
  +:+ "            </dict>" +:+ LF
  +:+ "        </array>" +:+ LF
  +:+ "        <key>LSUIElement</key>" +:+ LF
  +:+ "        <true/>".

Definition macos_app_path (h : host) : string :=
  path_div (path_div (home h) "Applications") "HCLIHandler.app".

Definition setup_macos_protocol_handler (h : host) : M unit :=
  try_except
    (let hcli_path := hcli_executable_path h in
     let log_file := "/tmp/idb_handler.log" in
     let applescript_content := applescript_content hcli_path log_file in
     let temp_dir := tmp_dir h in
     let script_path := path_div temp_dir "HCLIHandler.applescript" in
     with_exit
       (let app_path := macos_app_path h in
        tmp_write script_path applescript_content ;;
        subprocess_run h (osacompile h app_path script_path)
          ["osacompile"; "-o"; app_path; script_path] true false None ;;
        let info_plist_path := path_div (path_div app_path "Contents") "Info.plist" in
        result ← subprocess_run h (plutil_xml1 info_plist_path)
          ["plutil"; "-convert"; "xml1"; "-o"; "-"; info_plist_path]
          true true None ;
        (* text=True: the captured bytes are handed back as text *)
        let plist_content := string_of_list_byte (stdout result) in
        (if negb (contains "<key>CFBundleURLTypes</key>" plist_content) then
           let plist_content :=
             replace ("</dict>" +:+ LF +:+ "</plist>")
                     (url_scheme_xml +:+ LF +:+ "</dict>" +:+ LF +:+ "</plist>")
                     plist_content in
           let temp_plist_path := tmp_plist h in
           tmp_write temp_plist_path plist_content ;;
           subprocess_run h (plutil_binary1 temp_plist_path)
             ["plutil"; "-convert"; "binary1"; temp_plist_path]
             true false None ;;
           copy2_from_tmp temp_plist_path info_plist_path ;;
           tmp_unlink temp_plist_path
         else pass) ;;
        subprocess_run h (lsregister true app_path)
          [LSREGISTER; "-f"; app_path] true false None ;;
        console_print
          (Msg ("[green]✓[/green] macOS protocol handler installed at "
                +:+ app_path)))
       (tmp_cleanup script_path))
    [(CalledProcessError_, fun e =>
        console_print
          (MsgExn "[red]Failed to set up macOS protocol handler: " e "[/red]") ;;
        raise e);
     (Exception_, fun e =>
        console_print
          (MsgExn "[red]Error setting up macOS protocol handler: " e "[/red]") ;;
        raise e)].

Definition unregister_macos_protocol_handler (h : host) : M unit :=
  try_except
    (let app_path := macos_app_path h in
     there ← path_exists app_path ;
     if negb there then
       console_print
         (Msg "[yellow]macOS protocol handler not found (already removed)[/yellow]")
     else
       rmtree app_path ;;
       subprocess_run h (lsregister false app_path)
         [LSREGISTER; "-u"; app_path] false false None ;;
       console_print
         (Msg ("[green]✓[/green] macOS protocol handler removed from "
               +:+ app_path)))
    [(Exception_, fun e =>
        console_print
          (MsgExn "[red]Error removing macOS protocol handler: " e "[/red]") ;;
        raise e)].

(** *** Windows *)

Definition reg_key : string := "SOFTWARE\Classes\" +:+ PROTOCOL.

Definition setup_windows_protocol_handler (h : host) : M unit :=
  try_except
    (import_winreg h ;;
     let hcli_path := hcli_executable_path h in
     let command :=
       DQ +:+ hcli_path +:+ DQ +:+ " ida open " +:+ DQ +:+ "%1" +:+ DQ in
     (key ← CreateKey reg_key ;
      SetValueEx key "" ("URL:" +:+ upper PROTOCOL +:+ " Protocol") ;;
      SetValueEx key "URL Protocol" "") ;;
     (key ← CreateKey (reg_key +:+ "\DefaultIcon") ;
      SetValueEx key "" (hcli_path +:+ ",1")) ;;
     (key ← CreateKey (reg_key +:+ "\shell") ;
      pass) ;;
     (key ← CreateKey (reg_key +:+ "\shell\open") ;
      pass) ;;
     (key ← CreateKey (reg_key +:+ "\shell\open\command") ;
      SetValueEx key "" command) ;;
     console_print
       (Msg ("[green]✓[/green] Windows protocol handler (" +:+ PROTOCOL
             +:+ "://) registered in registry")))
    [(ImportError_, fun e =>
        console_print
          (Msg "[red]winreg module not available (not on Windows?)[/red]") ;;
        raise e);
     (Exception_, fun e =>
        (* not an f-string in the source: the braces are printed *)
        console_print
          (Msg "[red]Error setting up Windows protocol handler: {e}[/red]") ;;
        raise e)].

Definition unregister_windows_protocol_handler (h : host) : M unit :=
  try_except
    (import_winreg h ;;
     removed ← try_except
       (DeleteKeyEx (reg_key +:+ "\shell\open\command") ;;
        DeleteKeyEx (reg_key +:+ "\shell\open") ;;
        DeleteKeyEx (reg_key +:+ "\shell") ;;
        DeleteKeyEx (reg_key +:+ "\DefaultIcon") ;;
        DeleteKeyEx reg_key ;;
        mret true)
       [(FileNotFoundError_, fun _ => mret false)] ;
     if (removed : bool) then
       console_print
         (Msg ("[green]✓[/green] Windows protocol handler (" +:+ PROTOCOL
               +:+ "://) removed from registry"))
     else
       console_print
         (Msg "[yellow]Windows protocol handler not found (already removed)[/yellow]"))
    [(ImportError_, fun e =>
        console_print
          (Msg "[red]winreg module not available (not on Windows?)[/red]") ;;
        raise e);
     (Exception_, fun e =>
        console_print
          (MsgExn "[red]Error removing Windows protocol handler: " e "[/red]") ;;
        raise e)].

(** *** Linux *)

Definition desktop_content (hcli_path : string) : string :=
  "[Desktop Entry]" +:+ LF
  +:+ "Name=HCLI IDB Link Handler" +:+ LF
  +:+ "Exec=" +:+ hcli_path +:+ " ida open %u" +:+ LF
  +:+ "Type=Application" +:+ LF
  +:+ "NoDisplay=true" +:+ LF
  +:+ "MimeType=x-scheme-handler/" +:+ PROTOCOL +:+ ";" +:+ LF.

Definition linux_applications_dir (h : host) : string :=
  path_div (path_div (path_div (home h) ".local") "share") "applications".

Definition linux_desktop_path (h : host) : string :=
  path_div (linux_applications_dir h) "hcli-idb-handler.desktop".

Definition setup_linux_protocol_handler (h : host) : M unit :=
  try_except
    (let hcli_path := hcli_executable_path h in
     let applications_dir := linux_applications_dir h in
     mkdir_parents_exist_ok applications_dir ;;
     let desktop_content := desktop_content hcli_path in
     let desktop_path := path_div applications_dir "hcli-idb-handler.desktop" in
     write_text h desktop_path desktop_content ;;
     chmod desktop_path 493 (* 0o755 *) ;;
     subprocess_run h
       (xdg_mime_default "hcli-idb-handler.desktop"
          ("x-scheme-handler/" +:+ PROTOCOL))
       ["xdg-mime"; "default"; "hcli-idb-handler.desktop";
        "x-scheme-handler/" +:+ PROTOCOL] true false None ;;
     subprocess_run h opaque
       ["update-desktop-database"; applications_dir] false false None ;;
     console_print (Msg "[green]✓[/green] Linux protocol handler installed:") ;;
     console_print
       (Msg ("    " +:+ PROTOCOL +:+ ":// -> " +:+ desktop_path)))
    [(CalledProcessError_, fun e =>
        console_print
          (MsgExn "[red]Failed to set up Linux protocol handler: " e "[/red]") ;;
        raise e);
     (Exception_, fun e =>
        console_print
          (MsgExn "[red]Error setting up Linux protocol handler: " e "[/red]") ;;
        raise e)].

Definition unregister_linux_protocol_handler (h : host) : M unit :=
  try_except
    (let applications_dir := linux_applications_dir h in
     let desktop_path := path_div applications_dir "hcli-idb-handler.desktop" in
     there ← path_exists desktop_path ;
     if negb there then
       console_print
         (Msg "[yellow]Linux protocol handler not found (already removed)[/yellow]")
     else
       unlink desktop_path ;;
       subprocess_run h
         (xdg_mime_default "" ("x-scheme-handler/" +:+ PROTOCOL))
         ["xdg-mime"; "default"; ""; "x-scheme-handler/" +:+ PROTOCOL]
         false false None ;;
       subprocess_run h opaque
         ["update-desktop-database"; applications_dir] false false None ;;
       console_print
         (Msg ("[green]✓[/green] Linux protocol handler (" +:+ PROTOCOL
               +:+ "://) removed")))
    [(Exception_, fun e =>
        console_print
          (MsgExn "[red]Error removing Linux protocol handler: " e "[/red]") ;;
        raise e)].

(** *** Platform dispatch *)

Definition unsupported (current_platform : string) : M unit :=
  console_print
    (Msg ("[red]Unsupported platform: " +:+ current_platform +:+ "[/red]")) ;;
  raise (RuntimeError
           ("Platform " +:+ current_platform +:+ " is not supported")).

Definition register_protocol_handler (h : host) : M unit :=
  let current_platform := lower (platform_system h) in
  if String.eqb current_platform "darwin" then
    setup_macos_protocol_handler h
  else if String.eqb current_platform "windows" then
    setup_windows_protocol_handler h
  else if String.eqb current_platform "linux" then
    setup_linux_protocol_handler h
  else unsupported current_platform.

Definition unregister_protocol_handler (h : host) : M unit :=
  let current_platform := lower (platform_system h) in
  if String.eqb current_platform "darwin" then
    unregister_macos_protocol_handler h
  else if String.eqb current_platform "windows" then
    unregister_windows_protocol_handler h
  else if String.eqb current_platform "linux" then
    unregister_linux_protocol_handler h
  else unsupported current_platform.

End Protocol.

(** ** The discovery script [FIND_PYTHON_PY]

    The script runs inside the host application's interpreter; what it can
    see of that interpreter is gathered in [interpreter]. *)

Module FindPythonPy.
Import PyStr Py.

Record interpreter := Interpreter {
  sys_executable : option string;      (* may be None or empty *)
  sys_prefix : string;
  sys_platform : string;
  os_path_join : string -> string -> string;
  os_path_basename : string -> string;
  os_path_isfile : string -> bool;
  shutil_which : string -> option string
}.

(** [os.path.join(a, b, c)] joins from the left. *)
Definition os_path_join3 (i : interpreter) (a b c : string) : string :=
  os_path_join i (os_path_join i a b) c.

(** [for x in xs: ... return ...]: the value returned by the first
    iteration that returns, [None] when the loop runs to its end. *)
Fixpoint for_return {A R : Type} (xs : list A) (body : A -> option R)
    : option R :=
  match xs with
  | [] => None
  | x :: xs' =>
      match body x with
      | Some r => Some r
      | None => for_return xs' body
      end
  end.

Definition is_windows_store_shim (path : option string) : bool :=
  match path with
  | None => false
  | Some path =>
      let lowered := lower path in
      contains "microsoft\windowsapps" lowered
      || contains "microsoft/windowsapps" lowered
  end.

Definition find_python_from_prefix (i : interpreter) : option string :=
  let prefix := sys_prefix i in
  if negb (truthy prefix) then None
  else
    match
      (if String.eqb (sys_platform i) "win32" then
         let candidate := os_path_join i prefix "python.exe" in
         if os_path_isfile i candidate then Some candidate else None
       else None)
    with
    | Some candidate => Some candidate
    | None =>
        for_return ["python3"; "python"] (fun name =>
          let candidate := os_path_join3 i prefix "bin" name in
          if os_path_isfile i candidate then Some candidate else None)
    end.

Definition find_python_executable (i : interpreter) : option string :=
  (* 1. sys.executable, if it looks like a Python interpreter *)
  let exe := sys_executable i in
  match
    (if truthy_opt exe
        && contains "python" (lower (os_path_basename i (default EmptyString exe)))
     then if negb (is_windows_store_shim exe) then exe else None
     else None)
  with
  | Some exe => Some exe
  | None =>
      (* 2. from sys.prefix *)
      let prefix_python := find_python_from_prefix i in
      if truthy_opt prefix_python && negb (is_windows_store_shim prefix_python)
      then prefix_python
      else
        (* 3. shutil.which, without Windows Store shims *)
        match
          for_return ["python3"; "python"] (fun cmd =>
            let candidate := shutil_which i cmd in
            if truthy_opt candidate && negb (is_windows_store_shim candidate)
            then candidate else None)
        with
        | Some candidate => Some candidate
        | None =>
            (* 4. whatever can be found, even a shim *)
            py_or (shutil_which i "python3") (shutil_which i "python")
        end
  end.

(** *** The text of the script

    In python.py [FIND_PYTHON_PY] is an ordinary triple-quoted literal,
    not a raw one: Python decodes its escape sequences when python.py is
    loaded, and what reaches the host application is the decoded text.
    There the text is compiled as a program of its own, and the literals
    it holds are decoded once more. *)

(** [chr(n)], in UTF-8. *)
Definition chr (n : N) : string :=
  let b (x : N) := ascii_of_N x in
  (if n <? 128 then String (b n) EmptyString
   else if n <? 2048 then
     String (b (192 + n / 64)) (String (b (128 + n mod 64)) EmptyString)
   else if n <? 65536 then
     String (b (224 + n / 4096))
       (String (b (128 + (n / 64) mod 64))
          (String (b (128 + n mod 64)) EmptyString))
   else
     String (b (240 + n / 262144))
       (String (b (128 + (n / 4096) mod 64))
          (String (b (128 + (n / 64) mod 64))
             (String (b (128 + n mod 64)) EmptyString))))%N.

Definition octal_value (c : ascii) : option N :=
  (if (48 <=? ord c) && (ord c <=? 55) then Some (ord c - 48) else None)%N.

Definition hex_value (c : ascii) : option N :=
  (if (48 <=? ord c) && (ord c <=? 57) then Some (ord c - 48)
   else if (97 <=? ord c) && (ord c <=? 102) then Some (ord c - 87)
   else if (65 <=? ord c) && (ord c <=? 70) then Some (ord c - 55)
   else None)%N.

(** Where the decoder of a string literal stands between two
    characters. *)
Inductive escape_state :=
  | Plain
  | Backslash                                   (* a backslash was read *)
  | Octal (due : nat) (value : N)              (* up to [due] more digits *)
  | Hex (kind : ascii) (due : nat) (value : N) (* [due] more digits due *)
  | Name (opened : bool) (name : string).       (* inside [\N{name}] *)

Definition truncated (kind : ascii) : exn :=
  SyntaxError
    (if Ascii.eqb kind "x"%char then "truncated \xXX escape"
     else if Ascii.eqb kind "u"%char then "truncated \uXXXX escape"
     else "truncated \UXXXXXXXX escape").

Definition plain_step (c : ascii) : escape_state * string :=
  if Ascii.eqb c Os.backslash then (Backslash, EmptyString)
  else (Plain, String c EmptyString).

(** The character after a backslash.  A backslash before a character
    that starts no escape sequence stays in the text. *)
Definition backslash_step (c : ascii) : escape_state * string :=
  let n := ord c in
  (if n =? 10 then (Plain, EmptyString)                  (* line break *)
   else if (n =? 92) || (n =? 39) || (n =? 34)
   then (Plain, String c EmptyString)                    (* \ ' and the double quote *)
   else if n =? 97 then (Plain, chr 7)                   (* a *)
   else if n =? 98 then (Plain, chr 8)                   (* b *)
   else if n =? 102 then (Plain, chr 12)                 (* f *)
   else if n =? 110 then (Plain, chr 10)                 (* n *)
   else if n =? 114 then (Plain, chr 13)                 (* r *)
   else if n =? 116 then (Plain, chr 9)                  (* t *)
   else if n =? 118 then (Plain, chr 11)                 (* v *)
   else if n =? 120 then (Hex c 2 0, EmptyString)        (* x *)
   else if n =? 117 then (Hex c 4 0, EmptyString)        (* u *)
   else if n =? 85 then (Hex c 8 0, EmptyString)         (* U *)
   else if n =? 78 then (Name false EmptyString, EmptyString)   (* N *)
   else match octal_value c with
        | Some d => (Octal 2 d, EmptyString)
        | None => (Plain, String Os.backslash (String c EmptyString))
        end)%N.

(** One character of a literal.  [names] is the table of character
    names behind [\N{name}]. *)
Definition escape_step (names : string -> option N) (st : escape_state)
    (c : ascii) : res (escape_state * string) :=
  match st with
  | Plain => Return (plain_step c)
  | Backslash => Return (backslash_step c)
  | Octal due value =>
      match due, octal_value c with
      | S k, Some d => Return (Octal k (8 * value + d)%N, EmptyString)
      | _, _ =>
          let '(st', out) := plain_step c in Return (st', chr value +:+ out)
      end
  | Hex kind due value =>
      match hex_value c with
      | None => Raise (truncated kind)
      | Some d =>
          let value' := (16 * value + d)%N in
          match due with
          | S (S k) => Return (Hex kind (S k) value', EmptyString)
          | _ =>
              if (value' <=? 1114111)%N then Return (Plain, chr value')
              else Raise (SyntaxError "illegal Unicode character")
          end
      end
  | Name false _ =>
      if Ascii.eqb c "{"%char then Return (Name true EmptyString, EmptyString)
      else Raise (SyntaxError "malformed \N character escape")
  | Name true name =>
      if Ascii.eqb c "}"%char then
        match names name with
        | Some n => Return (Plain, chr n)
        | None => Raise (SyntaxError "unknown Unicode character name")
        end
      else Return (Name true (name +:+ String c EmptyString), EmptyString)
  end.

(** The end of the literal. *)
Definition escape_end (st : escape_state) : res string :=
  match st with
  | Plain => Return EmptyString
  | Backslash => Raise (SyntaxError "\ at end of string")
  | Octal _ value => Return (chr value)
  | Hex kind _ _ => Raise (truncated kind)
  | Name _ _ => Raise (SyntaxError "malformed \N character escape")
  end.

Fixpoint unescape_from (names : string -> option N) (st : escape_state)
    (s : string) : res string :=
  match s with
  | EmptyString => escape_end st
  | String c s' =>
      match escape_step names st c with
      | Raise e => Raise e
      | Return (st', out) =>
          match unescape_from names st' s' with
          | Raise e => Raise e
          | Return rest => Return (out +:+ rest)
          end
      end
  end.

(** The text a literal that is neither raw nor of bytes stands for, from
    what is written between its quotes; an escape sequence that cannot
    be decoded is a [SyntaxError] of the program that holds the
    literal. *)
Definition unescape (names : string -> option N) (s : string) : res string :=
  unescape_from names Plain s.

(** The docstring of the script's [is_windows_store_shim] as python.py
    has it between the two triple quotes (lines 40 to 47). *)
Definition shim_docstring_in_file : string :=
  "Check if a path is a Windows Store Python shim." +:+ LF
  +:+ LF
  +:+ "    The Windows Store shims are at paths like:" +:+ LF
  +:+ "        C:\\Users\\...\\AppData\\Local\\Microsoft\\WindowsApps\\python3.EXE" +:+ LF
  +:+ LF
  +:+ "    These are just redirectors that don't work like a real Python installation" +:+ LF
  +:+ "    and should be avoided." +:+ LF
  +:+ "    ".

(** The same docstring in the text that is handed to the host
    application. *)
Definition shim_docstring_in_script (names : string -> option N)
    : res string :=
  unescape names shim_docstring_in_file.

(** Compiling the script.  Its other literals hold no backslash, but for
    [microsoft\\\\windowsapps], which the script reads as an escaped
    backslash; whether the text compiles is decided by the docstring,
    which the script's own compiler decodes as the literal it is. *)
Definition compile_script (names : string -> option N) : res unit :=
  match shim_docstring_in_script names with
  | Raise e => Raise e
  | Return text =>
      match unescape names text with
      | Raise e => Raise e
      | Return _ => Return tt
      end
  end.

(** Running the script inside the host application: the whole text is
    compiled first, and only then do its functions come to exist and
    [find_python_executable()] is called. *)
Definition run_script (names : string -> option N) (i : interpreter)
    : res (option string) :=
  match compile_script names with
  | Raise e => Raise e
  | Return _ => Return (find_python_executable i)
  end.

End FindPythonPy.

(** ** [hcli/lib/ida/python.py] *)

Module IdaPython.
Import PyStr PyBytes Py Os.

(** A [pathlib.Path], kept as the text it was built from. *)
Inductive path :=
  | Path (text : string).

(** [str(p)] *)
Definition str (p : path) : string := match p with Path text => text end.

Definition is_windows_store_shim (path : option string) : bool :=
  match path with
  | None => false
  | Some path =>
      (* Normalize to lowercase and check for both slash types *)
      let lowered := lower path in
      contains "microsoft\windowsapps" lowered
      || contains "microsoft/windowsapps" lowered
  end.

(** [os.environ.get(name)] *)
Definition os_environ_get (name : string) : M (option string) :=
  w ← get; mret (environ w !! name).

(** [run_py_in_current_idapython(code)], the collaborator that runs a
    script inside the host application and hands back what it printed
    after the sentinel. *)
Definition run_py_in_current_idapython (h : host) (code : script) : M string :=
  fun w => (idapython h code, with_calls (calls w ++ [IdaPython code]) w).

Definition find_current_python_executable (h : host) : M path :=
  exe ← os_environ_get "HCLI_CURRENT_IDA_PYTHON_EXE" ;
  if truthy_opt exe then mret (Path (default EmptyString exe))
  else
    match ENV_HCLI_CURRENT_IDA_PYTHON_EXE h with
    | Some configured => mret (Path configured)
    | None =>
        exe ← try_except
          (run_py_in_current_idapython h FIND_PYTHON_PY)
          [(RuntimeError_, fun e =>
              raise (RuntimeError_from
                       "failed to determine current IDA Python interpreter" e))] ;
        (if negb (contains "python" exe) then
           logger WARNING
             (Msg ("'python' not found in discovered IDA Python interpreter path: "
                   +:+ exe))
         else pass) ;;
        logger DEBUG (Msg ("found IDA Python interpreter path: " +:+ exe)) ;;
        mret (Path exe)
    end.

(** [bs.decode()] as a step that may raise. *)
Definition decode_ (bs : bytes) : M string :=
  match decode bs with
  | Some text => mret text
  | None => raise (UnicodeDecodeError bs)
  end.


Definition verify_pip_can_install_packages (h : host) (python_exe : path)
    (packages : list string) : M unit :=
  process ← subprocess_run h opaque
    ([str python_exe; "-m"; "pip"; "install"; "--dry-run"] ++ packages)
    false true None ;
  let '(stdout, stderr) := (stdout process, stderr process) in
  if negb (returncode process =? 0) then
    logger DEBUG (Msg "can't install packages") ;;
    (text ← decode_ stdout ; logger DEBUG (Msg text)) ;;
    (text ← decode_ stderr ; logger DEBUG (Msg text)) ;;
    text ← decode_ stdout ;
    raise (CantInstallPackagesError text)
  else pass.


Definition pip_freeze (h : host) (python_exe : path) : M string :=
  process ← subprocess_run h opaque
    [str python_exe; "-m"; "pip"; "freeze"] false true None ;
  let stdout := stdout process in
  if negb (returncode process =? 0) then
    raise (CalledProcessError (returncode process)
             [str python_exe; "-m"; "pip"; "freeze"] None None)
  else decode_ stdout.

End IdaPython.

(** ** Statements the properties are phrased with *)

Module Claims.
Import PyStr PyBytes Py Os.

(** [needle] occurs in [s] when letter case is ignored: some contiguous
    piece of [s] lower-cases to [needle]. *)
Definition occurs_ignoring_case (needle s : string) : Prop :=
  exists before piece after : string,
    s = before +:+ piece +:+ after /\ lower piece = needle.

(** The claim about [verify_pip_can_install_packages], as it is worded:
    a normal return exactly on exit code zero, and on every other exit
    code [CantInstallPackagesError] with the captured standard output as
    its text. *)
Definition verify_pip_claim (h : host) (python_exe : IdaPython.path)
    (packages : list string) (w : world) : Prop :=
  let args :=
    [IdaPython.str python_exe; "-m"; "pip"; "install"; "--dry-run"]
    ++ packages in
  let r := (IdaPython.verify_pip_can_install_packages h python_exe packages w).1 in
  (r = Return tt <-> exists out err, spawn h args None = Completed 0 out err)
  /\ (forall rc out err,
        spawn h args None = Completed rc out err -> rc <> 0 ->
        exists text, decode out = Some text
                     /\ r = Raise (CantInstallPackagesError text)).


(** The claim about [pip_freeze], as it is worded: on exit code zero the
    captured standard output comes back as text, on any other exit code
    a [CalledProcessError] without captured output. *)
Definition pip_freeze_claim (h : host) (python_exe : IdaPython.path)
    (w : world) : Prop :=
  let args := [IdaPython.str python_exe; "-m"; "pip"; "freeze"] in
  let r := (IdaPython.pip_freeze h python_exe w).1 in
  (forall out err,
     spawn h args None = Completed 0 out err ->
     exists text, decode out = Some text /\ r = Return text)
  /\ (forall rc out err,
        spawn h args None = Completed rc out err -> rc <> 0 ->
        r = Raise (CalledProcessError rc args None None)).

(** *** Protocol handlers *)

Inductive platform := MacOS | Windows | Linux.

(** The host reports the platform, in any letter case. *)
Definition runs_on (p : platform) (h : host) : Prop :=
  lower (platform_system h)
  = match p with
    | MacOS => "darwin"
    | Windows => "windows"
    | Linux => "linux"
    end.

(** A registry key at or below [root]. *)
Definition key_within (root k : string) : Prop :=
  k = root \/ startswith (root +:+ "\") k = true.

(** No handler artifact exists: no bundle directory, no registry subtree
    (on a host where [winreg] can be imported), no desktop-entry file. *)
Definition handler_absent (p : platform) (h : host) (w : world) : Prop :=
  match p with
  | MacOS => fs w !! Protocol.macos_app_path h = None
  | Windows =>
      has_winreg h = true
      /\ forall k, key_within Protocol.reg_key k -> registry w !! k = None
  | Linux => fs w !! Protocol.linux_desktop_path h = None
  end.

Definition already_removed (p : platform) : message :=
  match p with
  | MacOS =>
      Msg "[yellow]macOS protocol handler not found (already removed)[/yellow]"
  | Windows =>
      Msg "[yellow]Windows protocol handler not found (already removed)[/yellow]"
  | Linux =>
      Msg "[yellow]Linux protocol handler not found (already removed)[/yellow]"
  end.

(** The world after one more printed line. *)
Definition after_print (m : message) (w : world) : world :=
  with_console (console w ++ [m]) w.

(** The keys [unregister_windows_protocol_handler] deletes, in its order. *)
Definition deletion_sequence : list string :=
  [Protocol.reg_key +:+ "\shell\open\command";
   Protocol.reg_key +:+ "\shell\open";
   Protocol.reg_key +:+ "\shell";
   Protocol.reg_key +:+ "\DefaultIcon";
   Protocol.reg_key].

(** [winreg.DeleteKeyEx] accepts to delete [k]. *)
Definition can_delete (r : gmap string (gmap string reg_value)) (k : string)
    : Prop :=
  is_Some (r !! k) /\ has_subkey r k = false.

(** The registry once the keys [ks] are gone. *)
Definition without_keys (ks : list string)
    (r : gmap string (gmap string reg_value))
    : gmap string (gmap string reg_value) :=
  foldl (fun r k => delete k r) r ks.

(** The world after one more external command. *)
Definition after_call (c : call) (w : world) : world :=
  with_calls (calls w ++ [c]) w.

(** Two exception classes neither of which is a kind of the other. *)
Definition unrelated (c d : exn_class) : Prop :=
  issubclass c d = false /\ issubclass d c = false.

(** *** Sample hosts and worlds *)

Definition empty_world : world :=
  World ∅ ∅ ∅ ∅ ∅ ∅ [] [] [].

(** A host on which every external command ends as [spawn] says. *)
Definition sample_host (system : string)
    (spawn : list string -> option Z -> proc_outcome)
    (configured : option string) (discovered : res string) : host :=
  Host system "/home/user" "/usr/local/bin/hcli" true
       "/tmp/tmpk3x9" "/tmp/tmpq7.plist" 420 spawn
       EmptyString true configured (fun _ => discovered).

(** A dry run that ends with exit code 1, a conflict report on standard
    output, and a byte on standard error that is not UTF-8 (0xFC, a
    letter of a Windows code page). *)
Definition conflict_spawn : list string -> option Z -> proc_outcome :=
  fun _ _ =>
    Completed 1 (encode "ERROR: ResolutionImpossible") [Byte.xfc].

(** A freeze listing that ends with exit code 0 and holds the byte 0xFC. *)
Definition latin1_spawn : list string -> option Z -> proc_outcome :=
  fun _ _ =>
    Completed 0 (encode "pkg @ file:///C:/Users/J" ++ [Byte.xfc]
                 ++ encode "rgen/pkg") [].

(** A dry run that reports a conflict in plain ASCII. *)
Definition ascii_conflict_spawn : list string -> option Z -> proc_outcome :=
  fun _ _ =>
    Completed 1 (encode "ERROR: ResolutionImpossible") (encode "WARNING").

(** A freeze listing in plain ASCII. *)
Definition ascii_freeze_spawn : list string -> option Z -> proc_outcome :=
  fun _ _ => Completed 0 (encode "flare-capa==9.2.1") [].

(** The name of the environment override. *)
Definition OVERRIDE : string := "HCLI_CURRENT_IDA_PYTHON_EXE".

(** A process environment in which the override is set to [value]. *)
Definition override_world (value : string) : world :=
  with_environ {[ OVERRIDE := value ]} empty_world.

(** A host of the given platform with nothing installed: no command can
    be started, no interpreter is configured, no instance is running. *)
Definition bare_host (system : string) : host :=
  sample_host system (fun _ _ => Failed NoSuchFile) None
              (Raise (RuntimeError "no running instance")).

(** A registry in which the handler's subtree lacks its [DefaultIcon]
    key and is otherwise as registration leaves it. *)
Definition partial_registry : gmap string (gmap string reg_value) :=
  {[ "SOFTWARE" := ∅;
     "SOFTWARE\Classes" := ∅;
     "SOFTWARE\Classes\ida" :=
       {[ "" := REG_SZ "URL:IDA Protocol"; "URL Protocol" := REG_SZ "" ]};
     "SOFTWARE\Classes\ida\shell" := ∅;
     "SOFTWARE\Classes\ida\shell\open" := ∅;
     "SOFTWARE\Classes\ida\shell\open\command" :=
       {[ "" := REG_SZ "hcli ida open %1" ]} ]}.

Definition partial_registry_world : world :=
  with_registry partial_registry empty_world.

(** *** Registration *)

Import Protocol.

(** A handler that prints and raises again never turns a failure into a
    normal return. *)
Definition reraises {A : Type} (hs : list (exn_class * (exn -> M A))) : Prop :=
  Forall (fun ch => forall e w, exists e' w', ch.2 e w = (Raise e', w')) hs.

(** [s[n:]] *)
Fixpoint string_drop (n : nat) (s : string) : string :=
  match n, s with
  | O, _ => s
  | S k, EmptyString => EmptyString
  | S k, String _ s' => string_drop k s'
  end.

(** The command lines of the Linux registration. *)
Definition xdg_mime_args : list string :=
  ["xdg-mime"; "default"; "hcli-idb-handler.desktop";
   "x-scheme-handler/" +:+ PROTOCOL].
Definition update_desktop_database_args (h : host) : list string :=
  ["update-desktop-database"; linux_applications_dir h].

(** The Linux handler is in place: the applications directory and the
    directories above it exist, the desktop entry holds the text for this
    executable and is executable, and it is the default for the scheme. *)
Definition linux_registered (h : host) (w : world) : Prop :=
  Forall (fun p => fs w !! p = Some Dir)
         (prefixes_at slash EmptyString (linux_applications_dir h))
  /\ fs w !! linux_desktop_path h
     = Some (File (desktop_content (hcli_executable_path h)) 493)
  /\ mime_default w !! ("x-scheme-handler/" +:+ PROTOCOL)
     = Some "hcli-idb-handler.desktop".

(** xdg-mime exits with code zero and update-desktop-database can be
    started. *)
Definition linux_tools_succeed (h : host) : Prop :=
  (exists out err, spawn h xdg_mime_args None = Completed 0 out err)
  /\ (exists rc out err,
        spawn h (update_desktop_database_args h) None = Completed rc out err).

(** *** The registry after a Windows registration *)

(** Opening a key creates it when it is missing. *)
Definition ensure_key (r : gmap string (gmap string reg_value)) (k : string)
    : gmap string (gmap string reg_value) :=
  match r !! k with
  | Some _ => r
  | None => <[k := ∅]> r
  end.

(** [CreateKey] on the registry alone. *)
Definition create_key (k : string) (r : gmap string (gmap string reg_value))
    : gmap string (gmap string reg_value) :=
  foldl ensure_key r (prefixes_at backslash EmptyString k).

(** [SetValueEx] on the registry alone, for a key that exists. *)
Definition set_value (k name data : string)
    (r : gmap string (gmap string reg_value))
    : gmap string (gmap string reg_value) :=
  alter (insert name (REG_SZ data)) k r.

(** The command registered for the scheme. *)
Definition windows_command (h : host) : string :=
  DQ +:+ hcli_executable_path h +:+ DQ +:+ " ida open " +:+ DQ +:+ "%1" +:+ DQ.

(** The registry writes of [setup_windows_protocol_handler], in order. *)
Definition windows_registry_writes (h : host)
    : list (gmap string (gmap string reg_value)
            -> gmap string (gmap string reg_value)) :=
  [create_key reg_key;
   set_value reg_key "" ("URL:" +:+ upper PROTOCOL +:+ " Protocol");
   set_value reg_key "URL Protocol" "";
   create_key (reg_key +:+ "\DefaultIcon");
   set_value (reg_key +:+ "\DefaultIcon") "" (hcli_executable_path h +:+ ",1");
   create_key (reg_key +:+ "\shell");
   create_key (reg_key +:+ "\shell\open");
   create_key (reg_key +:+ "\shell\open\command");
   set_value (reg_key +:+ "\shell\open\command") "" (windows_command h)].

Definition windows_registry (h : host)
    (r : gmap string (gmap string reg_value))
    : gmap string (gmap string reg_value) :=
  foldl (fun r write => write r) r (windows_registry_writes h).

Definition windows_registered_message : message :=
  Msg ("[green]✓[/green] Windows protocol handler (" +:+ PROTOCOL
       +:+ "://) registered in registry").

(** *** The bundle after a macOS registration *)

Definition URL_TYPES_KEY : string := "<key>CFBundleURLTypes</key>".

Definition PLIST_END : string := "</dict>" +:+ LF +:+ "</plist>".

(** The property list with the URL scheme declared before its end. *)
Definition patched_plist (text : string) : string :=
  replace PLIST_END (url_scheme_xml +:+ LF +:+ PLIST_END) text.

Definition macos_script_path (h : host) : string :=
  path_div (tmp_dir h) "HCLIHandler.applescript".

Definition macos_source (h : host) : string :=
  applescript_content (hcli_executable_path h) "/tmp/idb_handler.log".

(** The command lines of the macOS registration. *)
Definition osacompile_args (h : host) : list string :=
  ["osacompile"; "-o"; macos_app_path h; macos_script_path h].
Definition plutil_xml1_args (h : host) : list string :=
  ["plutil"; "-convert"; "xml1"; "-o"; "-"; bundle_plist (macos_app_path h)].
Definition plutil_binary1_args (h : host) : list string :=
  ["plutil"; "-convert"; "binary1"; tmp_plist h].
Definition lsregister_args (h : host) : list string :=
  [LSREGISTER; "-f"; macos_app_path h].

(** The files of the bundle as osacompile leaves them. *)
Definition compiled_bundle (h : host) (f : gmap string node)
    : gmap string node :=
  <[bundle_plist (macos_app_path h) := compiled_plist h (macos_app_path h) f]>
    (<[bundle_script (macos_app_path h)
         := File (macos_source h) (new_file_mode h)]>
       (foldr (fun d f => <[d := Dir]> f) f (bundle_dirs (macos_app_path h)))).

(** The text of the property list osacompile leaves. *)
Definition compiled_text (h : host) (f : gmap string node) : string :=
  match compiled_plist h (macos_app_path h) f with
  | File text _ => text
  | Dir => EmptyString
  end.

(** The declaration is still to be added. *)
Definition needs_patch (h : host) (f : gmap string node) : bool :=
  negb (contains URL_TYPES_KEY (compiled_text h f)).

(** The files after [setup_macos_protocol_handler]. *)
Definition macos_fs (h : host) (f : gmap string node) : gmap string node :=
  if needs_patch h f
  then <[bundle_plist (macos_app_path h)
           := File (patched_plist (compiled_text h f)) tmp_mode]>
         (compiled_bundle h f)
  else compiled_bundle h f.

(** Every tool the macOS registration runs exits with code zero. *)
Definition macos_tools_succeed (h : host) (f : gmap string node) : Prop :=
  (exists out err, spawn h (osacompile_args h) None = Completed 0 out err)
  /\ (exists out err, spawn h (plutil_xml1_args h) None = Completed 0 out err)
  /\ (needs_patch h f = true ->
      exists out err,
        spawn h (plutil_binary1_args h) None = Completed 0 out err)
  /\ (exists out err, spawn h (lsregister_args h) None = Completed 0 out err).

(** *** Sample hosts for registration *)

(** Every external command exits with code zero and prints nothing. *)
Definition all_succeed : list string -> option Z -> proc_outcome :=
  fun _ _ => Completed 0 [] [].

(** The Info.plist of a newly compiled applet, in short. *)
Definition applet_plist : string :=
  "<plist version=1.0>" +:+ LF +:+ "<dict>" +:+ LF
  +:+ "    <key>CFBundleName</key>" +:+ LF
  +:+ "    <string>HCLIHandler</string>" +:+ LF
  +:+ "</dict>" +:+ LF +:+ "</plist>" +:+ LF.

(** A host on which registration goes through; [keeps] says whether its
    osacompile keeps the Info.plist of a bundle it recompiles. *)
Definition working_host (system : string) (keeps : bool) : host :=
  Host system "/home/user" "/usr/local/bin/hcli" true
       "/tmp/tmpk3x9" "/tmp/tmpq7.plist" 420 all_succeed
       applet_plist keeps None (fun _ => Raise (RuntimeError "no instance")).

(** What one registry write does to the entry of [k]. *)
Definition ensure_at (k' k : string) (x : option (gmap string reg_value))
    : option (gmap string reg_value) :=
  if decide (k = k') then Some (default ∅ x) else x.

Definition set_at (k' name data k : string)
    (x : option (gmap string reg_value)) : option (gmap string reg_value) :=
  if decide (k = k') then insert name (REG_SZ data) <$> x else x.

End Claims.

(** ** Statements of further properties *)

Module Behaviour.
Import PyStr PyBytes Py Os Protocol Claims.

(** Two characters that are equal, or one ASCII letter in its two
    cases. *)
Definition same_letter (a b : ascii) : bool :=
  Ascii.eqb a b
  || ((65 <=? ord a) && (ord a <=? 90) && (ord b =? ord a + 32))%N
  || ((65 <=? ord b) && (ord b <=? 90) && (ord a =? ord b + 32))%N.

(** Two texts that differ at most in the case of ASCII letters. *)
Fixpoint same_but_ascii_case (s t : string) : bool :=
  match s, t with
  | EmptyString, EmptyString => true
  | String a s', String b t' => same_letter a b && same_but_ascii_case s' t'
  | _, _ => false
  end.

(** *** Protocol handlers *)

Definition windows_removed_message : message :=
  Msg ("[green]✓[/green] Windows protocol handler (" +:+ PROTOCOL
       +:+ "://) removed from registry").

(** The handler's subtree as registration leaves it, with a subkey of
    another program under [shell]. *)
Definition shared_registry : gmap string (gmap string reg_value) :=
  {[ "SOFTWARE" := ∅;
     "SOFTWARE\Classes" := ∅;
     "SOFTWARE\Classes\ida" :=
       {[ "" := REG_SZ "URL:IDA Protocol"; "URL Protocol" := REG_SZ "" ]};
     "SOFTWARE\Classes\ida\DefaultIcon" := {[ "" := REG_SZ "hcli,1" ]};
     "SOFTWARE\Classes\ida\shell" := ∅;
     "SOFTWARE\Classes\ida\shell\edit" := ∅;
     "SOFTWARE\Classes\ida\shell\open" := ∅;
     "SOFTWARE\Classes\ida\shell\open\command" :=
       {[ "" := REG_SZ "hcli ida open %1" ]} ]}.

Definition shared_registry_world : world :=
  with_registry shared_registry empty_world.

(** The handler's subtree as registration leaves it. *)
Definition registered_registry : gmap string (gmap string reg_value) :=
  {[ "SOFTWARE" := ∅;
     "SOFTWARE\Classes" := ∅;
     "SOFTWARE\Classes\ida" :=
       {[ "" := REG_SZ "URL:IDA Protocol"; "URL Protocol" := REG_SZ "" ]};
     "SOFTWARE\Classes\ida\DefaultIcon" := {[ "" := REG_SZ "hcli,1" ]};
     "SOFTWARE\Classes\ida\shell" := ∅;
     "SOFTWARE\Classes\ida\shell\open" := ∅;
     "SOFTWARE\Classes\ida\shell\open\command" :=
       {[ "" := REG_SZ "hcli ida open %1" ]} ]}.

Definition registered_registry_world : world :=
  with_registry registered_registry empty_world.

(** The command line that clears the scheme's default on Linux. *)
Definition xdg_mime_clear_args : list string :=
  ["xdg-mime"; "default"; ""; "x-scheme-handler/" +:+ PROTOCOL].

Definition linux_removed_message : message :=
  Msg ("[green]✓[/green] Linux protocol handler (" +:+ PROTOCOL
       +:+ "://) removed").

(** The scheme's pseudo MIME type. *)
Definition scheme_mimetype : string := "x-scheme-handler/" +:+ PROTOCOL.

(** A Linux host on which xdg-mime exits with [rc] and every other
    command with code zero. *)
Definition xdg_exit_host (rc : Z) : host :=
  Host "Linux" "/home/user" "/usr/local/bin/hcli" true
       "/tmp/tmpk3x9" "/tmp/tmpq7.plist" 420
       (fun args _ =>
          match args with
          | cmd :: _ =>
              if String.eqb cmd "xdg-mime" then Completed rc [] []
              else Completed 0 [] []
          | [] => Completed 0 [] []
          end)
       EmptyString true None (fun _ => Raise (RuntimeError "no instance")).

(** A Linux host without update-desktop-database. *)
Definition no_update_host : host :=
  Host "Linux" "/home/user" "/usr/local/bin/hcli" true
       "/tmp/tmpk3x9" "/tmp/tmpq7.plist" 420
       (fun args _ =>
          match args with
          | cmd :: _ =>
              if String.eqb cmd "update-desktop-database"
              then Failed NoSuchFile else Completed 0 [] []
          | [] => Completed 0 [] []
          end)
       EmptyString true None (fun _ => Raise (RuntimeError "no instance")).

(** A world whose only file is a desktop entry left by an earlier
    version. *)
Definition stale_entry_world : world :=
  with_fs {[ "/home/user/.local/share/applications/hcli-idb-handler.desktop"
             := File "[Desktop Entry]" 420 ]} empty_world.

(** The error line of a failed xdg-mime run. *)
Definition linux_failed_message (e : exn) : message :=
  MsgExn "[red]Failed to set up Linux protocol handler: " e "[/red]".

(** The error line of any other failure of the Linux registration. *)
Definition linux_error_message (e : exn) : message :=
  MsgExn "[red]Error setting up Linux protocol handler: " e "[/red]".

(** The empty world once the applications directory is made, and once
    the desktop entry is written, on host [h]. *)
Definition with_applications_dir (h : host) : world :=
  (mkdir_parents_exist_ok (linux_applications_dir h) empty_world).2.

Definition with_desktop_entry (h : host) : world :=
  (write_text h (linux_desktop_path h)
     (desktop_content (hcli_executable_path h)) (with_applications_dir h)).2.

(** A Linux host on which update-desktop-database exits with [rc] and
    every other command with code zero. *)
Definition update_exit_host (rc : Z) : host :=
  Host "Linux" "/home/user" "/usr/local/bin/hcli" true
       "/tmp/tmpk3x9" "/tmp/tmpq7.plist" 420
       (fun args _ =>
          match args with
          | cmd :: _ =>
              if String.eqb cmd "update-desktop-database"
              then Completed rc [] [] else Completed 0 [] []
          | [] => Completed 0 [] []
          end)
       EmptyString true None (fun _ => Raise (RuntimeError "no instance")).

(** *** macOS *)

Definition lsregister_remove_args (h : host) : list string :=
  [LSREGISTER; "-u"; macos_app_path h].

Definition macos_removed_message (h : host) : message :=
  Msg ("[green]✓[/green] macOS protocol handler removed from "
       +:+ macos_app_path h).

Definition macos_failed_message (e : exn) : message :=
  MsgExn "[red]Failed to set up macOS protocol handler: " e "[/red]".

(** The text of the bundle's property list, when it is a file. *)
Definition plist_text (h : host) (w : world) : option string :=
  match fs w !! bundle_plist (macos_app_path h) with
  | Some (File text _) => Some text
  | _ => None
  end.

(** A macOS host whose plutil fails to convert to the binary format. *)
Definition binary1_fails_host : host :=
  Host "Darwin" "/Users/user" "/usr/local/bin/hcli" true
       "/tmp/tmpk3x9" "/tmp/tmpq7.plist" 420
       (fun args _ =>
          match args with
          | _ :: _ :: fmt :: _ =>
              if String.eqb fmt "binary1" then Completed 1 [] []
              else Completed 0 [] []
          | _ => Completed 0 [] []
          end)
       applet_plist true None (fun _ => Raise (RuntimeError "no instance")).

(** A macOS host whose osacompile writes a property list that ends
    without a line break between its two closing tags. *)
Definition compact_plist_host : host :=
  Host "Darwin" "/Users/user" "/usr/local/bin/hcli" true
       "/tmp/tmpk3x9" "/tmp/tmpq7.plist" 420 all_succeed
       "<plist version=1.0><dict><key>CFBundleName</key></dict></plist>"
       true None (fun _ => Raise (RuntimeError "no instance")).

Definition macos_remove_error_message (e : exn) : message :=
  MsgExn "[red]Error removing macOS protocol handler: " e "[/red]".

(** A macOS host on which lsregister cannot be started. *)
Definition no_lsregister_host : host :=
  Host "Darwin" "/Users/user" "/usr/local/bin/hcli" true
       "/tmp/tmpk3x9" "/tmp/tmpq7.plist" 420
       (fun args _ =>
          match args with
          | tool :: _ =>
              if String.eqb tool LSREGISTER
              then Failed NoSuchFile
              else Completed 0 [] []
          | _ => Completed 0 [] []
          end)
       applet_plist true None (fun _ => Raise (RuntimeError "no instance")).

(** A machine with the handler's bundle directory in place. *)
Definition bundle_world (h : host) : world :=
  with_fs (<[macos_app_path h +:+ "/Contents" := Dir]>
             (<[macos_app_path h := Dir]>
                (<["/Users/user/notes.txt" := File "keep" 420]> ∅)))
          empty_world.

End Behaviour.

(** * Properties *)

(** ** Strings *)

Section Strings.
Import PyStr.
Local Arguments String.append !_ _ / : simpl nomatch.

Lemma append_nil_r (s : string) : s +:+ EmptyString = s.
Proof. induction s as [|c s IH]; simpl; [done | by rewrite IH]. Qed.

Lemma append_assoc (a b c : string) : (a +:+ b) +:+ c = a +:+ (b +:+ c).
Proof. induction a as [|x a IH]; simpl; [done | by rewrite IH]. Qed.

Lemma append_inv_head (a s t : string) : a +:+ s = a +:+ t -> s = t.
Proof. induction a as [|x a IH]; simpl; [done | intros [= H]; auto]. Qed.

Lemma append_length (a b : string) :
  String.length (a +:+ b) = (String.length a + String.length b)%nat.
Proof. induction a as [|x a IH]; simpl; [done | by rewrite IH]. Qed.

Lemma startswith_spec (x s : string) :
  startswith x s = true <-> exists after, s = x +:+ after.
Proof.
  revert s. induction x as [|a x IH]; intros s; simpl.
  - split; [intros _; by exists s | done].
  - destruct s as [|b s].
    + split; [done | intros [after [=]]].
    + rewrite andb_true_iff, IH. split.
      * intros [Hab [after ->]]. apply Ascii.eqb_eq in Hab as ->.
        by exists after.
      * intros [after [= -> ->]]. split; [apply Ascii.eqb_refl | by exists after].
Qed.

Lemma contains_spec (x s : string) :
  contains x s = true <-> exists before after, s = before +:+ x +:+ after.
Proof.
  induction s as [|c s IH].
  - simpl. rewrite orb_false_r, startswith_spec. split.
    + intros [after ->]. by exists EmptyString, after.
    + intros [[|b before] [after H]]; simpl in H; [by exists after | done].
  - cbn [contains]. rewrite orb_true_iff, startswith_spec, IH. split.
    + intros [[after ->] | (before & after & ->)].
      * by exists EmptyString, after.
      * by exists (String c before), after.
    + intros ([|b before] & after & H); simpl in H.
      * left. by exists after.
      * injection H as -> ->. right. by exists before, after.
Qed.

Lemma lower_append (a b : string) : lower (a +:+ b) = lower a +:+ lower b.
Proof. induction a as [|x a IH]; simpl; [done | by rewrite IH]. Qed.

Lemma lower_append_inv (s a b : string) :
  lower s = a +:+ b ->
  exists sa sb, s = sa +:+ sb /\ lower sa = a /\ lower sb = b.
Proof.
  revert s. induction a as [|x a IH]; intros s H; simpl in H.
  - by exists EmptyString, s.
  - destruct s as [|c s]; simpl in H; [done |].
    injection H as Hc H. destruct (IH s H) as (sa & sb & -> & <- & <-).
    exists (String c sa), sb. simpl. by rewrite Hc.
Qed.

(** [needle in s.lower()] is the case-blind search for [needle]. *)
Lemma contains_lower (needle s : string) :
  contains needle (lower s) = true <-> Claims.occurs_ignoring_case needle s.
Proof.
  rewrite contains_spec. unfold Claims.occurs_ignoring_case. split.
  - intros (before & after & H).
    apply lower_append_inv in H as (sb & rest & -> & <- & H).
    apply lower_append_inv in H as (piece & sa & -> & <- & <-).
    by exists sb, piece, sa.
  - intros (before & piece & after & -> & <-).
    exists (lower before), (lower after). by rewrite !lower_append.
Qed.

End Strings.

(** ** The embedded-interpreter bridge *)

Section Shim.
Import PyStr Claims IdaPython.

(** C6. [is_windows_store_shim] answers true exactly for the paths in
    which [microsoft\windowsapps] or [microsoft/windowsapps] occurs when
    letter case is ignored, and so false for every other path and for
    [None]; the listed paths are instances. *)
Theorem is_windows_store_shim_spec :
  (forall path : option string,
     is_windows_store_shim path = true <->
     exists s, path = Some s /\
       (occurs_ignoring_case "microsoft\windowsapps" s \/
        occurs_ignoring_case "microsoft/windowsapps" s))
  /\ is_windows_store_shim
       (Some "C:\Users\U\AppData\Local\Microsoft\WindowsApps\python3.exe") = true
  /\ is_windows_store_shim
       (Some "C:\Users\U\AppData\Local\MICROSOFT\WINDOWSAPPS\python3.exe") = true
  /\ is_windows_store_shim
       (Some "C:/Users/U/AppData/Local/MICROSOFT/WINDOWSAPPS/python3.exe") = true
  /\ is_windows_store_shim
       (Some "C:/Users/U/AppData/Local/Microsoft/WindowsApps/python3.exe") = true
  /\ is_windows_store_shim (Some "/usr/bin/python3") = false
  /\ is_windows_store_shim (Some "C:\Python312\python.exe") = false
  /\ is_windows_store_shim None = false.
Proof.
  split; [| repeat split; vm_compute; reflexivity].
  intros [s|]; simpl.
  - rewrite orb_true_iff, !contains_lower. split.
    + intros H. by exists s.
    + by intros (s' & [= <-] & H).
  - split; [done | by intros (s & [=] & _)].
Qed.

End Shim.

Section Discovery.
Import PyStr PyBytes Py Os IdaPython Claims.

Ltac run :=
  unfold mbind, M_bind, mret, M_ret, get, modify, pass, raise; simpl.

Local Arguments Claims.OVERRIDE /.

(** The three ways [find_current_python_executable] ends. *)
Lemma find_current_cases (h : host) (w : world) :
  (forall exe,
     environ w !! OVERRIDE = Some exe -> exe <> EmptyString ->
     find_current_python_executable h w = (Return (Path exe), w))
  /\ (forall configured,
        truthy_opt (environ w !! OVERRIDE) = false ->
        ENV_HCLI_CURRENT_IDA_PYTHON_EXE h = Some configured ->
        find_current_python_executable h w = (Return (Path configured), w))
  /\ (truthy_opt (environ w !! OVERRIDE) = false ->
      ENV_HCLI_CURRENT_IDA_PYTHON_EXE h = None ->
      let '(r, w') := find_current_python_executable h w in
      calls w' = calls w ++ [IdaPython FIND_PYTHON_PY]
      /\ artifacts_of w' = artifacts_of w
      /\ match idapython h FIND_PYTHON_PY with
         | Return exe => r = Return (Path exe)
         | Raise e =>
             r = Raise (if isinstance e RuntimeError_
                        then RuntimeError_from
                               "failed to determine current IDA Python interpreter" e
                        else e)
         end).
Proof.
  unfold find_current_python_executable, os_environ_get, OVERRIDE. run.
  split; [| split].
  - intros exe -> Hne. destruct exe; [done | reflexivity].
  - intros configured -> ->. reflexivity.
  - intros -> ->. unfold try_except, run_py_in_current_idapython.
    destruct (idapython h FIND_PYTHON_PY) as [exe | e]; simpl.
    + destruct (negb (contains "python" exe)); simpl; auto.
    + destruct (isinstance e RuntimeError_); simpl; auto.
Qed.

(** C3. Resolution order of [find_current_python_executable]: a non-empty
    environment override is returned as it is, with nothing run and
    nothing checked; failing that, the configured value is returned in the
    same way; failing both, the discovery script is run once in the host
    application and its answer is returned. *)
Theorem find_current_python_executable_order (h : host) (w : world) :
  (forall exe,
     environ w !! OVERRIDE = Some exe -> exe <> EmptyString ->
     find_current_python_executable h w = (Return (Path exe), w))
  /\ (forall configured,
        truthy_opt (environ w !! OVERRIDE) = false ->
        ENV_HCLI_CURRENT_IDA_PYTHON_EXE h = Some configured ->
        find_current_python_executable h w = (Return (Path configured), w))
  /\ (truthy_opt (environ w !! OVERRIDE) = false ->
      ENV_HCLI_CURRENT_IDA_PYTHON_EXE h = None ->
      let '(r, w') := find_current_python_executable h w in
      calls w' = calls w ++ [IdaPython FIND_PYTHON_PY]
      /\ artifacts_of w' = artifacts_of w
      /\ match idapython h FIND_PYTHON_PY with
         | Return exe => r = Return (Path exe)
         | Raise e =>
             r = Raise (if isinstance e RuntimeError_
                        then RuntimeError_from
                               "failed to determine current IDA Python interpreter" e
                        else e)
         end).
Proof. exact (find_current_cases h w). Qed.

Lemma find_current_python_executable_order_witness :
  find_current_python_executable
    (sample_host "Linux" (fun _ _ => Failed NoSuchFile)
       (Some "/cfg/python3") (Raise (RuntimeError "no instance")))
    (override_world "/opt/ida/python3")
  = (Return (Path "/opt/ida/python3"), override_world "/opt/ida/python3").
Proof.
  apply (proj1 (find_current_python_executable_order _
                  (override_world "/opt/ida/python3"))).
  - reflexivity.
  - discriminate.
Defined.

(** C10. An override set to the empty string counts as no override: the
    call behaves as it does with the variable removed from the
    environment, so it goes on to the configured value and, without one,
    to discovery. *)
Theorem empty_override_is_unset (h : host) (w : world) :
  environ w !! OVERRIDE = Some EmptyString ->
  find_current_python_executable h w
  = (let '(r, w') :=
       find_current_python_executable h
         (with_environ (delete OVERRIDE (environ w)) w) in
     (r, with_environ (environ w) w'))
  /\ (forall configured,
        ENV_HCLI_CURRENT_IDA_PYTHON_EXE h = Some configured ->
        find_current_python_executable h w = (Return (Path configured), w))
  /\ (ENV_HCLI_CURRENT_IDA_PYTHON_EXE h = None ->
      calls (find_current_python_executable h w).2
      = calls w ++ [IdaPython FIND_PYTHON_PY]).
Proof.
  intros H.
  destruct (find_current_cases h w) as (_ & Hcfg & Hrun).
  assert (Hfalsy : truthy_opt (environ w !! OVERRIDE) = false) by by rewrite H.
  unfold OVERRIDE in *.
  split; [| split].
  - unfold find_current_python_executable, os_environ_get. run.
    rewrite H, lookup_delete_eq. simpl.
    destruct w; simpl.
    destruct (ENV_HCLI_CURRENT_IDA_PYTHON_EXE h); [reflexivity |].
    unfold try_except, run_py_in_current_idapython.
    destruct (idapython h FIND_PYTHON_PY) as [exe | e]; simpl.
    + destruct (negb (contains "python" exe)); reflexivity.
    + destruct (isinstance e RuntimeError_); reflexivity.
  - intros configured Hc. by apply Hcfg.
  - intros Hc. specialize (Hrun Hfalsy Hc).
    destruct (find_current_python_executable h w) as [r w']. apply Hrun.
Qed.

Lemma empty_override_is_unset_witness :
  find_current_python_executable
    (sample_host "Linux" (fun _ _ => Failed NoSuchFile)
       (Some "/cfg/python3") (Raise (RuntimeError "no instance")))
    (override_world EmptyString)
  = (Return (Path "/cfg/python3"), override_world EmptyString).
Proof.
  apply (proj1 (proj2 (empty_override_is_unset _ (override_world EmptyString)
                         eq_refl))).
  reflexivity.
Defined.

End Discovery.

Section Pip.
Import PyStr PyBytes Py Os IdaPython Claims.

Ltac run :=
  unfold mbind, M_bind, mret, M_ret, get, modify, pass, raise; simpl.





(** How [verify_pip_can_install_packages] ends, by how the dry run ends. *)
Lemma verify_pip_outcome (h : host) (python_exe : path)
    (packages : list string) (w : world) :
  let args := [str python_exe; "-m"; "pip"; "install"; "--dry-run"]
              ++ packages in
  (verify_pip_can_install_packages h python_exe packages w).1
  = match spawn h args None with
    | Failed f => Raise (exn_of_failure f args None)
    | Completed rc out err =>
        if rc =? 0 then Return tt
        else match decode out, decode err with
             | Some text, Some _ => Raise (CantInstallPackagesError text)
             | Some _, None => Raise (UnicodeDecodeError err)
             | None, _ => Raise (UnicodeDecodeError out)
             end
    end.
Proof.
  intros args. unfold verify_pip_can_install_packages, subprocess_run.
  run. subst args. simpl.
  destruct (spawn h _ None) as [rc out err | f]; simpl; [| done].
  destruct (rc =? 0); simpl; [done |].
  unfold decode_. destruct (decode out) as [text |]; simpl; [| done].
  destruct (decode err); simpl; done.
Qed.

(** C4, as amended.  [verify_pip_can_install_packages] returns normally
    exactly when the dry run exits with code zero.  On any other exit
    code, when the captured standard output and standard error are both
    UTF-8, it raises [CantInstallPackagesError] with the standard output
    as its text; when one of them is not, the decoding error is raised
    instead.  [CantInstallPackagesError] is a kind of [ValueError] and
    no kind of subprocess or OS error, nor the other way round. *)
Theorem verify_pip_can_install_packages_spec (h : host) (python_exe : path)
    (packages : list string) (w : world) :
  let args := [str python_exe; "-m"; "pip"; "install"; "--dry-run"]
              ++ packages in
  let r := (verify_pip_can_install_packages h python_exe packages w).1 in
  (r = Return tt <-> exists out err, spawn h args None = Completed 0 out err)
  /\ (forall rc out err text,
        spawn h args None = Completed rc out err -> rc <> 0 ->
        decode out = Some text -> is_Some (decode err) ->
        r = Raise (CantInstallPackagesError text))
  /\ (forall rc out err,
        spawn h args None = Completed rc out err -> rc <> 0 ->
        decode out = None \/ decode err = None ->
        exists bs, r = Raise (UnicodeDecodeError bs))
  /\ unrelated CantInstallPackagesError_ SubprocessError_
  /\ unrelated CantInstallPackagesError_ CalledProcessError_
  /\ unrelated CantInstallPackagesError_ OSError_
  /\ issubclass CantInstallPackagesError_ ValueError_ = true.
Proof.
  intros args r. subst r. rewrite verify_pip_outcome. fold args.
  generalize (spawn h args None). intros o.
  split; [| split; [| split; [| by vm_compute]]].
  - destruct o as [rc out err | f].
    + destruct (Z.eqb_spec rc 0) as [-> | Hrc].
      * split; [by exists out, err | done].
      * split.
        -- destruct (decode out), (decode err); discriminate.
        -- intros (? & ? & [= ? _ _]). done.
    + split; [by destruct f | by intros (? & ? & ?)].
  - intros rc out err text -> Hrc -> [etext ->].
    by destruct (Z.eqb_spec rc 0).
  - intros rc out err -> Hrc Hdec.
    destruct (Z.eqb_spec rc 0); [done |].
    destruct (decode out), (decode err), Hdec; try discriminate; eauto.
Qed.

Lemma verify_pip_can_install_packages_spec_witness :
  (verify_pip_can_install_packages
     (sample_host "Linux" ascii_conflict_spawn None (Return "/usr/bin/python3"))
     (Path "/usr/bin/python3") ["flare-capa==1"; "flare-capa==v1.2.0"]
     empty_world).1
  = Raise (CantInstallPackagesError "ERROR: ResolutionImpossible").
Proof.
  eapply (proj1 (proj2 (verify_pip_can_install_packages_spec
                          (sample_host "Linux" ascii_conflict_spawn None
                             (Return "/usr/bin/python3"))
                          (Path "/usr/bin/python3")
                          ["flare-capa==1"; "flare-capa==v1.2.0"] empty_world))
            1 (encode "ERROR: ResolutionImpossible") (encode "WARNING")).
  - reflexivity.
  - discriminate.
  - reflexivity.
  - by eexists.
Defined.

(** The claim as worded fails when the package manager writes a byte
    that is not UTF-8 on standard error: the exit code is 1 and the
    standard output is plain text, yet what is raised is the decoding
    error. *)
Lemma verify_pip_claim_fails :
  ~ verify_pip_claim
      (sample_host "Windows" conflict_spawn None (Return "C:\ida\python.exe"))
      (Path "C:\ida\python.exe") ["flare-capa==1"; "flare-capa==v1.2.0"]
      empty_world.
Proof.
  intros [_ H].
  destruct (H 1 (encode "ERROR: ResolutionImpossible") [Byte.xfc])
    as (text & _ & Hr); [reflexivity | discriminate |].
  vm_compute in Hr. discriminate.
Qed.

(** How [pip_freeze] ends, by how the listing ends. *)
Lemma pip_freeze_outcome (h : host) (python_exe : path) (w : world) :
  let args := [str python_exe; "-m"; "pip"; "freeze"] in
  (pip_freeze h python_exe w).1
  = match spawn h args None with
    | Failed f => Raise (exn_of_failure f args None)
    | Completed rc out err =>
        if rc =? 0
        then match decode out with
             | Some text => Return text
             | None => Raise (UnicodeDecodeError out)
             end
        else Raise (CalledProcessError rc args None None)
    end.
Proof.
  intros args. unfold pip_freeze, subprocess_run. run. subst args.
  destruct (spawn h _ None) as [rc out err | f]; simpl; [| done].
  destruct (rc =? 0); simpl; [| done].
  unfold decode_. by destruct (decode out).
Qed.

(** C8, as amended.  When the listing exits with code zero and its
    captured standard output is UTF-8, [pip_freeze] returns it as text;
    when it is not UTF-8 the decoding error is raised.  On any other
    exit code it raises [CalledProcessError] with the exit code and the
    command and no captured output, an error that is no kind of
    [CantInstallPackagesError], nor the other way round. *)
Theorem pip_freeze_spec (h : host) (python_exe : path) (w : world) :
  let args := [str python_exe; "-m"; "pip"; "freeze"] in
  let r := (pip_freeze h python_exe w).1 in
  (forall out err text,
     spawn h args None = Completed 0 out err -> decode out = Some text ->
     r = Return text)
  /\ (forall out err,
        spawn h args None = Completed 0 out err -> decode out = None ->
        r = Raise (UnicodeDecodeError out))
  /\ (forall rc out err,
        spawn h args None = Completed rc out err -> rc <> 0 ->
        r = Raise (CalledProcessError rc args None None)
        /\ class_of (CalledProcessError rc args None None) = CalledProcessError_)
  /\ unrelated CalledProcessError_ CantInstallPackagesError_.
Proof.
  intros args r. subst r. rewrite pip_freeze_outcome. fold args.
  generalize (spawn h args None). intros o.
  split; [| split; [| split; [| by vm_compute]]].
  - by intros out err text -> ->.
  - by intros out err -> ->.
  - intros rc out err -> Hrc. by destruct (Z.eqb_spec rc 0).
Qed.

Lemma pip_freeze_spec_witness :
  (pip_freeze
     (sample_host "Linux" ascii_freeze_spawn None (Return "/usr/bin/python3"))
     (Path "/usr/bin/python3") empty_world).1
  = Return "flare-capa==9.2.1".
Proof.
  eapply (proj1 (pip_freeze_spec
                   (sample_host "Linux" ascii_freeze_spawn None
                      (Return "/usr/bin/python3"))
                   (Path "/usr/bin/python3") empty_world)
            (encode "flare-capa==9.2.1") []).
  - reflexivity.
  - reflexivity.
Defined.

(** The claim as worded fails when the listing holds a byte that is not
    UTF-8: the exit code is 0, yet nothing is returned. *)
Lemma pip_freeze_claim_fails :
  ~ pip_freeze_claim
      (sample_host "Windows" latin1_spawn None (Return "C:\ida\python.exe"))
      (Path "C:\ida\python.exe") empty_world.
Proof.
  intros [H _].
  destruct (H (encode "pkg @ file:///C:/Users/J" ++ [Byte.xfc]
               ++ encode "rgen/pkg") [])
    as (text & Hd & _); [reflexivity |].
  vm_compute in Hd. discriminate.
Qed.

End Pip.

(** ** The discovery script *)

Section Script.
Import PyStr Py FindPythonPy.

(** C7.  The discovery script does not compile.  The text that python.py
    hands to the host application holds, in the docstring of
    [is_windows_store_shim], the path [C:\Users\...] with single
    backslashes; a docstring is an ordinary literal, and [\U] not
    followed by eight hexadecimal digits cannot be decoded.  So for
    every interpreter the script is run in, and whatever the table of
    character names, the run ends with [SyntaxError] before
    [find_python_executable] exists, and no candidate is tried. *)
Theorem find_python_py_does_not_compile (names : string -> option N)
    (i : interpreter) :
  (exists text, shim_docstring_in_script names = Return text
                /\ contains "C:\Users\...\AppData" text = true)
  /\ compile_script names
     = Raise (SyntaxError "truncated \UXXXXXXXX escape")
  /\ run_script names i
     = Raise (SyntaxError "truncated \UXXXXXXXX escape").
Proof.
  assert (Hc : compile_script names
               = Raise (SyntaxError "truncated \UXXXXXXXX escape"))
    by (vm_compute; reflexivity).
  split; [| split; [exact Hc |]].
  - eexists. split; [vm_compute; reflexivity | vm_compute; reflexivity].
  - unfold run_script. by rewrite Hc.
Qed.

End Script.

(** ** Protocol handlers: unregistering *)

Section Unregister.
Import PyStr PyBytes Py Os Protocol Claims.

Ltac run :=
  unfold mbind, M_bind, mret, M_ret, get, modify, pass, raise; simpl.

Lemma unregister_macos_absent (h : host) (w : world) :
  fs w !! macos_app_path h = None ->
  unregister_macos_protocol_handler h w
  = (Return tt, after_print (already_removed MacOS) w).
Proof.
  intros H.
  unfold unregister_macos_protocol_handler, try_except, path_exists. run.
  by rewrite H.
Qed.

Lemma unregister_linux_absent (h : host) (w : world) :
  fs w !! linux_desktop_path h = None ->
  unregister_linux_protocol_handler h w
  = (Return tt, after_print (already_removed Linux) w).
Proof.
  intros H.
  unfold unregister_linux_protocol_handler, try_except, path_exists. run.
  unfold linux_desktop_path in H. by rewrite H.
Qed.

(** When the first key of the sequence is missing nothing is deleted. *)
Lemma unregister_windows_leaf_missing (h : host) (w : world) :
  has_winreg h = true ->
  registry w !! (reg_key +:+ "\shell\open\command") = None ->
  unregister_windows_protocol_handler h w
  = (Return tt, after_print (already_removed Windows) w).
Proof.
  intros Hreg H.
  unfold unregister_windows_protocol_handler, try_except, import_winreg,
    DeleteKeyEx.
  rewrite Hreg. run. by rewrite H.
Qed.

(** C2. On each platform, when no handler artifact exists,
    [unregister_protocol_handler] returns normally, and the world it
    leaves differs from the one it found by one printed line, the
    already-removed notice: no file, registry key, association or
    registration changes and no external command is run. *)
Theorem unregister_absent (p : platform) (h : host) (w : world) :
  runs_on p h ->
  handler_absent p h w ->
  unregister_protocol_handler h w
  = (Return tt, after_print (already_removed p) w).
Proof.
  unfold runs_on, unregister_protocol_handler. intros -> Habs.
  destruct p; simpl in *.
  - by apply unregister_macos_absent.
  - destruct Habs as [Hreg Hkeys].
    apply unregister_windows_leaf_missing; [done |].
    apply Hkeys. right. reflexivity.
  - by apply unregister_linux_absent.
Qed.

Lemma unregister_absent_witness :
  unregister_protocol_handler (bare_host "Darwin") empty_world
  = (Return tt, after_print (already_removed MacOS) empty_world)
  /\ unregister_protocol_handler (bare_host "Windows") empty_world
     = (Return tt, after_print (already_removed Windows) empty_world)
  /\ unregister_protocol_handler (bare_host "Linux") empty_world
     = (Return tt, after_print (already_removed Linux) empty_world).
Proof.
  split; [| split].
  - apply (unregister_absent MacOS); reflexivity.
  - apply (unregister_absent Windows); [reflexivity |].
    split; [reflexivity | intros k _; apply lookup_empty].
  - apply (unregister_absent Linux); reflexivity.
Defined.

Lemma DeleteKeyEx_ok (k : string) (w : world) :
  can_delete (registry w) k ->
  DeleteKeyEx k w = (Return tt, with_registry (delete k (registry w)) w).
Proof.
  intros [[vs Hk] Hsub]. unfold DeleteKeyEx. by rewrite Hk, Hsub.
Qed.

Lemma DeleteKeyEx_missing (k : string) (w : world) :
  registry w !! k = None ->
  DeleteKeyEx k w = (Raise (OSError FileNotFoundError_ k), w).
Proof. intros Hk. unfold DeleteKeyEx. by rewrite Hk. Qed.

Lemma without_keys_lookup_None (ks : list string)
    (r : gmap string (gmap string reg_value)) (k : string) :
  r !! k = None -> without_keys ks r !! k = None.
Proof.
  revert r. induction ks as [|k' ks IH]; intros r H; simpl; [done |].
  apply IH. rewrite lookup_delete_None. by right.
Qed.

Lemma without_keys_lookup_ne (ks : list string)
    (r : gmap string (gmap string reg_value)) (k : string) :
  k ∉ ks -> without_keys ks r !! k = r !! k.
Proof.
  revert r. induction ks as [|k' ks IH]; intros r H; simpl; [done |].
  apply not_elem_of_cons in H as [Hne Hks].
  rewrite IH by done. by apply lookup_delete_ne.
Qed.

Lemma without_keys_lookup_elem (ks : list string)
    (r : gmap string (gmap string reg_value)) (k : string) :
  k ∈ ks -> without_keys ks r !! k = None.
Proof.
  revert r. induction ks as [|k' ks IH]; intros r H; simpl.
  - by apply elem_of_nil in H.
  - apply elem_of_cons in H as [-> | H]; [| by apply IH].
    apply without_keys_lookup_None, lookup_delete_eq.
Qed.

(** The keys deleted so far existed in the registry the call began with. *)
Lemma deleted_keys_existed (gone : list string)
    (r : gmap string (gmap string reg_value)) :
  (forall before k after,
     gone = before ++ k :: after -> can_delete (without_keys before r) k) ->
  forall k, k ∈ gone -> is_Some (r !! k).
Proof.
  intros Hdel k Hk. apply list_elem_of_split in Hk as (before & after & ->).
  destruct (Hdel before k after eq_refl) as [[vs Hvs] _].
  destruct (r !! k) eqn:Hr; [by eexists |].
  by rewrite without_keys_lookup_None in Hvs.
Qed.

(** C9. A partly present registry subtree.  Split the deletion sequence
    at its first missing key: the keys before it are deleted one after
    the other, the missing key ends the deletions, the keys after it are
    not touched, and the call returns normally with the already-removed
    notice.  The keys before the missing one existed and are gone, so
    the notice does not say that nothing changed, nor that nothing is
    left. *)
Theorem unregister_windows_partial (h : host) (w : world)
    (gone : list string) (missing : string) (kept : list string) :
  has_winreg h = true ->
  deletion_sequence = gone ++ missing :: kept ->
  (forall before k after,
     gone = before ++ k :: after ->
     can_delete (without_keys before (registry w)) k) ->
  registry w !! missing = None ->
  unregister_windows_protocol_handler h w
  = (Return tt,
     after_print (already_removed Windows)
       (with_registry (without_keys gone (registry w)) w))
  /\ (forall k, k ∈ gone ->
        is_Some (registry w !! k)
        /\ without_keys gone (registry w) !! k = None)
  /\ (forall k, k ∈ kept ->
        without_keys gone (registry w) !! k = registry w !! k).
Proof.
  intros Hreg Hseq Hdel Hmiss. split; [| split].
  - pose proof (without_keys_lookup_None gone _ _ Hmiss) as Hmiss'.
    unfold unregister_windows_protocol_handler, try_except, import_winreg.
    rewrite Hreg. unfold deletion_sequence in Hseq.
    destruct gone as [|g1 [|g2 [|g3 [|g4 [|g5 gone]]]]];
      simpl in Hseq; injection Hseq as <-; subst; run.
    all: repeat (rewrite DeleteKeyEx_ok by
           first [ by eapply (Hdel [])
                 | by eapply (Hdel [_])
                 | by eapply (Hdel [_; _])
                 | by eapply (Hdel [_; _; _]) ]; simpl).
    all: try by rewrite DeleteKeyEx_missing.
    + by destruct gone.
  - intros k Hk. split.
    + by apply (deleted_keys_existed gone).
    + by apply without_keys_lookup_elem.
  - intros k Hk. apply without_keys_lookup_ne. intros Hgone.
    assert (Hnd : NoDup deletion_sequence)
      by (apply (bool_decide_unpack _); by vm_compute).
    rewrite Hseq in Hnd. apply NoDup_app in Hnd as (_ & Hdisj & _).
    apply (Hdisj k Hgone). by right.
Qed.

Lemma unregister_windows_partial_witness :
  let r := without_keys
             ["SOFTWARE\Classes\ida\shell\open\command";
              "SOFTWARE\Classes\ida\shell\open";
              "SOFTWARE\Classes\ida\shell"] partial_registry in
  unregister_windows_protocol_handler (bare_host "Windows")
    partial_registry_world
  = (Return tt,
     after_print (already_removed Windows)
       (with_registry r partial_registry_world))
  /\ r !! "SOFTWARE\Classes\ida\shell" = None
  /\ is_Some (r !! "SOFTWARE\Classes\ida").
Proof.
  intros r. split; [| split; [reflexivity | by eexists]].
  apply (unregister_windows_partial (bare_host "Windows")
           partial_registry_world
           ["SOFTWARE\Classes\ida\shell\open\command";
            "SOFTWARE\Classes\ida\shell\open";
            "SOFTWARE\Classes\ida\shell"]
           "SOFTWARE\Classes\ida\DefaultIcon"
           ["SOFTWARE\Classes\ida"]).
  - reflexivity.
  - reflexivity.
  - intros before k after Heq.
    destruct before as [|? [|? [|? [|? ?]]]]; simpl in Heq;
      inversion Heq; subst.
    all: (split; [apply (bool_decide_unpack _) |]; by vm_compute).
  - reflexivity.
Defined.

End Unregister.

(** ** Protocol handlers: registering twice *)

Section Monad.
Import Py Os Claims.

Lemma bind_Return_inv {A B : Type} (m : M A) (f : A -> M B) (w w2 : world)
    (b : B) :
  (m ≫= f) w = (Return b, w2) ->
  exists a w1, m w = (Return a, w1) /\ f a w1 = (Return b, w2).
Proof.
  unfold mbind, M_bind. destruct (m w) as [[a | e] w1]; [eauto | done].
Qed.

Lemma bind_Return {A B : Type} (m : M A) (f : A -> M B) (w w1 : world)
    (a : A) :
  m w = (Return a, w1) -> (m ≫= f) w = f a w1.
Proof. unfold mbind, M_bind. by intros ->. Qed.


Lemma find_handler_reraises {A : Type} (hs : list (exn_class * (exn -> M A)))
    (e : exn) (k : M A) (w : world) :
  reraises hs -> find_handler e hs = Some k ->
  exists e' w', k w = (Raise e', w').
Proof.
  induction 1 as [| [c h] hs Hh _ IH]; simpl; [done |].
  destruct (isinstance e c); [intros [= <-]; apply Hh | apply IH].
Qed.

Lemma try_except_Return_inv {A : Type} (body : M A)
    (hs : list (exn_class * (exn -> M A))) (w w1 : world) (a : A) :
  reraises hs ->
  try_except body hs w = (Return a, w1) -> body w = (Return a, w1).
Proof.
  intros Hhs. unfold try_except.
  destruct (body w) as [[a' | e] w']; [done |].
  destruct (find_handler e hs) as [k |] eqn:Hk; [| done].
  destruct (find_handler_reraises hs e k w' Hhs Hk) as (e' & w'' & ->). done.
Qed.

Lemma try_except_Return {A : Type} (body : M A)
    (hs : list (exn_class * (exn -> M A))) (w w1 : world) (a : A) :
  body w = (Return a, w1) -> try_except body hs w = (Return a, w1).
Proof. unfold try_except. by intros ->. Qed.

Lemma print_then_raise_reraises (m : message) (e : exn) (w : world) :
  exists e' w', (console_print m ;; raise e : M unit) w = (Raise e', w').
Proof. by eexists _, _. Qed.

End Monad.

Section Linux.
Import PyStr PyBytes Py Os Protocol Claims.

Ltac run :=
  unfold mbind, M_bind, mret, M_ret, get, modify, pass, raise; simpl.

Lemma mkdir_chain_dirs (target : string) (ps : list string)
    (f f' : gmap string node) :
  mkdir_chain target ps f = Return f' ->
  (forall p, f !! p = Some Dir -> f' !! p = Some Dir)
  /\ Forall (fun p => f' !! p = Some Dir) ps.
Proof.
  revert f. induction ps as [|p ps IH]; intros f H; simpl in H.
  - injection H as <-. by split.
  - destruct (f !! p) as [[| c m] |] eqn:Hp; [| done |].
    + destruct (IH f H) as [Hkeep Hall]. split; [done |].
      constructor; [by apply Hkeep | done].
    + destruct (IH _ H) as [Hkeep Hall]. split.
      * intros q Hq. apply Hkeep. rewrite lookup_insert_ne; [done |].
        intros ->. congruence.
      * constructor; [| done]. apply Hkeep. apply lookup_insert_eq.
Qed.

Lemma mkdir_chain_present (target : string) (ps : list string)
    (f : gmap string node) :
  Forall (fun p => f !! p = Some Dir) ps -> mkdir_chain target ps f = Return f.
Proof.
  induction 1 as [|p ps Hp _ IH]; simpl; [done |]. by rewrite Hp.
Qed.

End Linux.

Section Primitives.
Import PyStr PyBytes Py Os Protocol Claims.

Lemma bind_Return_eq {A B : Type} (m : M A) (f : A -> M B) (w w1 : world)
    (a : A) (r : res B * world) :
  m w = (Return a, w1) -> f a w1 = r -> (m ≫= f) w = r.
Proof. unfold mbind, M_bind. by intros -> <-. Qed.

Lemma mkdir_parents_exist_ok_inv (p : string) (w w' : world) :
  mkdir_parents_exist_ok p w = (Return tt, w') ->
  exists f, mkdir_chain p (prefixes_at slash EmptyString p) (fs w) = Return f
            /\ w' = with_fs f w.
Proof.
  unfold mkdir_parents_exist_ok.
  destruct (mkdir_chain _ _ (fs w)) as [f | e]; [| done].
  intros [= <-]. by exists f.
Qed.

Lemma write_text_inv (h : host) (p text : string) (w w' : world) :
  write_text h p text w = (Return tt, w') ->
  fs w !! p <> Some Dir
  /\ exists m, w' = with_fs (<[p := File text m]> (fs w)) w.
Proof.
  unfold write_text. destruct (fs w !! p) as [[| c m] |]; [done | |].
  - intros [= <-]. split; [done | by exists m].
  - destruct (parent_is_dir p (fs w)); [| done].
    intros [= <-]. split; [done | by eexists].
Qed.

Lemma write_text_file (h : host) (p text c : string) (m : Z) (w : world) :
  fs w !! p = Some (File c m) ->
  write_text h p text w
  = (Return tt, with_fs (<[p := File text m]> (fs w)) w).
Proof. unfold write_text. by intros ->. Qed.

Lemma chmod_file (p c : string) (m mode : Z) (w : world) :
  fs w !! p = Some (File c m) ->
  chmod p mode w = (Return tt, with_fs (<[p := File c mode]> (fs w)) w).
Proof. unfold chmod. by intros ->. Qed.

(** A checked run that returns was a run that exited with code zero. *)
Lemma subprocess_run_checked_inv (h : host) (t : tool) (args : list string)
    (capture : bool) (timeout : option Z) (w w' : world)
    (cp : CompletedProcess) :
  subprocess_run h t args true capture timeout w = (Return cp, w') ->
  exists out err,
    t (spawn h args timeout) (after_call (Subprocess args timeout) w)
    = (Completed 0 out err, w')
    /\ cp = {| returncode := 0; stdout := out; stderr := err |}.
Proof.
  unfold subprocess_run, after_call.
  destruct (t _ _) as [[rc out err | f] w1]; [| done]. simpl.
  destruct (Z.eqb_spec rc 0) as [-> | Hrc]; simpl; [| done].
  intros [= <- <-]. by exists out, err.
Qed.

Lemma subprocess_run_checked (h : host) (t : tool) (args : list string)
    (capture : bool) (timeout : option Z) (w w' : world) (out err : bytes) :
  t (spawn h args timeout) (after_call (Subprocess args timeout) w)
  = (Completed 0 out err, w') ->
  subprocess_run h t args true capture timeout w
  = (Return {| returncode := 0; stdout := out; stderr := err |}, w').
Proof. unfold subprocess_run, after_call. by intros ->. Qed.

(** An unchecked run of a tool the model does not look into returns
    whenever the command could be started. *)
Lemma subprocess_run_opaque_inv (h : host) (args : list string)
    (capture : bool) (timeout : option Z) (w w' : world)
    (cp : CompletedProcess) :
  subprocess_run h opaque args false capture timeout w = (Return cp, w') ->
  (exists rc out err, spawn h args timeout = Completed rc out err)
  /\ w' = after_call (Subprocess args timeout) w.
Proof.
  unfold subprocess_run, opaque, after_call.
  destruct (spawn h args timeout) as [rc out err | f]; simpl; [| done].
  intros [= _ <-]. split; [by exists rc, out, err | done].
Qed.

Lemma subprocess_run_opaque (h : host) (args : list string)
    (capture : bool) (timeout : option Z) (w : world) (rc : Z)
    (out err : bytes) :
  spawn h args timeout = Completed rc out err ->
  subprocess_run h opaque args false capture timeout w
  = (Return {| returncode := rc; stdout := out; stderr := err |},
     after_call (Subprocess args timeout) w).
Proof. unfold subprocess_run, opaque, after_call. by intros ->. Qed.

(** What a tool that acts only on exit code zero reports is what the
    host said. *)
Lemma xdg_mime_default_inv (entry mimetype : string) (r : proc_outcome)
    (w w' : world) (out err : bytes) :
  xdg_mime_default entry mimetype r w = (Completed 0 out err, w') ->
  r = Completed 0 out err
  /\ w' = with_mime_default (<[mimetype := entry]> (mime_default w)) w.
Proof.
  unfold xdg_mime_default.
  destruct r as [[| rc | rc] o e | f]; intros [= <- <- <-]; done.
Qed.

End Primitives.

Section LinuxRun.
Import PyStr PyBytes Py Os Protocol Claims.

Ltac run :=
  unfold mbind, M_bind, mret, M_ret, get, modify, pass, raise; simpl.

Ltac wsimpl :=
  cbv [with_environ with_fs with_scratch with_registry with_mime_default
       with_launch_services with_console with_logged with_calls
       after_call after_print artifacts_of
       environ fs scratch registry mime_default launch_services console
       logged calls] in *.

Ltac step tac := eapply bind_Return_eq; [tac | cbv beta].

Ltac reraising :=
  repeat constructor; intros; apply print_then_raise_reraises.

Lemma setup_linux_establishes (h : host) (w w1 : world) :
  setup_linux_protocol_handler h w = (Return tt, w1) ->
  linux_registered h w1 /\ linux_tools_succeed h.
Proof.
  intros H. unfold setup_linux_protocol_handler in H.
  apply try_except_Return_inv in H; [| reraising].
  apply bind_Return_inv in H as ([] & wa & Ha & H).
  apply bind_Return_inv in H as ([] & wb & Hb & H).
  apply bind_Return_inv in H as ([] & wc & Hc & H).
  apply bind_Return_inv in H as (cp1 & wd & Hd & H).
  apply bind_Return_inv in H as (cp2 & we & He & H).
  apply mkdir_parents_exist_ok_inv in Ha as (f & Hf & ->).
  apply write_text_inv in Hb as (Hnd & m & ->).
  erewrite chmod_file in Hc by apply lookup_insert_eq.
  injection Hc as <-.
  apply subprocess_run_checked_inv in Hd as (o1 & e1 & Hd & _).
  apply xdg_mime_default_inv in Hd as (Hs1 & ->).
  apply subprocess_run_opaque_inv in He as (Hs2 & ->).
  apply bind_Return_inv in H as ([] & wf & Hf1 & H).
  unfold console_print, modify in Hf1, H.
  injection Hf1 as <-. injection H as <-.
  apply mkdir_chain_dirs in Hf as [_ Hdirs].
  split; [| split; [by exists o1, e1 | done]].
  destruct w. unfold linux_registered. wsimpl. split; [| split].
  - eapply Forall_impl; [exact Hdirs |]. intros p Hp. simpl in Hp.
    rewrite insert_insert_eq. rewrite lookup_insert_ne; [done |].
    intros <-. unfold linux_desktop_path in *. congruence.
  - rewrite insert_insert_eq. apply lookup_insert_eq.
  - apply lookup_insert_eq.
Qed.

Lemma setup_linux_registered (h : host) (w : world) :
  linux_registered h w -> linux_tools_succeed h ->
  exists w2, setup_linux_protocol_handler h w = (Return tt, w2)
             /\ artifacts_of w2 = artifacts_of w.
Proof.
  intros Hreg [(o1 & e1 & Hs1) (rc & o2 & e2 & Hs2)].
  pose proof Hreg as (Hdirs & Hfile & Hmime).
  eexists. split.
  - unfold setup_linux_protocol_handler. apply try_except_Return.
    step ltac:(unfold mkdir_parents_exist_ok; by rewrite mkdir_chain_present).
    step ltac:(eapply write_text_file; exact Hfile).
    step ltac:(eapply chmod_file; apply lookup_insert_eq).
    step ltac:(apply subprocess_run_checked; unfold xdg_mime_args in Hs1;
               rewrite Hs1; reflexivity).
    step ltac:(eapply subprocess_run_opaque; exact Hs2).
    reflexivity.
  - destruct w. unfold linux_registered in *. wsimpl.
    unfold linux_desktop_path in Hfile.
    rewrite insert_insert_eq.
    by rewrite !insert_id.
Qed.

End LinuxRun.

Section WindowsRegistry.
Import PyStr PyBytes Py Os Protocol Claims.

Ltac step tac := eapply bind_Return_eq; [tac | cbv beta].
Ltac reraising :=
  repeat constructor; intros; apply print_then_raise_reraises.

Lemma lookup_ensure_key (r : gmap string (gmap string reg_value))
    (k' k : string) :
  ensure_key r k' !! k
  = if decide (k = k') then Some (default ∅ (r !! k)) else r !! k.
Proof.
  unfold ensure_key. destruct (decide (k = k')) as [-> | Hne].
  - destruct (r !! k') eqn:H; [by rewrite H | by rewrite lookup_insert_eq].
  - destruct (r !! k'); [done | by rewrite lookup_insert_ne].
Qed.

Lemma lookup_set_value (r : gmap string (gmap string reg_value))
    (k' name data k : string) :
  set_value k' name data r !! k
  = if decide (k = k') then insert name (REG_SZ data) <$> r !! k else r !! k.
Proof.
  unfold set_value. rewrite lookup_alter.
  destruct (decide (k' = k)) as [-> | Hne]; [by rewrite decide_True |].
  by rewrite decide_False.
Qed.

Local Arguments String.append !_ _ / : simpl nomatch.

Lemma prefixes_at_last (sep : ascii) (acc s : string) :
  acc +:+ s ∈ prefixes_at sep acc s.
Proof.
  revert acc. induction s as [|c s IH]; intros acc; simpl.
  - rewrite append_nil_r. apply list_elem_of_here.
  - apply elem_of_app. right.
    replace (acc +:+ String c s) with ((acc +:+ String c EmptyString) +:+ s)
      by (by rewrite append_assoc).
    apply IH.
Qed.

Lemma ensure_keys_is_Some (ks : list string)
    (r : gmap string (gmap string reg_value)) (k : string) :
  is_Some (r !! k) \/ k ∈ ks -> is_Some (foldl ensure_key r ks !! k).
Proof.
  revert r. induction ks as [|k' ks IH]; intros r [H | H]; simpl.
  - done.
  - by apply elem_of_nil in H.
  - apply IH. left. rewrite lookup_ensure_key. case_decide; [| done].
    destruct H as [vs ->]. by eexists.
  - apply IH. apply elem_of_cons in H as [-> | H]; [| by right].
    left. rewrite lookup_ensure_key, decide_True by done. by eexists.
Qed.

(** Opening a key leaves it present. *)
Lemma create_key_present (k : string)
    (r : gmap string (gmap string reg_value)) :
  is_Some (create_key k r !! k).
Proof.
  apply ensure_keys_is_Some. right. apply (prefixes_at_last _ EmptyString).
Qed.

Lemma set_value_present (k' name data k : string)
    (r : gmap string (gmap string reg_value)) :
  is_Some (r !! k) -> is_Some (set_value k' name data r !! k).
Proof.
  intros [vs H]. rewrite lookup_set_value, H. case_decide; by eexists.
Qed.

Lemma CreateKey_run (k : string) (w : world) :
  CreateKey k w = (Return k, with_registry (create_key k (registry w)) w).
Proof. reflexivity. Qed.

Lemma SetValueEx_run (k name data : string) (w : world) :
  is_Some (registry w !! k) ->
  SetValueEx k name data w
  = (Return tt, with_registry (set_value k name data (registry w)) w).
Proof.
  intros [vs H]. unfold SetValueEx. rewrite H. do 2 f_equal.
  f_equal. apply map_eq. intros k'. rewrite lookup_set_value.
  destruct (decide (k' = k)) as [-> | Hne].
  - by rewrite lookup_insert_eq, H.
  - by rewrite lookup_insert_ne.
Qed.

(** On a host with [winreg], registration always goes through, and what
    it does to the registry is [windows_registry]. *)
Lemma setup_windows_run (h : host) (w : world) :
  has_winreg h = true ->
  setup_windows_protocol_handler h w
  = (Return tt,
     after_print windows_registered_message
       (with_registry (windows_registry h (registry w)) w)).
Proof.
  intros Hreg. unfold setup_windows_protocol_handler.
  apply try_except_Return.
  unfold import_winreg. rewrite Hreg.
  step ltac:(reflexivity).
  step ltac:(
    step ltac:(apply CreateKey_run);
    step ltac:(apply SetValueEx_run, create_key_present);
    apply SetValueEx_run, set_value_present, create_key_present).
  step ltac:(
    step ltac:(apply CreateKey_run);
    apply SetValueEx_run, create_key_present).
  step ltac:(step ltac:(apply CreateKey_run); reflexivity).
  step ltac:(step ltac:(apply CreateKey_run); reflexivity).
  step ltac:(
    step ltac:(apply CreateKey_run);
    apply SetValueEx_run, create_key_present).
  destruct w.
  unfold console_print, modify, windows_registry, windows_registry_writes,
    windows_command, windows_registered_message.
  cbv [with_environ with_fs with_scratch with_registry with_mime_default
       with_launch_services with_console with_logged with_calls
       after_call after_print foldl
       environ fs scratch registry mime_default launch_services console
       logged calls].
  reflexivity.
Qed.

Lemma setup_windows_inv (h : host) (w w1 : world) :
  setup_windows_protocol_handler h w = (Return tt, w1) ->
  has_winreg h = true.
Proof.
  intros H. apply try_except_Return_inv in H; [| reraising].
  unfold import_winreg in H. by destruct (has_winreg h).
Qed.


Lemma lookup_ensure_keys (ks : list string)
    (r : gmap string (gmap string reg_value)) (k : string) :
  foldl ensure_key r ks !! k
  = foldl (fun x k' => ensure_at k' k x) (r !! k) ks.
Proof.
  revert r. induction ks as [|k' ks IH]; intros r; simpl; [done |].
  by rewrite IH, lookup_ensure_key.
Qed.

Lemma ensure_at_eq (k : string) (x : option (gmap string reg_value)) :
  ensure_at k k x = Some (default ∅ x).
Proof. unfold ensure_at. by rewrite decide_True. Qed.

Lemma ensure_at_ne (k' k : string) (x : option (gmap string reg_value)) :
  k <> k' -> ensure_at k' k x = x.
Proof. intros H. unfold ensure_at. by rewrite decide_False. Qed.

Lemma set_at_eq (k name data : string) (x : option (gmap string reg_value)) :
  set_at k name data k x = insert name (REG_SZ data) <$> x.
Proof. unfold set_at. by rewrite decide_True. Qed.

Lemma set_at_ne (k' name data k : string)
    (x : option (gmap string reg_value)) :
  k <> k' -> set_at k' name data k x = x.
Proof. intros H. unfold set_at. by rewrite decide_False. Qed.

(** The entry of [k] after a registration, from its entry before. *)
Lemma lookup_windows_registry (h : host)
    (r : gmap string (gmap string reg_value)) (k : string) :
  windows_registry h r !! k
  = foldl (fun x f => f x) (r !! k)
      [ensure_at "SOFTWARE" k; ensure_at "SOFTWARE\Classes" k;
       ensure_at "SOFTWARE\Classes\ida" k;
       set_at "SOFTWARE\Classes\ida" "" "URL:IDA Protocol" k;
       set_at "SOFTWARE\Classes\ida" "URL Protocol" "" k;
       ensure_at "SOFTWARE" k; ensure_at "SOFTWARE\Classes" k;
       ensure_at "SOFTWARE\Classes\ida" k;
       ensure_at "SOFTWARE\Classes\ida\DefaultIcon" k;
       set_at "SOFTWARE\Classes\ida\DefaultIcon" ""
         (hcli_executable_path h +:+ ",1") k;
       ensure_at "SOFTWARE" k; ensure_at "SOFTWARE\Classes" k;
       ensure_at "SOFTWARE\Classes\ida" k;
       ensure_at "SOFTWARE\Classes\ida\shell" k;
       ensure_at "SOFTWARE" k; ensure_at "SOFTWARE\Classes" k;
       ensure_at "SOFTWARE\Classes\ida" k;
       ensure_at "SOFTWARE\Classes\ida\shell" k;
       ensure_at "SOFTWARE\Classes\ida\shell\open" k;
       ensure_at "SOFTWARE" k; ensure_at "SOFTWARE\Classes" k;
       ensure_at "SOFTWARE\Classes\ida" k;
       ensure_at "SOFTWARE\Classes\ida\shell" k;
       ensure_at "SOFTWARE\Classes\ida\shell\open" k;
       ensure_at "SOFTWARE\Classes\ida\shell\open\command" k;
       set_at "SOFTWARE\Classes\ida\shell\open\command" ""
         (windows_command h) k].
Proof.
  unfold windows_registry, windows_registry_writes, create_key.
  cbn [foldl].
  repeat first [ rewrite lookup_set_value | rewrite lookup_ensure_keys ].
  reflexivity.
Qed.

Ltac at_key :=
  repeat first
    [ rewrite ensure_at_eq | rewrite set_at_eq
    | rewrite ensure_at_ne by (assumption || discriminate)
    | rewrite set_at_ne by (assumption || discriminate) ].

(** Writing the values again changes nothing. *)
Lemma insert_twice_2 (vs : gmap string reg_value) (n1 n2 : string)
    (v1 v2 : reg_value) :
  <[n2 := v2]> (<[n1 := v1]> (<[n2 := v2]> (<[n1 := v1]> vs)))
  = <[n2 := v2]> (<[n1 := v1]> vs).
Proof.
  apply map_eq. intros n. rewrite !lookup_insert.
  repeat case_decide; done.
Qed.

(** Registering again leaves the registry as the first registration
    left it. *)
Lemma windows_registry_idempotent (h : host)
    (r : gmap string (gmap string reg_value)) :
  windows_registry h (windows_registry h r) = windows_registry h r.
Proof.
  apply map_eq. intros k.
  rewrite (lookup_windows_registry h (windows_registry h r)).
  rewrite lookup_windows_registry. cbn [foldl].
  generalize (r !! k). intros x.
  destruct (decide (k = "SOFTWARE")) as [-> | H1]; [at_key; by destruct x |].
  destruct (decide (k = "SOFTWARE\Classes")) as [-> | H2];
    [at_key; by destruct x |].
  destruct (decide (k = "SOFTWARE\Classes\ida")) as [-> | H3].
  { at_key. destruct x; simpl; by rewrite insert_twice_2. }
  destruct (decide (k = "SOFTWARE\Classes\ida\DefaultIcon")) as [-> | H4].
  { at_key. destruct x; simpl; by rewrite insert_insert_eq. }
  destruct (decide (k = "SOFTWARE\Classes\ida\shell")) as [-> | H5];
    [at_key; by destruct x |].
  destruct (decide (k = "SOFTWARE\Classes\ida\shell\open")) as [-> | H6];
    [at_key; by destruct x |].
  destruct (decide (k = "SOFTWARE\Classes\ida\shell\open\command"))
    as [-> | H7].
  { at_key. destruct x; simpl; by rewrite insert_insert_eq. }
  by at_key.
Qed.

End WindowsRegistry.

Section Replace.
Import PyStr Claims.
Local Arguments String.append !_ _ / : simpl nomatch.


Lemma contains_append_l (x a b : string) :
  contains x a = true -> contains x (a +:+ b) = true.
Proof.
  rewrite !contains_spec. intros (before & after & ->).
  exists before, (after +:+ b). by rewrite !append_assoc.
Qed.

Lemma contains_cons (x : string) (c : ascii) (s : string) :
  contains x s = true -> contains x (String c s) = true.
Proof. intros H. cbn [contains]. rewrite H. apply orb_true_r. Qed.

Lemma replace_from_contains (old new x : string) (skip : nat) (s : string) :
  contains x new = true ->
  contains old (string_drop skip s) = true ->
  old <> EmptyString ->
  contains x (replace_from old new skip s) = true.
Proof.
  intros Hx Hold Hne. revert skip Hold.
  induction s as [|c s IH]; intros skip Hold.
  - destruct skip; simpl in Hold; destruct old; simpl in Hold; done.
  - destruct skip as [|k]; cbn [replace_from].
    + cbn [string_drop] in Hold.
      destruct (startswith old (String c s)) eqn:Hst.
      * by apply contains_append_l.
      * apply contains_cons, (IH O). cbn [contains] in Hold.
        rewrite Hst in Hold. exact Hold.
    + apply IH. exact Hold.
Qed.

Lemma replace_from_inert (old new s : string) :
  contains old s = false -> replace_from old new O s = s.
Proof.
  induction s as [|c s IH]; intros H; [done |].
  cbn [contains] in H. apply orb_false_iff in H as [Hst Hs].
  cbn [replace_from]. rewrite Hst. by rewrite IH.
Qed.

(** Replacing [old] either brings in everything [new] holds or changes
    nothing. *)
Lemma replace_contains_or_inert (old new x s : string) :
  old <> EmptyString -> contains x new = true ->
  contains x (replace old new s) = true \/ replace old new s = s.
Proof.
  intros Hne Hx. destruct old as [|a old]; [done |].
  unfold replace. destruct (contains (String a old) s) eqn:Hc.
  - left. by apply replace_from_contains.
  - right. by apply replace_from_inert.
Qed.

End Replace.

Section MacOSFiles.
Import PyStr PyBytes Py Os Protocol Claims.

Lemma patched_plist_stable (text : string) :
  contains URL_TYPES_KEY (patched_plist text) = true
  \/ patched_plist text = text.
Proof.
  apply replace_contains_or_inert; [done | by vm_compute].
Qed.

Lemma lookup_insert_dirs (ds : list string) (f : gmap string node)
    (k : string) :
  foldr (fun d f => <[d := Dir]> f) f ds !! k
  = if decide (k ∈ ds) then Some Dir else f !! k.
Proof.
  induction ds as [|d ds IH]; cbn [foldr].
  - case_decide as H; [by apply elem_of_nil in H | done].
  - rewrite lookup_insert, IH.
    destruct (decide (d = k)) as [-> | Hne].
    + rewrite decide_True; [done | apply list_elem_of_here].
    + destruct (decide (k ∈ ds)) as [Hin | Hnin].
      * rewrite decide_True; [done | by apply list_elem_of_further].
      * rewrite decide_False; [done |].
        rewrite elem_of_cons. intros [-> | ?]; done.
Qed.

Lemma lookup_compiled_bundle (h : host) (f : gmap string node) (k : string) :
  compiled_bundle h f !! k
  = if decide (k = bundle_plist (macos_app_path h))
    then Some (compiled_plist h (macos_app_path h) f)
    else if decide (k = bundle_script (macos_app_path h))
    then Some (File (macos_source h) (new_file_mode h))
    else if decide (k ∈ bundle_dirs (macos_app_path h)) then Some Dir
    else f !! k.
Proof.
  unfold compiled_bundle. rewrite !lookup_insert, lookup_insert_dirs.
  repeat case_decide; congruence.
Qed.

Lemma compiled_plist_is_file (h : host) (f : gmap string node) :
  compiled_plist h (macos_app_path h) f
  = File (compiled_text h f)
         (match compiled_plist h (macos_app_path h) f with
          | File _ m => m
          | Dir => 0
          end).
Proof.
  unfold compiled_text, compiled_plist.
  destruct (f !! _) as [[| c m] |]; try done.
  by destruct (osacompile_keeps_plist h).
Qed.

Lemma lookup_macos_fs_plist (h : host) (f : gmap string node) :
  exists text m,
    macos_fs h f !! bundle_plist (macos_app_path h) = Some (File text m)
    /\ (if needs_patch h f
        then text = patched_plist (compiled_text h f) /\ m = tmp_mode
        else File text m = compiled_plist h (macos_app_path h) f).
Proof.
  unfold macos_fs. destruct (needs_patch h f).
  - eexists _, _. split; [apply lookup_insert_eq | done].
  - rewrite lookup_compiled_bundle, decide_True by done.
    rewrite compiled_plist_is_file. by eexists _, _.
Qed.

Lemma lookup_macos_fs_ne (h : host) (f : gmap string node) (k : string) :
  k <> bundle_plist (macos_app_path h) ->
  macos_fs h f !! k = compiled_bundle h f !! k.
Proof.
  intros Hne. unfold macos_fs. destruct (needs_patch h f); [| done].
  by rewrite lookup_insert_ne.
Qed.

(** What osacompile leaves when it runs over the bundle of an earlier
    registration. *)
Lemma compiled_plist_again (h : host) (f : gmap string node) :
  compiled_plist h (macos_app_path h) (macos_fs h f)
  = if osacompile_keeps_plist h
    then default Dir (macos_fs h f !! bundle_plist (macos_app_path h))
    else compiled_plist h (macos_app_path h) f.
Proof.
  destruct (lookup_macos_fs_plist h f) as (text & m & Hl & _).
  unfold compiled_plist at 1. rewrite Hl. simpl.
  destruct (osacompile_keeps_plist h) eqn:Hk; [done |].
  unfold compiled_plist. rewrite Hk. by destruct (f !! _) as [[| ? ?] |].
Qed.

Lemma compiled_text_again (h : host) (f : gmap string node) :
  compiled_text h (macos_fs h f)
  = if osacompile_keeps_plist h && needs_patch h f
    then patched_plist (compiled_text h f)
    else compiled_text h f.
Proof.
  unfold compiled_text at 1. rewrite compiled_plist_again.
  destruct (lookup_macos_fs_plist h f) as (text & m & Hl & Hn).
  destruct (osacompile_keeps_plist h); simpl.
  - rewrite Hl. simpl. destruct (needs_patch h f).
    + by destruct Hn as [-> _].
    + rewrite compiled_plist_is_file in Hn. by injection Hn as -> _.
  - by rewrite compiled_plist_is_file.
Qed.

(** A declaration that is missing after a registration was missing
    before it. *)
Lemma needs_patch_again (h : host) (f : gmap string node) :
  needs_patch h (macos_fs h f) = true -> needs_patch h f = true.
Proof.
  unfold needs_patch at 1. rewrite compiled_text_again.
  destruct (needs_patch h f) eqn:Hn; [done |].
  rewrite andb_false_r. fold (needs_patch h f). by rewrite Hn.
Qed.

Lemma compiled_bundle_again (h : host) (f : gmap string node) :
  compiled_bundle h (macos_fs h f)
  = if osacompile_keeps_plist h then macos_fs h f else compiled_bundle h f.
Proof.
  apply map_eq. intros k.
  rewrite lookup_compiled_bundle, compiled_plist_again.
  destruct (decide (k = bundle_plist (macos_app_path h))) as [-> | Hne].
  - destruct (osacompile_keeps_plist h).
    + by destruct (lookup_macos_fs_plist h f) as (text & m & -> & _).
    + by rewrite lookup_compiled_bundle, decide_True.
  - rewrite lookup_macos_fs_ne by done.
    assert (compiled_bundle h f !! k
            = if decide (k = bundle_script (macos_app_path h))
              then Some (File (macos_source h) (new_file_mode h))
              else if decide (k ∈ bundle_dirs (macos_app_path h))
              then Some Dir else compiled_bundle h f !! k) as <-.
    { rewrite lookup_compiled_bundle, decide_False by done.
      by repeat case_decide. }
    destruct (osacompile_keeps_plist h); [| done].
    by rewrite lookup_macos_fs_ne.
Qed.

(** Registering again leaves the files as the first registration left
    them. *)
Lemma macos_fs_idempotent (h : host) (f : gmap string node) :
  macos_fs h (macos_fs h f) = macos_fs h f.
Proof.
  unfold macos_fs at 1. unfold needs_patch at 1.
  rewrite compiled_bundle_again, compiled_text_again.
  destruct (osacompile_keeps_plist h); simpl.
  - destruct (needs_patch h f) eqn:Hn.
    + destruct (patched_plist_stable (compiled_text h f)) as [-> | Heq];
        [done |].
      rewrite Heq. fold (needs_patch h f). rewrite Hn.
      unfold macos_fs. rewrite Hn, Heq. apply insert_insert_eq.
    + fold (needs_patch h f). by rewrite Hn.
  - fold (needs_patch h f). reflexivity.
Qed.

End MacOSFiles.

Section MacOSRun.
Import PyStr PyBytes Py Os Protocol Claims.
Local Arguments String.append !_ _ / : simpl nomatch.

Ltac step tac := eapply bind_Return_eq; [tac | cbv beta].
Ltac reraising :=
  repeat constructor; intros; apply print_then_raise_reraises.
Ltac wsimpl :=
  cbv [with_environ with_fs with_scratch with_registry with_mime_default
       with_launch_services with_console with_logged with_calls
       after_call after_print artifacts_of
       environ fs scratch registry mime_default launch_services console
       logged calls] in *.

Lemma info_plist_path_eq (app : string) :
  path_div (path_div app "Contents") "Info.plist" = bundle_plist app.
Proof.
  unfold path_div, bundle_plist. by rewrite !append_assoc.
Qed.

Lemma with_exit_Return {A : Type} (body : M A) (leave : M unit)
    (w w1 w2 : world) (a : A) :
  body w = (Return a, w1) -> leave w1 = (Return tt, w2) ->
  with_exit body leave w = (Return a, w2).
Proof. unfold with_exit. by intros -> ->. Qed.

Lemma with_exit_Return_inv {A : Type} (body : M A) (leave : M unit)
    (w w2 : world) (a : A) :
  with_exit body leave w = (Return a, w2) ->
  exists w1, body w = (Return a, w1) /\ (leave w1).2 = w2.
Proof.
  unfold with_exit. destruct (body w) as [[a' | e] w1].
  - destruct (leave w1) as [[[] | e] w'] eqn:Hl; [| done].
    intros [= -> <-]. exists w1. by rewrite Hl.
  - by destruct (leave w1) as [[[] | e'] w'].
Qed.

Lemma osacompile_ok (h : host) (out err : bytes) (w : world) :
  scratch w !! macos_script_path h = Some (macos_source h) ->
  osacompile h (macos_app_path h) (macos_script_path h)
    (Completed 0 out err) w
  = (Completed 0 out err, with_fs (compiled_bundle h (fs w)) w).
Proof. unfold osacompile. by intros ->. Qed.

Lemma osacompile_inv (h : host) (app script : string) (r : proc_outcome)
    (w w' : world) (out err : bytes) :
  osacompile h app script r w = (Completed 0 out err, w') ->
  r = Completed 0 out err.
Proof.
  unfold osacompile. destruct r as [[| rc | rc] o e | f]; try by intros [= <- <-].
  destruct (scratch w !! script); by intros [= <- <-].
Qed.

Lemma plutil_xml1_ok (file text : string) (m : Z) (out err : bytes)
    (w : world) :
  fs w !! file = Some (File text m) ->
  plutil_xml1 file (Completed 0 out err) w = (Completed 0 (encode text) err, w).
Proof. unfold plutil_xml1. by intros ->. Qed.

Lemma plutil_xml1_inv (file : string) (r : proc_outcome) (w w' : world)
    (out err : bytes) :
  plutil_xml1 file r w = (Completed 0 out err, w') ->
  exists out', r = Completed 0 out' err.
Proof.
  unfold plutil_xml1. destruct r as [[| rc | rc] o e | f]; try by intros [= <- <-].
  destruct (fs w !! file) as [[| text m] |]; intros [= <- <-]; by eexists.
Qed.

Lemma plutil_binary1_ok (file text : string) (out err : bytes) (w : world) :
  scratch w !! file = Some text ->
  plutil_binary1 file (Completed 0 out err) w = (Completed 0 out err, w).
Proof. unfold plutil_binary1. by intros ->. Qed.

Lemma plutil_binary1_inv (file : string) (r : proc_outcome) (w w' : world)
    (out err : bytes) :
  plutil_binary1 file r w = (Completed 0 out err, w') ->
  r = Completed 0 out err.
Proof.
  unfold plutil_binary1.
  destruct r as [[| rc | rc] o e | f]; try by intros [= <- <-].
  destruct (scratch w !! file); by intros [= <- <-].
Qed.

Lemma lsregister_inv (add : bool) (app : string) (r : proc_outcome)
    (w w' : world) (out err : bytes) :
  lsregister add app r w = (Completed 0 out err, w') ->
  r = Completed 0 out err.
Proof.
  unfold lsregister. by destruct r as [[| rc | rc] o e | f]; intros [= <- <-].
Qed.

Lemma copy2_from_tmp_file (src dst text c : string) (m : Z) (w : world) :
  scratch w !! src = Some text -> fs w !! dst = Some (File c m) ->
  copy2_from_tmp src dst w
  = (Return tt, with_fs (<[dst := File text tmp_mode]> (fs w)) w).
Proof. unfold copy2_from_tmp. by intros -> ->. Qed.

Lemma tmp_unlink_ok (name text : string) (w : world) :
  scratch w !! name = Some text ->
  tmp_unlink name w
  = (Return tt, with_scratch (delete name (scratch w)) w).
Proof. unfold tmp_unlink. by intros ->. Qed.

Lemma decode_encode (text : string) :
  string_of_list_byte (encode text) = text.
Proof. apply string_of_list_byte_of_string. Qed.

Lemma lookup_compiled_bundle_plist (h : host) (f : gmap string node) :
  compiled_bundle h f !! bundle_plist (macos_app_path h)
  = Some (File (compiled_text h f)
               (match compiled_plist h (macos_app_path h) f with
                | File _ m => m
                | Dir => 0
                end)).
Proof.
  rewrite lookup_compiled_bundle, decide_True by done.
  by rewrite <- compiled_plist_is_file.
Qed.

Lemma setup_macos_run (h : host) (w : world) :
  macos_tools_succeed h (fs w) ->
  exists w1,
    setup_macos_protocol_handler h w = (Return tt, w1)
    /\ artifacts_of w1
       = Artifacts (macos_fs h (fs w)) (registry w) (mime_default w)
                   ({[macos_app_path h]} ∪ launch_services w).
Proof.
  intros ((o1 & e1 & Hosa) & (o2 & e2 & Hxml) & Hbin & (o4 & e4 & Hls)).
  unfold osacompile_args, plutil_xml1_args, plutil_binary1_args,
    lsregister_args in *.
  unfold setup_macos_protocol_handler.
  rewrite info_plist_path_eq.
  fold (macos_script_path h) (macos_source h).
  destruct w as [en f sc rg mi ls co lg ca]. wsimpl.
  destruct (needs_patch h f) eqn:Hn.
  - destruct (Hbin eq_refl) as (o3 & e3 & Hb). eexists. split.
    + apply try_except_Return. eapply with_exit_Return; [| reflexivity].
      step ltac:(reflexivity).
      step ltac:(apply subprocess_run_checked; rewrite Hosa;
                 apply osacompile_ok, lookup_insert_eq).
      step ltac:(apply subprocess_run_checked; rewrite Hxml;
                 eapply plutil_xml1_ok, lookup_compiled_bundle_plist).
      cbn [stdout]. rewrite decode_encode. wsimpl.
      change (negb (contains "<key>CFBundleURLTypes</key>" (compiled_text h f)))
        with (needs_patch h f).
      rewrite Hn.
      step ltac:(
        step ltac:(reflexivity);
        step ltac:(apply subprocess_run_checked; rewrite Hb;
                   eapply plutil_binary1_ok, lookup_insert_eq);
        step ltac:(eapply copy2_from_tmp_file;
                   [apply lookup_insert_eq
                   | apply lookup_compiled_bundle_plist]);
        eapply tmp_unlink_ok, lookup_insert_eq).
      step ltac:(apply subprocess_run_checked; rewrite Hls; reflexivity).
      reflexivity.
    + wsimpl. unfold macos_fs. rewrite Hn. reflexivity.
  - eexists. split.
    + apply try_except_Return. eapply with_exit_Return; [| reflexivity].
      step ltac:(reflexivity).
      step ltac:(apply subprocess_run_checked; rewrite Hosa;
                 apply osacompile_ok, lookup_insert_eq).
      step ltac:(apply subprocess_run_checked; rewrite Hxml;
                 eapply plutil_xml1_ok, lookup_compiled_bundle_plist).
      cbn [stdout]. rewrite decode_encode. wsimpl.
      change (negb (contains "<key>CFBundleURLTypes</key>" (compiled_text h f)))
        with (needs_patch h f).
      rewrite Hn.
      step ltac:(reflexivity).
      step ltac:(apply subprocess_run_checked; rewrite Hls; reflexivity).
      reflexivity.
    + wsimpl. unfold macos_fs. rewrite Hn. reflexivity.
Qed.

Lemma setup_macos_inv (h : host) (w w1 : world) :
  setup_macos_protocol_handler h w = (Return tt, w1) ->
  macos_tools_succeed h (fs w).
Proof.
  intros H. unfold setup_macos_protocol_handler in H.
  rewrite info_plist_path_eq in H.
  fold (macos_script_path h) (macos_source h) in H.
  apply try_except_Return_inv in H; [| reraising].
  apply with_exit_Return_inv in H as (wx & H & _).
  apply bind_Return_inv in H as ([] & wa & Ha & H).
  injection Ha as <-.
  apply bind_Return_inv in H as (cp1 & wb & Hb & H).
  apply subprocess_run_checked_inv in Hb as (o1 & e1 & Hb & _).
  pose proof (osacompile_inv _ _ _ _ _ _ _ _ Hb) as Hosa.
  rewrite Hosa in Hb. rewrite osacompile_ok in Hb by apply lookup_insert_eq.
  injection Hb as <-.
  apply bind_Return_inv in H as (cp2 & wc & Hc & H).
  apply subprocess_run_checked_inv in Hc as (o2 & e2 & Hc & ->).
  destruct (plutil_xml1_inv _ _ _ _ _ _ Hc) as (o2' & Hxml).
  rewrite Hxml in Hc.
  erewrite plutil_xml1_ok in Hc by apply lookup_compiled_bundle_plist.
  injection Hc as <- <-.
  cbn [stdout] in H. rewrite decode_encode in H.
  destruct w as [en f sc rg mi ls co lg ca]. wsimpl.
  change (negb (contains "<key>CFBundleURLTypes</key>" (compiled_text h f)))
    with (needs_patch h f) in H.
  apply bind_Return_inv in H as ([] & wd & Hd & H).
  apply bind_Return_inv in H as (cp4 & we & He & H).
  apply subprocess_run_checked_inv in He as (o4 & e4 & He & _).
  apply lsregister_inv in He.
  split; [by exists o1, e1 |]. split; [by exists o2', e2 |].
  split; [| by exists o4, e4].
  intros Hn. rewrite Hn in Hd.
  apply bind_Return_inv in Hd as ([] & wd1 & _ & Hd).
  apply bind_Return_inv in Hd as (cp3 & wd2 & Hd & _).
  apply subprocess_run_checked_inv in Hd as (o3 & e3 & Hd & _).
  apply plutil_binary1_inv in Hd. by exists o3, e3.
Qed.

End MacOSRun.

Section RegisterTwice.
Import PyStr PyBytes Py Os Protocol Claims.

Ltac wsimpl :=
  cbv [with_environ with_fs with_scratch with_registry with_mime_default
       with_launch_services with_console with_logged with_calls
       after_call after_print artifacts_of
       environ fs scratch registry mime_default launch_services console
       logged calls] in *.

Lemma setup_macos_twice (h : host) (w w1 : world) :
  setup_macos_protocol_handler h w = (Return tt, w1) ->
  artifacts_of w1
  = Artifacts (macos_fs h (fs w)) (registry w) (mime_default w)
              ({[macos_app_path h]} ∪ launch_services w)
  /\ exists w2, setup_macos_protocol_handler h w1 = (Return tt, w2)
                /\ artifacts_of w2 = artifacts_of w1.
Proof.
  intros H. pose proof (setup_macos_inv h w w1 H) as Htools.
  destruct (setup_macos_run h w Htools) as (w1' & Hrun & Hart).
  assert (w1' = w1) as -> by congruence.
  split; [done |].
  assert (Hfs : fs w1 = macos_fs h (fs w))
    by (by injection Hart; destruct w1).
  assert (Htools1 : macos_tools_succeed h (fs w1)).
  { destruct Htools as (Ha & Hb & Hc & Hd). repeat split; try done.
    intros Hn. apply Hc. rewrite Hfs in Hn. by apply needs_patch_again. }
  destruct (setup_macos_run h w1 Htools1) as (w2 & Hrun2 & Hart2).
  exists w2. split; [done |].
  rewrite Hart2, Hart. destruct w1. unfold artifacts_of in Hart.
  simpl in *. injection Hart as -> -> -> ->.
  rewrite macos_fs_idempotent. f_equal.
  by rewrite (assoc_L (∪)), (idemp_L (∪)).
Qed.

Lemma setup_windows_twice (h : host) (w w1 : world) :
  setup_windows_protocol_handler h w = (Return tt, w1) ->
  exists w2, setup_windows_protocol_handler h w1 = (Return tt, w2)
             /\ artifacts_of w2 = artifacts_of w1.
Proof.
  intros H. pose proof (setup_windows_inv h w w1 H) as Hreg.
  rewrite setup_windows_run in H by done. injection H as <-.
  eexists. split; [by apply setup_windows_run |].
  destruct w. wsimpl. by rewrite windows_registry_idempotent.
Qed.

Lemma setup_linux_twice (h : host) (w w1 : world) :
  setup_linux_protocol_handler h w = (Return tt, w1) ->
  exists w2, setup_linux_protocol_handler h w1 = (Return tt, w2)
             /\ artifacts_of w2 = artifacts_of w1.
Proof.
  intros H. apply setup_linux_establishes in H as [Hreg Htools].
  by apply setup_linux_registered.
Qed.

Lemma unsupported_raises (p : string) (w w1 : world) :
  unsupported p w <> (Return tt, w1).
Proof.
  unfold unsupported.
  destruct (print_then_raise_reraises
              (Msg ("[red]Unsupported platform: " +:+ p +:+ "[/red]"))
              (RuntimeError ("Platform " +:+ p +:+ " is not supported")) w)
    as (e' & w' & ->).
  done.
Qed.

(** C1. Registering again.  When [register_protocol_handler] has
    returned normally, calling it once more on the state it left
    returns normally too and leaves the same files, registry, default
    associations and launch-service registrations: nothing is added a
    second time.  On macOS the property list of the bundle is left as
    osacompile wrote it when it already declares [CFBundleURLTypes], and
    gets the declaration otherwise. *)
Theorem register_twice (h : host) (w w1 : world) :
  register_protocol_handler h w = (Return tt, w1) ->
  (exists w2, register_protocol_handler h w1 = (Return tt, w2)
              /\ artifacts_of w2 = artifacts_of w1)
  /\ (runs_on MacOS h ->
      forall text m,
        compiled_plist h (macos_app_path h) (fs w) = File text m ->
        fs w1 !! bundle_plist (macos_app_path h)
        = Some (if contains URL_TYPES_KEY text then File text m
                else File (patched_plist text) tmp_mode)).
Proof.
  unfold register_protocol_handler, runs_on. intros H.
  destruct (String.eqb (lower (platform_system h)) "darwin") eqn:Hd.
  - apply setup_macos_twice in H as [Hart Htwice]. split; [done |].
    intros _ text m Hc.
    assert (fs w1 = macos_fs h (fs w)) as ->
      by (by injection Hart; destruct w1).
    unfold macos_fs, needs_patch, compiled_text. rewrite Hc.
    destruct (contains URL_TYPES_KEY text); simpl.
    + by rewrite lookup_compiled_bundle, decide_True, Hc.
    + apply lookup_insert_eq.
  - split; [| intros Hm; rewrite Hm in Hd; done].
    destruct (String.eqb (lower (platform_system h)) "windows").
    + by apply (setup_windows_twice h w).
    + destruct (String.eqb (lower (platform_system h)) "linux").
      * by apply (setup_linux_twice h w).
      * by apply unsupported_raises in H.
Qed.

Lemma register_twice_witness :
  let registered h := (register_protocol_handler h empty_world).2 in
  let again h :=
    exists w2, register_protocol_handler h (registered h) = (Return tt, w2)
               /\ artifacts_of w2 = artifacts_of (registered h) in
  again (working_host "Darwin" true)
  /\ again (working_host "Darwin" false)
  /\ again (working_host "Windows" true)
  /\ again (working_host "Linux" true).
Proof.
  intros registered again. unfold again, registered.
  repeat split.
  - apply (register_twice (working_host "Darwin" true) empty_world).
    vm_compute. reflexivity.
  - apply (register_twice (working_host "Darwin" false) empty_world).
    vm_compute. reflexivity.
  - apply (register_twice (working_host "Windows" true) empty_world).
    vm_compute. reflexivity.
  - apply (register_twice (working_host "Linux" true) empty_world).
    vm_compute. reflexivity.
Defined.

End RegisterTwice.

(** * Further properties of the code *)

Section MorePip.
Import PyStr PyBytes Py Os IdaPython Claims.

Ltac run :=
  unfold mbind, M_bind, mret, M_ret, get, modify, pass, raise; simpl.


End MorePip.
Section MoreDiscovery.
Import PyStr PyBytes Py Os IdaPython Claims.

Ltac run :=
  unfold mbind, M_bind, mret, M_ret, get, modify, pass, raise; simpl.

(** X2. A path found by live discovery is returned whatever its text:
    nothing is checked or rejected.  A warning is logged exactly when the
    text does not contain [python] in lower case, then a debug record;
    the script ran once and nothing else changed. *)
Theorem discovered_path_is_accepted (h : host) (w : world) (exe : string) :
  truthy_opt (environ w !! OVERRIDE) = false ->
  ENV_HCLI_CURRENT_IDA_PYTHON_EXE h = None ->
  idapython h FIND_PYTHON_PY = Return exe ->
  let '(r, w') := find_current_python_executable h w in
  r = Return (Path exe)
  /\ logged w'
     = logged w
       ++ (if contains "python" exe then []
           else [(WARNING,
                  Msg ("'python' not found in discovered IDA Python interpreter path: "
                       +:+ exe))])
       ++ [(DEBUG, Msg ("found IDA Python interpreter path: " +:+ exe))]
  /\ calls w' = calls w ++ [IdaPython FIND_PYTHON_PY]
  /\ artifacts_of w' = artifacts_of w.
Proof.
  unfold OVERRIDE. intros Henv Hcfg Hrun.
  unfold find_current_python_executable, os_environ_get. run.
  rewrite Henv, Hcfg. unfold try_except, run_py_in_current_idapython.
  rewrite Hrun. simpl.
  destruct (contains "python" exe); simpl.
  - repeat split; try done.
  - repeat split; try done. by rewrite <- app_assoc.
Qed.

Lemma discovered_path_is_accepted_witness :
  (find_current_python_executable
     (sample_host "Windows" (fun _ _ => Failed NoSuchFile) None
        (Return "C:\Python312\PYTHON.EXE"))
     empty_world).1
  = Return (Path "C:\Python312\PYTHON.EXE").
Proof.
  pose proof (discovered_path_is_accepted
                (sample_host "Windows" (fun _ _ => Failed NoSuchFile) None
                   (Return "C:\Python312\PYTHON.EXE"))
                empty_world "C:\Python312\PYTHON.EXE"
                eq_refl eq_refl eq_refl) as H.
  destruct (find_current_python_executable _ _) as [r w'].
  exact (proj1 H).
Defined.

End MoreDiscovery.

Section MoreShim.
Import PyStr IdaPython Claims Behaviour.
Local Arguments String.append !_ _ / : simpl nomatch.

Lemma same_letter_lower (a b : ascii) :
  same_letter a b = true -> lower_char a = lower_char b.
Proof.
  unfold same_letter, lower_char, ord.
  rewrite !orb_true_iff, !andb_true_iff.
  rewrite !N.leb_le, !N.eqb_eq.
  intros [[Hab | [[Ha1 Ha2] Hb]] | [[Hb1 Hb2] Ha]].
  - by apply Ascii.eqb_eq in Hab as ->.
  - destruct ((65 <=? N_of_ascii a)%N && (N_of_ascii a <=? 90)%N) eqn:Hu.
    2: { apply andb_false_iff in Hu as [Hu | Hu];
         [apply N.leb_gt in Hu | apply N.leb_gt in Hu]; lia. }
    destruct ((65 <=? N_of_ascii b)%N && (N_of_ascii b <=? 90)%N) eqn:Hv.
    { apply andb_true_iff in Hv as [_ Hv]. apply N.leb_le in Hv. lia. }
    by rewrite <- Hb, ascii_N_embedding.
  - destruct ((65 <=? N_of_ascii b)%N && (N_of_ascii b <=? 90)%N) eqn:Hu.
    2: { apply andb_false_iff in Hu as [Hu | Hu];
         [apply N.leb_gt in Hu | apply N.leb_gt in Hu]; lia. }
    destruct ((65 <=? N_of_ascii a)%N && (N_of_ascii a <=? 90)%N) eqn:Hv.
    { apply andb_true_iff in Hv as [_ Hv]. apply N.leb_le in Hv. lia. }
    by rewrite <- Ha, ascii_N_embedding.
Qed.

Lemma same_but_ascii_case_lower (s t : string) :
  same_but_ascii_case s t = true -> lower s = lower t.
Proof.
  revert t. induction s as [|a s IH]; intros [|b t]; simpl; try done.
  intros [Hc Hs]%andb_true_iff.
  by rewrite (same_letter_lower a b Hc), (IH t Hs).
Qed.

Lemma contains_within (x a s b : string) :
  contains x s = true -> contains x (a +:+ s +:+ b) = true.
Proof.
  rewrite !contains_spec. intros (before & after & ->).
  exists (a +:+ before), (after +:+ b). by rewrite !append_assoc.
Qed.

(** X6. The verdict of [is_windows_store_shim] depends neither on the
    case of ASCII letters nor on what surrounds the path: two paths that
    differ only in the case of such letters get the same verdict, and a
    shim path stays a shim when text is put before or after it. *)
Theorem shim_verdict_stable (s : string) :
  (forall t, same_but_ascii_case s t = true ->
             is_windows_store_shim (Some t) = is_windows_store_shim (Some s))
  /\ (forall a b,
        is_windows_store_shim (Some s) = true ->
        is_windows_store_shim (Some (a +:+ s +:+ b)) = true).
Proof.
  unfold is_windows_store_shim. split.
  - intros t Hst. by rewrite (same_but_ascii_case_lower s t Hst).
  - intros a b. rewrite !lower_append, !orb_true_iff.
    intros [H | H]; [left | right]; by apply contains_within.
Qed.

End MoreShim.

Section MoreWindows.
Import PyStr PyBytes Py Os Protocol Claims Behaviour.

Ltac run :=
  unfold mbind, M_bind, mret, M_ret, get, modify, pass, raise; simpl.

Lemma DeleteKeyEx_refused (k : string) (w : world) :
  is_Some (registry w !! k) -> has_subkey (registry w) k = true ->
  DeleteKeyEx k w = (Raise (OSError PermissionError_ k), w).
Proof.
  intros [vs Hk] Hsub. unfold DeleteKeyEx. by rewrite Hk, Hsub.
Qed.

(** The removal when nothing stands in its way. *)
Lemma unregister_windows_deletes_all (h : host) (w : world) :
  has_winreg h = true ->
  (forall before k after,
     deletion_sequence = before ++ k :: after ->
     can_delete (without_keys before (registry w)) k) ->
  unregister_windows_protocol_handler h w
  = (Return tt,
     after_print windows_removed_message
       (with_registry (without_keys deletion_sequence (registry w)) w)).
Proof.
  intros Hreg Hdel.
  unfold unregister_windows_protocol_handler, try_except, import_winreg.
  rewrite Hreg. unfold deletion_sequence in Hdel. run.
  repeat (rewrite DeleteKeyEx_ok by
    first [ by eapply (Hdel [])
          | by eapply (Hdel [_])
          | by eapply (Hdel [_; _])
          | by eapply (Hdel [_; _; _])
          | by eapply (Hdel [_; _; _; _]) ]; simpl).
  reflexivity.
Qed.

(** X7. When every key of the sequence can be deleted at its turn,
    [unregister_windows_protocol_handler] deletes all five, leaf to root,
    prints the removal notice and returns normally; no other key of the
    registry changes. *)
Theorem unregister_windows_removes (h : host) (w : world) :
  has_winreg h = true ->
  (forall before k after,
     deletion_sequence = before ++ k :: after ->
     can_delete (without_keys before (registry w)) k) ->
  unregister_windows_protocol_handler h w
  = (Return tt,
     after_print windows_removed_message
       (with_registry (without_keys deletion_sequence (registry w)) w))
  /\ (forall k, k ∈ deletion_sequence ->
        without_keys deletion_sequence (registry w) !! k = None)
  /\ (forall k, k ∉ deletion_sequence ->
        without_keys deletion_sequence (registry w) !! k = registry w !! k).
Proof.
  intros Hreg Hdel. split; [| split].
  - by apply unregister_windows_deletes_all.
  - intros k. apply without_keys_lookup_elem.
  - intros k. apply without_keys_lookup_ne.
Qed.

Lemma unregister_windows_removes_witness :
  let r := without_keys deletion_sequence
             (registry registered_registry_world) in
  unregister_windows_protocol_handler (bare_host "Windows")
    registered_registry_world
  = (Return tt,
     after_print windows_removed_message
       (with_registry r registered_registry_world))
  /\ r !! "SOFTWARE\Classes\ida" = None
  /\ is_Some (r !! "SOFTWARE\Classes").
Proof.
  intros r. split; [| split; [reflexivity | by eexists]].
  apply (unregister_windows_removes (bare_host "Windows")
           registered_registry_world).
  - reflexivity.
  - intros before k after Heq.
    destruct before as [|? [|? [|? [|? [|? rest]]]]]; simpl in Heq;
      inversion Heq; subst; try (by destruct rest).
    all: (split; [apply (bool_decide_unpack _) |]; by vm_compute).
Defined.

(** X8. A key that still has subkeys stops the removal with an error:
    the keys before it in the sequence are gone, the refused key and the
    keys after it stay, [PermissionError] is raised after the error line
    is printed, and neither notice of removal is printed. *)
Theorem unregister_windows_refused (h : host) (w : world)
    (gone : list string) (refused : string) (kept : list string) :
  has_winreg h = true ->
  deletion_sequence = gone ++ refused :: kept ->
  (forall before k after,
     gone = before ++ k :: after ->
     can_delete (without_keys before (registry w)) k) ->
  is_Some (registry w !! refused) ->
  has_subkey (without_keys gone (registry w)) refused = true ->
  let e := OSError PermissionError_ refused in
  unregister_windows_protocol_handler h w
  = (Raise e,
     after_print
       (MsgExn "[red]Error removing Windows protocol handler: " e "[/red]")
       (with_registry (without_keys gone (registry w)) w))
  /\ (forall k, k = refused \/ k ∈ kept ->
        without_keys gone (registry w) !! k = registry w !! k).
Proof.
  intros Hreg Hseq Hdel Hthere Hsub e.
  assert (Hnd : NoDup deletion_sequence)
    by (apply (bool_decide_unpack _); by vm_compute).
  rewrite Hseq in Hnd. apply NoDup_app in Hnd as (_ & Hdisj & _).
  assert (Hkeep : forall k, k = refused \/ k ∈ kept ->
            without_keys gone (registry w) !! k = registry w !! k).
  { intros k Hk. apply without_keys_lookup_ne. intros Hgone.
    apply (Hdisj k Hgone). apply elem_of_cons.
    destruct Hk as [-> | Hk]; [by left | by right]. }
  split; [| done].
  assert (Hthere' : is_Some (without_keys gone (registry w) !! refused))
    by (rewrite Hkeep; [done | by left]).
  unfold unregister_windows_protocol_handler, try_except, import_winreg.
  rewrite Hreg. unfold deletion_sequence in Hseq.
  destruct gone as [|g1 [|g2 [|g3 [|g4 [|g5 gone]]]]];
    simpl in Hseq; injection Hseq as <-; subst; run.
  all: repeat (rewrite DeleteKeyEx_ok by
         first [ by eapply (Hdel [])
               | by eapply (Hdel [_])
               | by eapply (Hdel [_; _])
               | by eapply (Hdel [_; _; _]) ]; simpl).
  all: try (rewrite DeleteKeyEx_refused by done; reflexivity).
  by destruct gone.
Qed.

Lemma unregister_windows_refused_witness :
  let r := without_keys
             ["SOFTWARE\Classes\ida\shell\open\command";
              "SOFTWARE\Classes\ida\shell\open"] shared_registry in
  let e := OSError PermissionError_ "SOFTWARE\Classes\ida\shell" in
  unregister_windows_protocol_handler (bare_host "Windows")
    shared_registry_world
  = (Raise e,
     after_print
       (MsgExn "[red]Error removing Windows protocol handler: " e "[/red]")
       (with_registry r shared_registry_world))
  /\ r !! "SOFTWARE\Classes\ida\shell\open" = None
  /\ is_Some (r !! "SOFTWARE\Classes\ida").
Proof.
  intros r e. split; [| split; [reflexivity | by eexists]].
  apply (unregister_windows_refused (bare_host "Windows")
           shared_registry_world
           ["SOFTWARE\Classes\ida\shell\open\command";
            "SOFTWARE\Classes\ida\shell\open"]
           "SOFTWARE\Classes\ida\shell"
           ["SOFTWARE\Classes\ida\DefaultIcon"; "SOFTWARE\Classes\ida"]).
  - reflexivity.
  - reflexivity.
  - intros before k after Heq.
    destruct before as [|? [|? [|? ?]]]; simpl in Heq; inversion Heq; subst.
    all: (split; [apply (bool_decide_unpack _) |]; by vm_compute).
  - by eexists.
  - by vm_compute.
Defined.

End MoreWindows.
Section WindowsRoundTrip.
Import PyStr PyBytes Py Os Protocol Claims Behaviour.
Local Arguments String.append !_ _ / : simpl nomatch.

Lemma startswith_trans (q p s : string) :
  startswith q p = true -> startswith p s = true -> startswith q s = true.
Proof.
  rewrite !startswith_spec. intros [a ->] [b ->].
  exists (a +:+ b). by rewrite append_assoc.
Qed.

Lemma has_subkey_false (r : gmap string (gmap string reg_value))
    (k : string) :
  (forall k', is_Some (r !! k') ->
              startswith (k +:+ String backslash EmptyString) k' = false) ->
  has_subkey r k = false.
Proof.
  intros H. unfold has_subkey.
  destruct (existsb _ _) eqn:He; [| done].
  apply existsb_exists in He as (k' & Hin & Hst).
  apply list_elem_of_In, elem_of_elements, elem_of_dom in Hin.
  by rewrite H in Hst.
Qed.

(** Registration leaves every other key as it was. *)
Lemma windows_registry_other (h : host)
    (r : gmap string (gmap string reg_value)) (k : string) :
  k <> "SOFTWARE" -> k <> "SOFTWARE\Classes" -> k ∉ deletion_sequence ->
  windows_registry h r !! k = r !! k.
Proof.
  intros H1 H2 Hseq. unfold deletion_sequence in Hseq.
  rewrite !not_elem_of_cons in Hseq.
  destruct Hseq as (H7 & H6 & H5 & H4 & H3 & _).
  rewrite lookup_windows_registry. cbn [foldl].
  by repeat first
    [ rewrite ensure_at_ne by (assumption || discriminate)
    | rewrite set_at_ne by (assumption || discriminate) ].
Qed.

(** Registration leaves the five keys of the subtree present. *)
Lemma windows_registry_present (h : host)
    (r : gmap string (gmap string reg_value)) (k : string) :
  k ∈ deletion_sequence -> is_Some (windows_registry h r !! k).
Proof.
  intros Hk. unfold windows_registry, windows_registry_writes. cbn [foldl].
  unfold deletion_sequence in Hk.
  repeat (apply elem_of_cons in Hk as [-> | Hk]);
    try (by apply elem_of_nil in Hk).
  all: repeat first
    [ apply create_key_present
    | apply set_value_present
    | apply ensure_keys_is_Some; left ].
Qed.

(** A key found below the scheme after registration, on a registry that
    had none there, is one of the five and has not been deleted yet. *)
Lemma subtree_is_ours (h : host) (r : gmap string (gmap string reg_value))
    (before : list string) (k' : string) :
  (forall q, startswith (reg_key +:+ "\") q = true -> r !! q = None) ->
  is_Some (without_keys before (windows_registry h r) !! k') ->
  startswith (reg_key +:+ "\") k' = true ->
  k' ∈ deletion_sequence /\ k' ∉ before.
Proof.
  intros Hnone Hsome Hst.
  assert (Hnb : k' ∉ before).
  { intros Hin. rewrite without_keys_lookup_elem in Hsome by done.
    by destruct Hsome. }
  split; [| done]. rewrite without_keys_lookup_ne in Hsome by done.
  destruct (decide (k' ∈ deletion_sequence)) as [| Hns]; [done |].
  destruct (decide (k' = "SOFTWARE")) as [-> | H1]; [by vm_compute in Hst |].
  destruct (decide (k' = "SOFTWARE\Classes")) as [-> | H2];
    [by vm_compute in Hst |].
  rewrite windows_registry_other, Hnone in Hsome by done.
  by destruct Hsome.
Qed.

(** After registration on such a registry each key of the sequence can
    be deleted at its turn. *)
Lemma registered_keys_deletable (h : host)
    (r : gmap string (gmap string reg_value))
    (before : list string) (k : string) (after : list string) :
  (forall q, startswith (reg_key +:+ "\") q = true -> r !! q = None) ->
  deletion_sequence = before ++ k :: after ->
  can_delete (without_keys before (windows_registry h r)) k.
Proof.
  intros Hnone Hseq.
  assert (Hnd : NoDup deletion_sequence)
    by (apply (bool_decide_unpack _); by vm_compute).
  assert (Hk : k ∈ deletion_sequence)
    by (rewrite Hseq; apply elem_of_app; right; apply list_elem_of_here).
  assert (Hkb : k ∉ before).
  { rewrite Hseq in Hnd. apply NoDup_app in Hnd as (_ & Hdisj & _).
    intros Hin. apply (Hdisj k Hin), list_elem_of_here. }
  split.
  - rewrite without_keys_lookup_ne by done.
    by apply windows_registry_present.
  - apply has_subkey_false. intros k' Hsome.
    destruct (startswith _ k') eqn:Hst; [exfalso | done].
    assert (Hpre : startswith (reg_key +:+ "\")
                     (k +:+ String backslash EmptyString) = true).
    { clear -Hk. unfold deletion_sequence in Hk.
      repeat (apply elem_of_cons in Hk as [-> | Hk]);
        try (by apply elem_of_nil in Hk); by vm_compute. }
    pose proof (startswith_trans _ _ _ Hpre Hst) as Hroot.
    destruct (subtree_is_ours h r before k' Hnone Hsome Hroot) as [Hin Hnb].
    unfold deletion_sequence in Hseq, Hin.
    destruct before as [|? [|? [|? [|? [|? rest]]]]]; simpl in Hseq;
      inversion Hseq; subst; try (by destruct rest).
    all: repeat (apply elem_of_cons in Hin as [-> | Hin]);
      try (by apply elem_of_nil in Hin).
    all: try (by vm_compute in Hst).
    all: exfalso; apply Hnb; by repeat constructor.
Qed.

(** X9. A registration can be taken back.  On a host with [winreg] and
    a registry with no key below the scheme's key, registering and then
    unregistering both return normally, the second with the removal
    notice, and no key at or below the scheme's key is left. *)
Theorem register_then_unregister_windows (h : host) (w : world) :
  has_winreg h = true ->
  (forall q, startswith (reg_key +:+ "\") q = true -> registry w !! q = None) ->
  exists w1 w2,
    setup_windows_protocol_handler h w = (Return tt, w1)
    /\ unregister_windows_protocol_handler h w1 = (Return tt, w2)
    /\ console w2
       = console w ++ [windows_registered_message; windows_removed_message]
    /\ (forall k, key_within reg_key k -> registry w2 !! k = None).
Proof.
  intros Hreg Hnone. eexists _, _.
  split; [by apply setup_windows_run |].
  split.
  { apply unregister_windows_deletes_all; [done |].
    intros before k after Hseq. destruct w.
    by eapply registered_keys_deletable. }
  destruct w as [en f sc rg mi ls co lg ca].
  cbv [with_environ with_fs with_scratch with_registry with_mime_default
       with_launch_services with_console with_logged with_calls
       after_call after_print
       environ fs scratch registry mime_default launch_services console
       logged calls] in *.
  split; [by rewrite <- app_assoc |].
  intros k [-> | Hst].
  - apply without_keys_lookup_elem. by vm_compute; repeat constructor.
  - destruct (decide (k ∈ deletion_sequence)) as [Hin | Hnin].
    + by apply without_keys_lookup_elem.
    + rewrite without_keys_lookup_ne by done.
      rewrite windows_registry_other; [by apply Hnone | | | done].
      * intros ->. by vm_compute in Hst.
      * intros ->. by vm_compute in Hst.
Qed.

Lemma register_then_unregister_windows_witness :
  exists w1 w2,
    setup_windows_protocol_handler (working_host "Windows" true) empty_world
    = (Return tt, w1)
    /\ unregister_windows_protocol_handler (working_host "Windows" true) w1
       = (Return tt, w2)
    /\ console w2
       = console empty_world
         ++ [windows_registered_message; windows_removed_message]
    /\ (forall k, key_within reg_key k -> registry w2 !! k = None).
Proof.
  apply (register_then_unregister_windows
           (working_host "Windows" true) empty_world).
  - reflexivity.
  - intros q _. apply lookup_empty.
Defined.

End WindowsRoundTrip.
Section MoreMonad.
Import Py Os Claims.

Lemma bind_Raise {A B : Type} (m : M A) (f : A -> M B) (w w1 : world)
    (e : exn) :
  m w = (Raise e, w1) -> (m ≫= f) w = (Raise e, w1).
Proof. unfold mbind, M_bind. by intros ->. Qed.

Lemma try_except_Raise {A : Type} (body : M A)
    (hs : list (exn_class * (exn -> M A))) (w w1 : world) (e : exn)
    (k : M A) :
  body w = (Raise e, w1) -> find_handler e hs = Some k ->
  try_except body hs w = k w1.
Proof. unfold try_except. by intros -> ->. Qed.

Lemma try_except_Raise_eq {A : Type} (body : M A)
    (hs : list (exn_class * (exn -> M A))) (w w1 : world) (e : exn)
    (k : M A) (r : res A * world) :
  body w = (Raise e, w1) -> find_handler e hs = Some k -> k w1 = r ->
  try_except body hs w = r.
Proof. unfold try_except. by intros -> -> <-. Qed.

Lemma subprocess_run_check_fails (h : host) (t : tool) (args : list string)
    (capture : bool) (timeout : option Z) (w w' : world) (rc : Z)
    (out err : PyBytes.bytes) :
  t (spawn h args timeout) (after_call (Subprocess args timeout) w)
  = (Completed rc out err, w') ->
  rc <> 0 ->
  subprocess_run h t args true capture timeout w
  = (Raise (CalledProcessError rc args
              (if capture then Some out else None)
              (if capture then Some err else None)), w').
Proof.
  unfold subprocess_run, after_call. intros -> Hrc.
  by destruct (Z.eqb_spec rc 0).
Qed.

Lemma subprocess_run_cannot_start (h : host) (args : list string)
    (check capture : bool) (timeout : option Z) (w : world)
    (f : run_failure) :
  spawn h args timeout = Failed f ->
  subprocess_run h opaque args check capture timeout w
  = (Raise (exn_of_failure f args timeout),
     after_call (Subprocess args timeout) w).
Proof. unfold subprocess_run, opaque, after_call. by intros ->. Qed.

Lemma subprocess_run_unchecked (h : host) (t : tool) (args : list string)
    (capture : bool) (timeout : option Z) (w w' : world) (rc : Z)
    (out err : PyBytes.bytes) :
  t (spawn h args timeout) (after_call (Subprocess args timeout) w)
  = (Completed rc out err, w') ->
  subprocess_run h t args false capture timeout w
  = (Return {| returncode := rc; stdout := out; stderr := err |}, w').
Proof. unfold subprocess_run, after_call. by intros ->. Qed.

End MoreMonad.

Section MoreLinux.
Import PyStr PyBytes Py Os Protocol Claims Behaviour.

Ltac step tac := eapply bind_Return_eq; [tac | cbv beta].
Ltac wsimpl :=
  cbv [with_environ with_fs with_scratch with_registry with_mime_default
       with_launch_services with_console with_logged with_calls
       after_call after_print artifacts_of
       environ fs scratch registry mime_default launch_services console
       logged calls] in *.

Lemma xdg_mime_default_run (entry mimetype : string) (rc : Z)
    (out err : bytes) (w : world) :
  xdg_mime_default entry mimetype (Completed rc out err) w
  = (Completed rc out err,
     if rc =? 0
     then with_mime_default (<[mimetype := entry]> (mime_default w)) w
     else w).
Proof. unfold xdg_mime_default. by destruct rc. Qed.

Lemma unlink_file (p c : string) (m : Z) (w : world) :
  fs w !! p = Some (File c m) ->
  unlink p w = (Return tt, with_fs (delete p (fs w)) w).
Proof. unfold unlink. by intros ->. Qed.

(** X10. Removing an installed Linux handler.  When the desktop entry is
    a file and both helper commands can be started,
    [unregister_linux_protocol_handler] deletes the entry, prints the
    removal notice and returns normally whatever the helpers' exit
    codes are; the scheme's default is cleared only if xdg-mime exits
    with code zero, and no other file changes. *)
Theorem unregister_linux_removes (h : host) (w : world) (c : string) (m : Z)
    (rc1 rc2 : Z) (o1 e1 o2 e2 : bytes) :
  fs w !! linux_desktop_path h = Some (File c m) ->
  spawn h xdg_mime_clear_args None = Completed rc1 o1 e1 ->
  spawn h (update_desktop_database_args h) None = Completed rc2 o2 e2 ->
  let '(r, w') := unregister_linux_protocol_handler h w in
  r = Return tt
  /\ fs w' = delete (linux_desktop_path h) (fs w)
  /\ mime_default w'
     = (if rc1 =? 0
        then <[scheme_mimetype := EmptyString]> (mime_default w)
        else mime_default w)
  /\ console w' = console w ++ [linux_removed_message]
  /\ calls w'
     = calls w ++ [Subprocess xdg_mime_clear_args None;
                   Subprocess (update_desktop_database_args h) None].
Proof.
  intros Hfile Hs1 Hs2.
  unfold xdg_mime_clear_args, update_desktop_database_args,
    linux_desktop_path in *.
  assert (Hrun : exists w',
    unregister_linux_protocol_handler h w = (Return tt, w')
    /\ fs w' = delete (linux_desktop_path h) (fs w)
    /\ mime_default w'
       = (if rc1 =? 0
          then <[scheme_mimetype := EmptyString]> (mime_default w)
          else mime_default w)
    /\ console w' = console w ++ [linux_removed_message]
    /\ calls w'
       = calls w ++ [Subprocess xdg_mime_clear_args None;
                     Subprocess (update_desktop_database_args h) None]).
  { eexists. split.
    - unfold unregister_linux_protocol_handler. apply try_except_Return.
      step ltac:(reflexivity).
      rewrite Hfile. cbn [bool_decide negb].
      replace (negb (bool_decide (is_Some (Some (File c m))))) with false
        by (by rewrite bool_decide_true).
      step ltac:(eapply unlink_file; exact Hfile).
      step ltac:(apply subprocess_run_unchecked; rewrite Hs1;
                 apply xdg_mime_default_run).
      step ltac:(eapply subprocess_run_opaque;
                 destruct (rc1 =? 0); exact Hs2).
      reflexivity.
    - destruct w. wsimpl. unfold linux_desktop_path, scheme_mimetype.
      destruct (rc1 =? 0); wsimpl; repeat split; try done.
      all: by rewrite <- app_assoc. }
  destruct Hrun as (w' & -> & Hrest). by split.
Qed.

Lemma unregister_linux_removes_witness :
  let '(r, w') :=
    unregister_linux_protocol_handler (xdg_exit_host 1) stale_entry_world in
  r = Return tt
  /\ fs w' = delete (linux_desktop_path (xdg_exit_host 1))
                    (fs stale_entry_world)
  /\ mime_default w' = mime_default stale_entry_world.
Proof.
  pose proof (unregister_linux_removes (xdg_exit_host 1) stale_entry_world
                "[Desktop Entry]" 420 1 0 [] [] [] []
                eq_refl eq_refl eq_refl) as H.
  destruct (unregister_linux_protocol_handler _ _) as [r w'].
  destruct H as (Hr & Hfs & Hmime & _). by repeat split.
Defined.

(** The Linux registration up to the point where xdg-mime is run. *)
Lemma setup_linux_files (h : host) (w wa wb : world) :
  mkdir_parents_exist_ok (linux_applications_dir h) w = (Return tt, wa) ->
  write_text h (linux_desktop_path h) (desktop_content (hcli_executable_path h))
    wa = (Return tt, wb) ->
  exists f m,
    wb = with_fs (<[linux_desktop_path h
                     := File (desktop_content (hcli_executable_path h)) m]> f) w
    /\ Forall (fun p => f !! p = Some Dir)
              (prefixes_at slash EmptyString (linux_applications_dir h))
    /\ f !! linux_desktop_path h <> Some Dir.
Proof.
  intros Ha Hb.
  apply mkdir_parents_exist_ok_inv in Ha as (f & Hf & ->).
  apply write_text_inv in Hb as (Hnd & m & ->).
  apply mkdir_chain_dirs in Hf as [_ Hdirs].
  exists f, m. destruct w. by repeat split.
Qed.

(** X11. No rollback when xdg-mime fails.  If the applications directory
    and the desktop entry could be written and xdg-mime exits with a
    code other than zero, [setup_linux_protocol_handler] prints the
    failure line and raises [CalledProcessError] with that code; the
    desktop entry stays in place, with its text and mode 0o755, and the
    scheme's default is as it was. *)
Theorem setup_linux_xdg_failure (h : host) (w wa wb : world) (rc : Z)
    (out err : bytes) :
  mkdir_parents_exist_ok (linux_applications_dir h) w = (Return tt, wa) ->
  write_text h (linux_desktop_path h) (desktop_content (hcli_executable_path h))
    wa = (Return tt, wb) ->
  spawn h xdg_mime_args None = Completed rc out err ->
  rc <> 0 ->
  let e := CalledProcessError rc xdg_mime_args None None in
  let '(r, w') := setup_linux_protocol_handler h w in
  r = Raise e
  /\ fs w' !! linux_desktop_path h
     = Some (File (desktop_content (hcli_executable_path h)) 493)
  /\ mime_default w' = mime_default w
  /\ console w' = console w ++ [linux_failed_message e].
Proof.
  intros Ha Hb Hs Hrc e.
  destruct (setup_linux_files h w wa wb Ha Hb) as (f & m & Hwb & _ & _).
  unfold linux_desktop_path, xdg_mime_args in *.
  assert (Hrun : exists w',
    setup_linux_protocol_handler h w = (Raise e, w')
    /\ fs w' !! linux_desktop_path h
       = Some (File (desktop_content (hcli_executable_path h)) 493)
    /\ mime_default w' = mime_default w
    /\ console w' = console w ++ [linux_failed_message e]).
  { eexists. split.
    - unfold setup_linux_protocol_handler.
      eapply (try_except_Raise_eq _ _ _ _ e); [| reflexivity | reflexivity].
      step ltac:(exact Ha). step ltac:(exact Hb).
      step ltac:(eapply chmod_file; rewrite Hwb; apply lookup_insert_eq).
      apply bind_Raise.
      apply (subprocess_run_check_fails h _ _ false None _ _ rc out err);
        [| done].
      rewrite Hs, xdg_mime_default_run.
      destruct (Z.eqb_spec rc 0); [contradiction | reflexivity].
    - subst wb. destruct w. wsimpl. unfold linux_desktop_path.
      repeat split; try done.
      rewrite insert_insert_eq. apply lookup_insert_eq. }
  destruct Hrun as (w' & -> & Hrest). by split.
Qed.

Lemma setup_linux_xdg_failure_witness :
  let h := xdg_exit_host 1 in
  let e := CalledProcessError 1 xdg_mime_args None None in
  let '(r, w') := setup_linux_protocol_handler h empty_world in
  r = Raise e
  /\ fs w' !! linux_desktop_path h
     = Some (File (desktop_content (hcli_executable_path h)) 493)
  /\ mime_default w' = ∅.
Proof.
  intros h e.
  pose proof (setup_linux_xdg_failure h empty_world
                (with_applications_dir h) (with_desktop_entry h) 1 [] []) as H.
  destruct (setup_linux_protocol_handler h empty_world) as [r w'].
  destruct H as (Hr & Hfs & Hmime & _).
  - vm_compute. reflexivity.
  - vm_compute. reflexivity.
  - reflexivity.
  - discriminate.
  - by repeat split.
Defined.

(** X12. The exit code of update-desktop-database does not matter.  If
    the applications directory and the desktop entry could be written,
    xdg-mime exits with code zero and update-desktop-database can be
    started, [setup_linux_protocol_handler] returns normally whatever
    code the latter exits with, and the handler is in place: the
    directories exist, the entry holds the text for this executable with
    mode 0o755, and it is the default for the scheme. *)
Theorem setup_linux_ignores_update_exit (h : host) (w wa wb : world)
    (rc : Z) (o1 e1 o2 e2 : bytes) :
  mkdir_parents_exist_ok (linux_applications_dir h) w = (Return tt, wa) ->
  write_text h (linux_desktop_path h) (desktop_content (hcli_executable_path h))
    wa = (Return tt, wb) ->
  spawn h xdg_mime_args None = Completed 0 o1 e1 ->
  spawn h (update_desktop_database_args h) None = Completed rc o2 e2 ->
  let '(r, w') := setup_linux_protocol_handler h w in
  r = Return tt /\ linux_registered h w'.
Proof.
  intros Ha Hb Hs1 Hs2.
  destruct (setup_linux_files h w wa wb Ha Hb) as (f & m & Hwb & Hdirs & Hnd).
  unfold linux_desktop_path, xdg_mime_args, update_desktop_database_args in *.
  assert (Hrun : exists w',
    setup_linux_protocol_handler h w = (Return tt, w')).
  { eexists. unfold setup_linux_protocol_handler. apply try_except_Return.
    step ltac:(exact Ha). step ltac:(exact Hb).
    step ltac:(eapply chmod_file; rewrite Hwb; apply lookup_insert_eq).
    step ltac:(apply subprocess_run_checked; rewrite Hs1; reflexivity).
    step ltac:(eapply subprocess_run_opaque; exact Hs2).
    reflexivity. }
  destruct Hrun as (w' & Hrun). rewrite Hrun. split; [done |].
  by apply setup_linux_establishes in Hrun as [Hreg _].
Qed.

Lemma setup_linux_ignores_update_exit_witness :
  let h := update_exit_host 1 in
  let '(r, w') := setup_linux_protocol_handler h empty_world in
  r = Return tt /\ linux_registered h w'.
Proof.
  intros h.
  apply (setup_linux_ignores_update_exit h empty_world
           (with_applications_dir h) (with_desktop_entry h) 1 [] [] [] []).
  - vm_compute. reflexivity.
  - vm_compute. reflexivity.
  - reflexivity.
  - reflexivity.
Defined.

(** X13. A missing update-desktop-database is fatal all the same.  Under
    the same conditions, if update-desktop-database cannot be started,
    [setup_linux_protocol_handler] prints the error line and raises the
    failure of the launch, although the handler is already in place. *)
Theorem setup_linux_update_cannot_start (h : host) (w wa wb : world)
    (o1 e1 : bytes) (f : run_failure) :
  mkdir_parents_exist_ok (linux_applications_dir h) w = (Return tt, wa) ->
  write_text h (linux_desktop_path h) (desktop_content (hcli_executable_path h))
    wa = (Return tt, wb) ->
  spawn h xdg_mime_args None = Completed 0 o1 e1 ->
  spawn h (update_desktop_database_args h) None = Failed f ->
  let e := exn_of_failure f (update_desktop_database_args h) None in
  let '(r, w') := setup_linux_protocol_handler h w in
  r = Raise e
  /\ linux_registered h w'
  /\ console w' = console w ++ [linux_error_message e].
Proof.
  intros Ha Hb Hs1 Hs2 e.
  destruct (setup_linux_files h w wa wb Ha Hb) as (f0 & m & Hwb & Hdirs & Hnd).
  unfold linux_desktop_path, xdg_mime_args, update_desktop_database_args in *.
  assert (Hrun : exists w',
    setup_linux_protocol_handler h w = (Raise e, w')
    /\ linux_registered h w'
    /\ console w' = console w ++ [linux_error_message e]).
  { destruct f; eexists; (split; [| split]).
    all: try (unfold setup_linux_protocol_handler;
      eapply (try_except_Raise_eq _ _ _ _ e); [| reflexivity | reflexivity];
      step ltac:(exact Ha); step ltac:(exact Hb);
      step ltac:(eapply chmod_file; rewrite Hwb; apply lookup_insert_eq);
      step ltac:(apply subprocess_run_checked; rewrite Hs1; reflexivity);
      apply bind_Raise; by apply subprocess_run_cannot_start).
    all: subst wb; destruct w; unfold linux_registered, linux_desktop_path;
      wsimpl; try done.
    all: split; [| split; [| apply lookup_insert_eq]].
    all: try (rewrite insert_insert_eq; apply lookup_insert_eq).
    all: eapply Forall_impl; [exact Hdirs |]; intros p Hp; simpl in Hp;
      rewrite insert_insert_eq, lookup_insert_ne; [done |];
      intros <-; congruence. }
  destruct Hrun as (w' & -> & Hrest). by split.
Qed.

Lemma setup_linux_update_cannot_start_witness :
  let h := no_update_host in
  let e := OSError FileNotFoundError_ "update-desktop-database" in
  let '(r, w') := setup_linux_protocol_handler h empty_world in
  r = Raise e
  /\ linux_registered h w'
  /\ console w' = [linux_error_message e].
Proof.
  intros h e.
  apply (setup_linux_update_cannot_start h empty_world
           (with_applications_dir h) (with_desktop_entry h) [] [] NoSuchFile).
  - vm_compute. reflexivity.
  - vm_compute. reflexivity.
  - reflexivity.
  - reflexivity.
Defined.

End MoreLinux.
Section MoreMacOS.
Import PyStr PyBytes Py Os Protocol Claims Behaviour.
Local Arguments String.append !_ _ / : simpl nomatch.

Ltac step tac := eapply bind_Return_eq; [tac | cbv beta].
Ltac wsimpl :=
  cbv [with_environ with_fs with_scratch with_registry with_mime_default
       with_launch_services with_console with_logged with_calls
       after_call after_print artifacts_of
       environ fs scratch registry mime_default launch_services console
       logged calls] in *.

Lemma startswith_append_same (a x y : string) :
  startswith (a +:+ x) (a +:+ y) = startswith x y.
Proof.
  induction a as [|c a IH]; simpl; [done |].
  by rewrite Ascii.eqb_refl, IH.
Qed.

Lemma within_below (app rest : string) :
  startswith "/" rest = true -> within app (app +:+ rest) = true.
Proof.
  intros H. unfold within. apply orb_true_iff. right.
  by rewrite startswith_append_same.
Qed.

Lemma within_self (app : string) : within app app = true.
Proof. unfold within. by rewrite bool_decide_true. Qed.

Lemma bundle_dirs_within (app d : string) :
  d ∈ bundle_dirs app -> within app d = true.
Proof.
  unfold bundle_dirs. intros Hd.
  repeat (apply elem_of_cons in Hd as [-> | Hd]);
    try (by apply elem_of_nil in Hd).
  - apply within_self.
  - by apply within_below.
  - by apply within_below.
  - by apply within_below.
Qed.

(** Outside the bundle, registration leaves the files as they were. *)
Lemma lookup_macos_fs_outside (h : host) (f : gmap string node) (k : string) :
  within (macos_app_path h) k = false -> macos_fs h f !! k = f !! k.
Proof.
  intros Hk.
  assert (Hp : k <> bundle_plist (macos_app_path h)).
  { intros ->. unfold bundle_plist in Hk. by rewrite within_below in Hk. }
  assert (Hs : k <> bundle_script (macos_app_path h)).
  { intros ->. unfold bundle_script in Hk. by rewrite within_below in Hk. }
  assert (Hd : k ∉ bundle_dirs (macos_app_path h)).
  { intros Hd. apply bundle_dirs_within in Hd. congruence. }
  rewrite lookup_macos_fs_ne, lookup_compiled_bundle by done.
  by rewrite !decide_False.
Qed.

Lemma append_not_self (a s : string) : s <> EmptyString -> a +:+ s <> a.
Proof.
  intros Hs H. apply Hs. apply (append_inv_head a).
  by rewrite append_nil_r.
Qed.

(** After registration the bundle directory exists. *)
Lemma lookup_macos_fs_app (h : host) (f : gmap string node) :
  macos_fs h f !! macos_app_path h = Some Dir.
Proof.
  assert (Hp : macos_app_path h <> bundle_plist (macos_app_path h))
    by (intros H; symmetry in H; by apply append_not_self in H).
  assert (Hs : macos_app_path h <> bundle_script (macos_app_path h))
    by (intros H; symmetry in H; by apply append_not_self in H).
  rewrite lookup_macos_fs_ne, lookup_compiled_bundle by done.
  rewrite !decide_False by done.
  rewrite decide_True; [done | apply list_elem_of_here].
Qed.

Lemma lsregister_run (add : bool) (app : string) (rc : Z) (out err : bytes)
    (w : world) :
  lsregister add app (Completed rc out err) w
  = (Completed rc out err,
     if rc =? 0
     then with_launch_services
            (if add then {[app]} ∪ launch_services w
             else launch_services w ∖ {[app]}) w
     else w).
Proof. unfold lsregister. by destruct rc. Qed.

Lemma rmtree_dir (p : string) (w : world) :
  fs w !! p = Some Dir ->
  rmtree p w
  = (Return tt,
     with_fs (filter (fun kv => within p kv.1 = false) (fs w)) w).
Proof. unfold rmtree. by intros ->. Qed.

Lemma lookup_without_tree (p : string) (f : gmap string node) (k : string) :
  filter (fun kv : string * node => within p kv.1 = false) f !! k
  = if within p k then None else f !! k.
Proof.
  destruct (within p k) eqn:Hk.
  - apply map_lookup_filter_None. right. intros x _. simpl. congruence.
  - destruct (f !! k) as [x |] eqn:Hf.
    + by apply map_lookup_filter_Some.
    + apply map_lookup_filter_None. by left.
Qed.

(** The removal of an installed macOS handler. *)
Lemma unregister_macos_run (h : host) (w : world) (rc : Z) (out err : bytes) :
  fs w !! macos_app_path h = Some Dir ->
  spawn h (lsregister_remove_args h) None = Completed rc out err ->
  exists w',
    unregister_macos_protocol_handler h w = (Return tt, w')
    /\ fs w' = filter (fun kv => within (macos_app_path h) kv.1 = false) (fs w)
    /\ launch_services w'
       = (if rc =? 0 then launch_services w ∖ {[macos_app_path h]}
          else launch_services w)
    /\ console w' = console w ++ [macos_removed_message h]
    /\ registry w' = registry w /\ mime_default w' = mime_default w.
Proof.
  intros Hdir Hs. unfold lsregister_remove_args in Hs.
  eexists. split.
  - unfold unregister_macos_protocol_handler. apply try_except_Return.
    step ltac:(reflexivity).
    rewrite Hdir.
    replace (negb (bool_decide (is_Some (Some Dir)))) with false
      by (by rewrite bool_decide_true).
    step ltac:(by apply rmtree_dir).
    step ltac:(apply subprocess_run_unchecked; rewrite Hs;
               apply lsregister_run).
    reflexivity.
  - destruct w. wsimpl. by destruct (rc =? 0).
Qed.

(** X14. Removing an installed macOS handler.  When the bundle directory
    exists and lsregister can be started, the bundle and everything
    below it is deleted and every other file is kept; the call prints
    the removal notice and returns normally whatever lsregister's exit
    code is, and the bundle leaves the launch-service index only if that
    code is zero. *)
Theorem unregister_macos_removes (h : host) (w : world) (rc : Z)
    (out err : bytes) :
  fs w !! macos_app_path h = Some Dir ->
  spawn h (lsregister_remove_args h) None = Completed rc out err ->
  let '(r, w') := unregister_macos_protocol_handler h w in
  r = Return tt
  /\ (forall k, fs w' !! k
                = if within (macos_app_path h) k then None else fs w !! k)
  /\ launch_services w'
     = (if rc =? 0 then launch_services w ∖ {[macos_app_path h]}
        else launch_services w)
  /\ console w' = console w ++ [macos_removed_message h].
Proof.
  intros Hdir Hs.
  destruct (unregister_macos_run h w rc out err Hdir Hs)
    as (w' & -> & Hfs & Hls & Hco & _).
  repeat split; try done.
  intros k. rewrite Hfs. apply lookup_without_tree.
Qed.

Lemma unregister_macos_removes_witness :
  let h := working_host "Darwin" true in
  let w := (setup_macos_protocol_handler h empty_world).2 in
  let '(r, w') := unregister_macos_protocol_handler h w in
  r = Return tt
  /\ (forall k, fs w' !! k
                = if within (macos_app_path h) k then None else fs w !! k)
  /\ launch_services w'
     = (if 0 =? 0 then launch_services w ∖ {[macos_app_path h]}
        else launch_services w)
  /\ console w' = console w ++ [macos_removed_message h].
Proof.
  intros h w.
  apply (unregister_macos_removes h w 0 [] []).
  - vm_compute. reflexivity.
  - reflexivity.
Defined.

(** X15. A macOS registration can be taken back.  After a registration
    that returned normally on a machine with nothing at or below the
    bundle path, unregistering returns normally and leaves exactly the
    files there were before the registration, whatever lsregister's exit
    code; registry and MIME defaults are as before too. *)
Theorem register_then_unregister_macos (h : host) (w w1 : world) (rc : Z)
    (out err : bytes) :
  setup_macos_protocol_handler h w = (Return tt, w1) ->
  (forall k, within (macos_app_path h) k = true -> fs w !! k = None) ->
  spawn h (lsregister_remove_args h) None = Completed rc out err ->
  let '(r, w2) := unregister_macos_protocol_handler h w1 in
  r = Return tt /\ fs w2 = fs w
  /\ registry w2 = registry w /\ mime_default w2 = mime_default w.
Proof.
  intros Hreg Hnone Hs.
  pose proof (setup_macos_inv h w w1 Hreg) as Htools.
  destruct (setup_macos_run h w Htools) as (w1' & Hrun & Hart).
  assert (w1' = w1) as -> by congruence.
  assert (Hfs : fs w1 = macos_fs h (fs w))
    by (by injection Hart; destruct w1).
  assert (Hrg : registry w1 = registry w)
    by (by injection Hart; destruct w1).
  assert (Hmi : mime_default w1 = mime_default w)
    by (by injection Hart; destruct w1).
  assert (Hdir : fs w1 !! macos_app_path h = Some Dir)
    by (rewrite Hfs; apply lookup_macos_fs_app).
  destruct (unregister_macos_run h w1 rc out err Hdir Hs)
    as (w2 & -> & Hfs2 & _ & _ & Hrg2 & Hmi2).
  split; [done |]. split; [| by rewrite Hrg2, Hmi2].
  apply map_eq. intros k. rewrite Hfs2, lookup_without_tree, Hfs.
  destruct (within (macos_app_path h) k) eqn:Hk.
  - symmetry. by apply Hnone.
  - by apply lookup_macos_fs_outside.
Qed.

Lemma register_then_unregister_macos_witness :
  let h := working_host "Darwin" true in
  let '(r, w2) := unregister_macos_protocol_handler h
                    (setup_macos_protocol_handler h empty_world).2 in
  r = Return tt /\ fs w2 = fs empty_world
  /\ registry w2 = registry empty_world
  /\ mime_default w2 = mime_default empty_world.
Proof.
  intros h.
  apply (register_then_unregister_macos h empty_world _ 0 [] []).
  - vm_compute. reflexivity.
  - intros k _. apply lookup_empty.
  - reflexivity.
Defined.

(** X16. When the URL scheme ends up declared.  After a macOS
    registration that returned normally the bundle's property list is a
    file, and it holds the URL-types key exactly when the list
    osacompile left already held it or held the two closing tags
    separated by one line feed; otherwise the registration still
    reports success, with no declaration written. *)
Theorem macos_declares_scheme_iff (h : host) (w w1 : world) :
  setup_macos_protocol_handler h w = (Return tt, w1) ->
  exists text,
    plist_text h w1 = Some text
    /\ (contains URL_TYPES_KEY text = true
        <-> contains URL_TYPES_KEY (compiled_text h (fs w)) = true
            \/ contains PLIST_END (compiled_text h (fs w)) = true).
Proof.
  intros Hreg.
  pose proof (setup_macos_inv h w w1 Hreg) as Htools.
  destruct (setup_macos_run h w Htools) as (w1' & Hrun & Hart).
  assert (w1' = w1) as -> by congruence.
  assert (Hfs : fs w1 = macos_fs h (fs w))
    by (by injection Hart; destruct w1).
  unfold plist_text. rewrite Hfs.
  destruct (lookup_macos_fs_plist h (fs w)) as (text & m & -> & Hcase).
  exists text. split; [done |].
  unfold needs_patch in Hcase.
  destruct (contains URL_TYPES_KEY (compiled_text h (fs w))) eqn:Hkey;
    simpl in Hcase.
  - assert (text = compiled_text h (fs w)) as ->.
    { unfold compiled_text. by rewrite <- Hcase. }
    rewrite Hkey. split; [by left | done].
  - destruct Hcase as [-> _]. unfold patched_plist, replace.
    change PLIST_END with (String "<" "/dict>" +:+ LF +:+ "</plist>") at 1.
    cbn [String.append].
    change (String "<" ("/dict>" +:+ LF +:+ "</plist>")) with PLIST_END.
    destruct (contains PLIST_END (compiled_text h (fs w))) eqn:Hend.
    + split; [by right |]. intros _.
      apply replace_from_contains; [by vm_compute | done | done].
    + rewrite replace_from_inert by done. rewrite Hkey.
      split; [done | by intros [? | ?]].
Qed.

Lemma macos_declares_scheme_iff_witness :
  let h := compact_plist_host in
  exists text,
    plist_text h (setup_macos_protocol_handler h empty_world).2 = Some text
    /\ (contains URL_TYPES_KEY text = true
        <-> contains URL_TYPES_KEY (compiled_text h (fs empty_world)) = true
            \/ contains PLIST_END (compiled_text h (fs empty_world)) = true).
Proof.
  intros h.
  apply (macos_declares_scheme_iff h empty_world).
  vm_compute. reflexivity.
Defined.

Lemma with_exit_Raise {A : Type} (body : M A) (leave : M unit)
    (w w1 w2 : world) (e : exn) :
  body w = (Raise e, w1) -> leave w1 = (Return tt, w2) ->
  with_exit body leave w = (Raise e, w2).
Proof. unfold with_exit. by intros -> ->. Qed.

Lemma plutil_binary1_exit (file : string) (rc : Z) (out err : bytes)
    (w : world) :
  rc <> 0 ->
  plutil_binary1 file (Completed rc out err) w = (Completed rc out err, w).
Proof. unfold plutil_binary1. by destruct rc. Qed.

(** X17. A failed conversion leaves its scratch file behind.  When
    osacompile and the XML conversion succeed, the declaration is still
    to be added and plutil's conversion to the binary format exits with
    a non-zero code, the registration prints the failure line and
    raises CalledProcessError for that command; the bundle stays as
    osacompile left it, nothing is registered with the launch services,
    the temporary script is gone, and the patched property list remains
    in its temporary file; the three commands run are osacompile and
    the two conversions, and lsregister is not among them. *)
Theorem setup_macos_conversion_failure (h : host) (w : world) (rc : Z)
    (o1 e1 o2 e2 o3 e3 : bytes) :
  spawn h (osacompile_args h) None = Completed 0 o1 e1 ->
  spawn h (plutil_xml1_args h) None = Completed 0 o2 e2 ->
  needs_patch h (fs w) = true ->
  spawn h (plutil_binary1_args h) None = Completed rc o3 e3 ->
  rc <> 0 ->
  tmp_plist h <> macos_script_path h ->
  let e := CalledProcessError rc (plutil_binary1_args h) None None in
  let '(r, w') := setup_macos_protocol_handler h w in
  r = Raise e
  /\ fs w' = compiled_bundle h (fs w)
  /\ launch_services w' = launch_services w
  /\ scratch w' !! macos_script_path h = None
  /\ scratch w' !! tmp_plist h
     = Some (patched_plist (compiled_text h (fs w)))
  /\ console w' = console w ++ [macos_failed_message e]
  /\ calls w'
     = calls w ++ [Subprocess (osacompile_args h) None;
                   Subprocess (plutil_xml1_args h) None;
                   Subprocess (plutil_binary1_args h) None].
Proof.
  intros Hosa Hxml Hn Hb Hrc Hne e.
  unfold osacompile_args, plutil_xml1_args, plutil_binary1_args in *.
  assert (exists w',
    setup_macos_protocol_handler h w = (Raise e, w')
    /\ fs w' = compiled_bundle h (fs w)
    /\ launch_services w' = launch_services w
    /\ scratch w'
       = delete (macos_script_path h)
           (<[tmp_plist h := patched_plist (compiled_text h (fs w))]>
              (<[macos_script_path h := macos_source h]> (scratch w)))
    /\ console w' = console w ++ [macos_failed_message e]
    /\ calls w'
       = calls w ++ [Subprocess ["osacompile"; "-o"; macos_app_path h;
                                 macos_script_path h] None;
                     Subprocess ["plutil"; "-convert"; "xml1"; "-o"; "-";
                                 bundle_plist (macos_app_path h)] None;
                     Subprocess ["plutil"; "-convert"; "binary1";
                                 tmp_plist h] None])
    as (w' & -> & Hfs & Hls & Hsc & Hco & Hca).
  { unfold setup_macos_protocol_handler.
    rewrite info_plist_path_eq.
    fold (macos_script_path h) (macos_source h).
    destruct w as [en f sc rg mi ls co lg ca]. wsimpl.
    eexists. split.
    - eapply (try_except_Raise_eq _ _ _ _ e); [| reflexivity | reflexivity].
      eapply with_exit_Raise; [| reflexivity].
      step ltac:(reflexivity).
      step ltac:(apply subprocess_run_checked; rewrite Hosa;
                 apply osacompile_ok, lookup_insert_eq).
      step ltac:(apply subprocess_run_checked; rewrite Hxml;
                 eapply plutil_xml1_ok, lookup_compiled_bundle_plist).
      cbn [stdout]. rewrite decode_encode. wsimpl.
      change (negb (contains "<key>CFBundleURLTypes</key>" (compiled_text h f)))
        with (needs_patch h f).
      rewrite Hn.
      apply bind_Raise.
      step ltac:(reflexivity).
      apply bind_Raise.
      apply (subprocess_run_check_fails _ _ _ false None _ _ rc o3 e3);
        [| done].
      rewrite Hb. by apply plutil_binary1_exit.
    - wsimpl. repeat split; try reflexivity.
      by rewrite <- !app_assoc. }
  repeat split; try done.
  - rewrite Hsc. apply lookup_delete_eq.
  - rewrite Hsc. rewrite lookup_delete_ne by done. apply lookup_insert_eq.
Qed.

Lemma setup_macos_conversion_failure_witness :
  let h := binary1_fails_host in
  let e := CalledProcessError 1 (plutil_binary1_args h) None None in
  let '(r, w') := setup_macos_protocol_handler h empty_world in
  r = Raise e
  /\ fs w' = compiled_bundle h (fs empty_world)
  /\ launch_services w' = launch_services empty_world
  /\ scratch w' !! macos_script_path h = None
  /\ scratch w' !! tmp_plist h
     = Some (patched_plist (compiled_text h (fs empty_world)))
  /\ console w' = console empty_world ++ [macos_failed_message e]
  /\ calls w'
     = calls empty_world ++ [Subprocess (osacompile_args h) None;
                             Subprocess (plutil_xml1_args h) None;
                             Subprocess (plutil_binary1_args h) None].
Proof.
  intros h.
  apply (setup_macos_conversion_failure h empty_world 1 [] [] [] [] [] []).
  - reflexivity.
  - reflexivity.
  - vm_compute. reflexivity.
  - reflexivity.
  - discriminate.
  - discriminate.
Defined.

End MoreMacOS.
Section WindowsValues.
Import PyStr PyBytes Py Os Protocol Claims Behaviour.

Lemma ensure_at_value (k' k : string) (x : option (gmap string reg_value))
    (name : string) :
  ensure_at k' k x ≫= (fun vs => vs !! name) = x ≫= (fun vs => vs !! name).
Proof.
  unfold ensure_at. case_decide; [| done].
  destruct x; simpl; [done | apply lookup_empty].
Qed.

Lemma set_at_value (k' n d k : string) (x : option (gmap string reg_value))
    (name : string) :
  name <> n ->
  set_at k' n d k x ≫= (fun vs => vs !! name) = x ≫= (fun vs => vs !! name).
Proof.
  intros Hne. unfold set_at. case_decide; [| done].
  destruct x; simpl; [| done]. by rewrite lookup_insert_ne.
Qed.

Lemma ensure_at_is_Some (k' k : string) (x : option (gmap string reg_value)) :
  is_Some x -> is_Some (ensure_at k' k x).
Proof. unfold ensure_at. by case_decide. Qed.

Lemma set_at_is_Some (k' n d k : string)
    (x : option (gmap string reg_value)) :
  is_Some x -> is_Some (set_at k' n d k x).
Proof.
  unfold set_at. case_decide; [| done]. intros [vs ->]. by eexists.
Qed.

(** X18. What a Windows registration writes and what it keeps.  After
    [setup_windows_protocol_handler] has returned normally, the
    scheme's key holds the protocol description as its default value
    and an empty URL Protocol value, the icon key and the command key
    hold the executable's path and the open command as their default
    values; every key that existed still exists, and every value
    under a name other than the default and URL Protocol is, in every
    key, what it was before. *)
Theorem setup_windows_writes (h : host) (w w1 : world) :
  setup_windows_protocol_handler h w = (Return tt, w1) ->
  (exists vs, registry w1 !! reg_key = Some vs
              /\ vs !! "" = Some (REG_SZ "URL:IDA Protocol")
              /\ vs !! "URL Protocol" = Some (REG_SZ ""))
  /\ (exists vs, registry w1 !! (reg_key +:+ "\DefaultIcon") = Some vs
                 /\ vs !! "" = Some (REG_SZ (hcli_executable_path h +:+ ",1")))
  /\ (exists vs, registry w1 !! (reg_key +:+ "\shell\open\command") = Some vs
                 /\ vs !! "" = Some (REG_SZ (windows_command h)))
  /\ (forall k, is_Some (registry w !! k) -> is_Some (registry w1 !! k))
  /\ (forall k name, name <> "" -> name <> "URL Protocol" ->
        registry w1 !! k ≫= (fun vs => vs !! name)
        = registry w !! k ≫= (fun vs => vs !! name)).
Proof.
  intros H. pose proof (setup_windows_inv h w w1 H) as Hreg.
  rewrite setup_windows_run in H by done. injection H as <-.
  destruct w as [en f sc rg mi ls co lg ca].
  cbv [with_environ with_fs with_scratch with_registry with_mime_default
       with_launch_services with_console with_logged with_calls
       after_call after_print
       environ fs scratch registry mime_default launch_services console
       logged calls].
  change reg_key with "SOFTWARE\Classes\ida".
  change ("SOFTWARE\Classes\ida" +:+ "\DefaultIcon")
    with "SOFTWARE\Classes\ida\DefaultIcon".
  change ("SOFTWARE\Classes\ida" +:+ "\shell\open\command")
    with "SOFTWARE\Classes\ida\shell\open\command".
  repeat split.
  - rewrite lookup_windows_registry. cbn [foldl].
    repeat first
      [ rewrite ensure_at_eq | rewrite set_at_eq
      | rewrite ensure_at_ne by discriminate
      | rewrite set_at_ne by discriminate ].
    destruct (rg !! _); simpl; eexists; (split; [reflexivity |]).
    all: split; [by rewrite lookup_insert_ne, lookup_insert_eq
                | apply lookup_insert_eq].
  - rewrite lookup_windows_registry. cbn [foldl].
    repeat first
      [ rewrite ensure_at_eq | rewrite set_at_eq
      | rewrite ensure_at_ne by discriminate
      | rewrite set_at_ne by discriminate ].
    destruct (rg !! _); simpl; eexists; (split; [reflexivity |]).
    all: apply lookup_insert_eq.
  - rewrite lookup_windows_registry. cbn [foldl].
    repeat first
      [ rewrite ensure_at_eq | rewrite set_at_eq
      | rewrite ensure_at_ne by discriminate
      | rewrite set_at_ne by discriminate ].
    destruct (rg !! _); simpl; eexists; (split; [reflexivity |]).
    all: apply lookup_insert_eq.
  - intros k Hk. rewrite lookup_windows_registry. cbn [foldl].
    repeat first [ apply ensure_at_is_Some | apply set_at_is_Some ].
    exact Hk.
  - intros k name Hn1 Hn2. rewrite lookup_windows_registry. cbn [foldl].
    repeat first
      [ rewrite ensure_at_value | rewrite set_at_value by done ].
    reflexivity.
Qed.

Lemma setup_windows_writes_witness :
  let h := working_host "Windows" true in
  let w := shared_registry_world in
  let w1 := (setup_windows_protocol_handler h w).2 in
  (exists vs, registry w1 !! reg_key = Some vs
              /\ vs !! "" = Some (REG_SZ "URL:IDA Protocol")
              /\ vs !! "URL Protocol" = Some (REG_SZ ""))
  /\ (exists vs, registry w1 !! (reg_key +:+ "\DefaultIcon") = Some vs
                 /\ vs !! "" = Some (REG_SZ (hcli_executable_path h +:+ ",1")))
  /\ (exists vs, registry w1 !! (reg_key +:+ "\shell\open\command") = Some vs
                 /\ vs !! "" = Some (REG_SZ (windows_command h)))
  /\ (forall k, is_Some (registry w !! k) -> is_Some (registry w1 !! k))
  /\ (forall k name, name <> "" -> name <> "URL Protocol" ->
        registry w1 !! k ≫= (fun vs => vs !! name)
        = registry w !! k ≫= (fun vs => vs !! name)).
Proof.
  intros h w w1.
  apply (setup_windows_writes h w w1).
  vm_compute. reflexivity.
Defined.

End WindowsValues.
Section MacOSRemovalFailure.
Import PyStr PyBytes Py Os Protocol Claims Behaviour.

Ltac step tac := eapply bind_Return_eq; [tac | cbv beta].

(** X19. The bundle goes before lsregister is asked.  When the bundle
    directory exists but lsregister cannot be started, unregistering
    has already deleted the bundle and everything below it when it
    prints the error line and raises the start failure: the non-zero
    exit code of lsregister is tolerated, its absence is not. *)
Theorem unregister_macos_lsregister_missing (h : host) (w : world)
    (f : run_failure) :
  fs w !! macos_app_path h = Some Dir ->
  spawn h (lsregister_remove_args h) None = Failed f ->
  let e := exn_of_failure f (lsregister_remove_args h) None in
  let '(r, w') := unregister_macos_protocol_handler h w in
  r = Raise e
  /\ (forall k, fs w' !! k
                = if within (macos_app_path h) k then None else fs w !! k)
  /\ launch_services w' = launch_services w
  /\ console w' = console w ++ [macos_remove_error_message e].
Proof.
  intros Hdir Hs e. unfold lsregister_remove_args in *.
  assert (exists w',
    unregister_macos_protocol_handler h w = (Raise e, w')
    /\ fs w' = filter (fun kv => within (macos_app_path h) kv.1 = false) (fs w)
    /\ launch_services w' = launch_services w
    /\ console w' = console w ++ [macos_remove_error_message e])
    as (w' & -> & Hfs & Hls & Hco).
  { eexists. split.
    - unfold unregister_macos_protocol_handler.
      eapply (try_except_Raise_eq _ _ _ _ e);
        [| by destruct f | reflexivity].
      step ltac:(reflexivity).
      rewrite Hdir.
      replace (negb (bool_decide (is_Some (Some Dir)))) with false
        by (by rewrite bool_decide_true).
      step ltac:(by apply rmtree_dir).
      apply bind_Raise.
      unfold subprocess_run. rewrite Hs. reflexivity.
    - destruct w.
      cbv [with_environ with_fs with_scratch with_registry with_mime_default
           with_launch_services with_console with_logged with_calls
           after_call after_print
           environ fs scratch registry mime_default launch_services console
           logged calls].
      repeat split; reflexivity. }
  repeat split; try done.
  intros k. rewrite Hfs. apply lookup_without_tree.
Qed.

Lemma unregister_macos_lsregister_missing_witness :
  let h := no_lsregister_host in
  let w := bundle_world h in
  let e := exn_of_failure NoSuchFile (lsregister_remove_args h) None in
  let '(r, w') := unregister_macos_protocol_handler h w in
  r = Raise e
  /\ (forall k, fs w' !! k
                = if within (macos_app_path h) k then None else fs w !! k)
  /\ launch_services w' = launch_services w
  /\ console w' = console w ++ [macos_remove_error_message e].
Proof.
  intros h w.
  apply (unregister_macos_lsregister_missing h w NoSuchFile).
  - vm_compute. reflexivity.
  - reflexivity.
Defined.

End MacOSRemovalFailure.
